(** * The E-AC-3 bridge (packages/eac3/src/eac3-bridge.c), embedded in Rocq

    The bridge is a thin C layer between a WebAssembly host and libavcodec.
    It owns two kinds of session ([decoder_state], [encoder_state]), each a
    struct of three pointers, and converts between the interleaved float
    layout of the host and the planar float layout of the codec.

    The embedding keeps the shape of the C code: a store of objects addressed
    by pointers, a state-and-fault monad for the statements of each function,
    and the codec itself as a record of functions (the bridge only forwards to
    it).  Undefined behaviour of the C program (a null or dangling
    dereference, an access outside a buffer) is the outcome [Fault]. *)

From Stdlib Require Import ZArith Lia.
From stdpp Require Import base numbers option list gmap fin_maps.

Local Open Scope Z_scope.

(** ** Machine values *)

(** A pointer is an address; the null pointer is address 0. *)
Definition ptr := Z.
Definition NULL : ptr := 0.

(** A C [float] is carried as its binary32 bit pattern: the bridge moves
    samples, it never computes with them. *)
Definition f32 := Z.

Definition byte : Type := Byte.byte.

(** C [int] is 32 bits wide on the wasm32 target; arithmetic on it wraps. *)
Definition wrap32 (x : Z) : Z := (x + 2 ^ 31) mod 2 ^ 32 - 2 ^ 31.

Definition INT_MAX : Z := 2 ^ 31 - 1.

(** ** The libavcodec data the bridge touches *)

(** enum AVSampleFormat (libavutil/samplefmt.h). *)
Inductive AVSampleFormat :=
| AV_SAMPLE_FMT_NONE
| AV_SAMPLE_FMT_U8
| AV_SAMPLE_FMT_S16
| AV_SAMPLE_FMT_S32
| AV_SAMPLE_FMT_FLT
| AV_SAMPLE_FMT_DBL
| AV_SAMPLE_FMT_U8P
| AV_SAMPLE_FMT_S16P
| AV_SAMPLE_FMT_S32P
| AV_SAMPLE_FMT_FLTP
| AV_SAMPLE_FMT_DBLP
| AV_SAMPLE_FMT_S64
| AV_SAMPLE_FMT_S64P.

(** A codec descriptor, as returned by the lookup functions. *)
Definition AVCodec := Z.

(** The fields of AVCodecContext that the bridge reads or writes;
    [nb_channels] is [ch_layout.nb_channels], [priv_data] stands for the
    codec's private state. *)
Module AVCodecContext.
Record t := mk {
  sample_rate : Z;
  nb_channels : Z;
  bit_rate : Z;
  sample_fmt : AVSampleFormat;
  frame_size : Z;
  priv_data : list Z
}.
Definition default : t := mk 0 0 0 AV_SAMPLE_FMT_NONE 0 [].
Definition set_sample_rate (v : Z) (c : t) : t :=
  mk v (nb_channels c) (bit_rate c) (sample_fmt c) (frame_size c) (priv_data c).
Definition set_nb_channels (v : Z) (c : t) : t :=
  mk (sample_rate c) v (bit_rate c) (sample_fmt c) (frame_size c) (priv_data c).
Definition set_bit_rate (v : Z) (c : t) : t :=
  mk (sample_rate c) (nb_channels c) v (sample_fmt c) (frame_size c) (priv_data c).
Definition set_sample_fmt (v : AVSampleFormat) (c : t) : t :=
  mk (sample_rate c) (nb_channels c) (bit_rate c) v (frame_size c) (priv_data c).
End AVCodecContext.

(** AVFrame.  [extended_data] lists the planes the frame references:
    [extended_data[ch]] is the contiguous float region of channel [ch].  A
    frame without data buffers has no plane. *)
Module AVFrame.
Record t := mk {
  nb_samples : Z;
  format : AVSampleFormat;
  sample_rate : Z;
  nb_channels : Z;
  extended_data : list (list f32)
}.
Definition blank : t := mk 0 AV_SAMPLE_FMT_NONE 0 0 [].
Definition set_nb_samples (v : Z) (f : t) : t :=
  mk v (format f) (sample_rate f) (nb_channels f) (extended_data f).
Definition set_format (v : AVSampleFormat) (f : t) : t :=
  mk (nb_samples f) v (sample_rate f) (nb_channels f) (extended_data f).
Definition set_sample_rate (v : Z) (f : t) : t :=
  mk (nb_samples f) (format f) v (nb_channels f) (extended_data f).
Definition set_nb_channels (v : Z) (f : t) : t :=
  mk (nb_samples f) (format f) (sample_rate f) v (extended_data f).
Definition set_extended_data (v : list (list f32)) (f : t) : t :=
  mk (nb_samples f) (format f) (sample_rate f) (nb_channels f) v.
End AVFrame.

(** What the [data] pointer of an AVPacket designates.  [PktOwned bs] is a
    pointer into the packet's own reference-counted buffer ([buf] non-null),
    holding [bs]; [PktBorrowed p] is a bare address the packet does not own
    ([buf] null). *)
Inductive pkt_data :=
| PktNull
| PktBorrowed (p : ptr)
| PktOwned (bs : list byte).

Module AVPacket.
Record t := mk {
  data : pkt_data;
  size : Z
}.
Definition blank : t := mk PktNull 0.
Definition set_data (v : pkt_data) (p : t) : t := mk v (size p).
Definition set_size (v : Z) (p : t) : t := mk (data p) v.
End AVPacket.

(** ** The two session structs of the bridge *)

Module decoder_state.
Record t := mk {
  ctx : ptr;
  frame : ptr;
  packet : ptr
}.
Definition set_ctx (v : ptr) (s : t) : t := mk v (frame s) (packet s).
Definition set_frame (v : ptr) (s : t) : t := mk (ctx s) v (packet s).
Definition set_packet (v : ptr) (s : t) : t := mk (ctx s) (frame s) v.
End decoder_state.

Module encoder_state.
Record t := mk {
  ctx : ptr;
  frame : ptr;
  packet : ptr
}.
Definition set_ctx (v : ptr) (s : t) : t := mk v (frame s) (packet s).
Definition set_frame (v : ptr) (s : t) : t := mk (ctx s) v (packet s).
Definition set_packet (v : ptr) (s : t) : t := mk (ctx s) (frame s) v.
End encoder_state.

(** ** The store *)

(** What an address can hold: a session struct, a libavcodec object, or a
    buffer of the caller ([float *], [unsigned char *], [int *]). *)
Inductive obj :=
| ODecoder (s : decoder_state.t)
| OEncoder (s : encoder_state.t)
| OContext (c : AVCodecContext.t)
| OFrame (f : AVFrame.t)
| OPacket (p : AVPacket.t)
| OFloats (l : list f32)
| OBytes (l : list byte)
| OInt (v : Z).

(** What a call does that an observer outside can see, in order. *)
Inductive event :=
| EvAlloc (p : ptr)
| EvAllocFail
| EvFree (p : ptr)
| EvLoadF (p : ptr) (i : Z)
| EvStoreF (p : ptr) (i : Z) (v : f32)
| EvStoreI (p : ptr) (v : Z)
| EvStoreB (p : ptr) (i : Z) (v : byte)
| EvOpen (ret : Z)
| EvSendPacket (payload : list byte) (ret : Z)
| EvReceiveFrame (ret : Z) (fr : AVFrame.t)
| EvSendFrame (fr : AVFrame.t) (ret : Z)
| EvReceivePacket (ret : Z) (payload : list byte)
| EvFlush.

(** [objs] are the live objects, [oom] tells for each coming allocation
    request whether memory is available (an exhausted list means it is),
    [trace] is the history of events, oldest first. *)
Record world := mkWorld {
  objs : gmap Z obj;
  oom : list bool;
  trace : list event
}.

Definition set_objs (m : gmap Z obj) (w : world) : world :=
  mkWorld m (oom w) (trace w).

Definition log_event (e : event) (w : world) : world :=
  mkWorld (objs w) (oom w) (trace w ++ [e]).

(** ** The monad of C statements *)

Inductive outcome (A : Type) :=
| Fault
| Ok (a : A) (w : world).
Arguments Fault {A}.
Arguments Ok {A} a w.

Definition M (A : Type) : Type := world -> outcome A.

Definition pure {A} (a : A) : M A := fun w => Ok a w.

Definition bind {A B} (m : M A) (k : A -> M B) : M B :=
  fun w => match m w with
           | Fault => Fault
           | Ok a w' => k a w'
           end.

Definition fault {A} : M A := fun _ => Fault.

Definition emit (e : event) : M unit := fun w => Ok tt (log_event e w).

Declare Scope c_scope.
Delimit Scope c_scope with C.
Notation "x <- m ;; k" := (bind m (fun x => k))
  (at level 100, m at next level, right associativity) : c_scope.
Notation "m ;;; k" := (bind m (fun _ => k))
  (at level 100, right associativity) : c_scope.
Local Open Scope c_scope.

(** [for (int i = 0; i < hi; i++) body]: no iteration when [hi <= 0]; the
    counter stays below [hi], so [i++] never wraps. *)
Fixpoint iter_from (i : Z) (n : nat) (body : Z -> M unit) : M unit :=
  match n with
  | O => pure tt
  | S n' => body i ;;; iter_from (i + 1) n' body
  end.

Definition for_lt (hi : Z) (body : Z -> M unit) : M unit :=
  iter_from 0 (Z.to_nat hi) body.

(** ** Store primitives *)

(** The lowest address above every live object. *)
Definition fresh_addr (m : gmap Z obj) : Z :=
  1 + map_fold (fun k _ acc => Z.max k acc) 0 m.

Definition deref (p : ptr) : M obj :=
  fun w => if p =? NULL then Fault
           else match objs w !! p with
                | Some o => Ok o w
                | None => Fault
                end.

Definition assign (p : ptr) (o : obj) : M unit :=
  fun w => if p =? NULL then Fault
           else match objs w !! p with
                | Some _ => Ok tt (set_objs (<[p:=o]> (objs w)) w)
                | None => Fault
                end.

(** An allocation request: it returns null when memory is short. *)
Definition alloc (o : obj) : M ptr :=
  fun w => match oom w with
           | false :: rest =>
               Ok NULL (mkWorld (objs w) rest (trace w ++ [EvAllocFail]))
           | _ =>
               let p := fresh_addr (objs w) in
               Ok p (mkWorld (<[p:=o]> (objs w)) (tl (oom w))
                             (trace w ++ [EvAlloc p]))
           end.

(** A request for memory that is not an object of the store (the data
    buffers of a frame). *)
Definition reserve : M bool :=
  fun w => match oom w with
           | false :: rest =>
               Ok false (mkWorld (objs w) rest (trace w ++ [EvAllocFail]))
           | _ => Ok true (mkWorld (objs w) (tl (oom w)) (trace w))
           end.

(** Releasing null does nothing; releasing what is not live is a fault. *)
Definition release (p : ptr) : M unit :=
  fun w => if p =? NULL then Ok tt w
           else match objs w !! p with
                | Some _ => Ok tt (mkWorld (delete p (objs w)) (oom w)
                                           (trace w ++ [EvFree p]))
                | None => Fault
                end.

Definition get_decoder (p : ptr) : M decoder_state.t :=
  o <- deref p ;; match o with ODecoder s => pure s | _ => fault end.

Definition get_encoder (p : ptr) : M encoder_state.t :=
  o <- deref p ;; match o with OEncoder s => pure s | _ => fault end.

Definition get_ctx (p : ptr) : M AVCodecContext.t :=
  o <- deref p ;; match o with OContext c => pure c | _ => fault end.

Definition get_frame (p : ptr) : M AVFrame.t :=
  o <- deref p ;; match o with OFrame f => pure f | _ => fault end.

Definition get_packet (p : ptr) : M AVPacket.t :=
  o <- deref p ;; match o with OPacket k => pure k | _ => fault end.

Definition upd_decoder (p : ptr) (f : decoder_state.t -> decoder_state.t) : M unit :=
  s <- get_decoder p ;; assign p (ODecoder (f s)).

Definition upd_encoder (p : ptr) (f : encoder_state.t -> encoder_state.t) : M unit :=
  s <- get_encoder p ;; assign p (OEncoder (f s)).

Definition upd_ctx (p : ptr) (f : AVCodecContext.t -> AVCodecContext.t) : M unit :=
  c <- get_ctx p ;; assign p (OContext (f c)).

Definition upd_frame (p : ptr) (f : AVFrame.t -> AVFrame.t) : M unit :=
  x <- get_frame p ;; assign p (OFrame (f x)).

Definition upd_packet (p : ptr) (f : AVPacket.t -> AVPacket.t) : M unit :=
  k <- get_packet p ;; assign p (OPacket (f k)).

(** Element [i] of a list used as a C array: outside the array is a fault. *)
Definition at_index {A} (l : list A) (i : Z) : M A :=
  if i <? 0 then fault
  else match l !! Z.to_nat i with
       | Some a => pure a
       | None => fault
       end.

(** [p[i]] read from a [float *] of the caller. *)
Definition load_float (p : ptr) (i : Z) : M f32 :=
  o <- deref p ;;
  match o with
  | OFloats l => v <- at_index l i ;; emit (EvLoadF p i) ;;; pure v
  | _ => fault
  end.

(** [p[i] = v] on a [float *] of the caller. *)
Definition store_float (p : ptr) (i : Z) (v : f32) : M unit :=
  o <- deref p ;;
  match o with
  | OFloats l =>
      _ <- at_index l i ;;
      assign p (OFloats (<[Z.to_nat i:=v]> l)) ;;;
      emit (EvStoreF p i v)
  | _ => fault
  end.

(** [*p = v] on an [int *] of the caller. *)
Definition store_int (p : ptr) (v : Z) : M unit :=
  o <- deref p ;;
  match o with
  | OInt _ => assign p (OInt v) ;;; emit (EvStoreI p v)
  | _ => fault
  end.

(** The first [n] bytes at [p], an [unsigned char *] of the caller. *)
Definition load_bytes (p : ptr) (n : Z) : M (list byte) :=
  if n <=? 0 then pure []
  else
    o <- deref p ;;
    match o with
    | OBytes l =>
        if n <=? Z.of_nat (length l) then pure (take (Z.to_nat n) l)
        else fault
    | _ => fault
    end.

(** [memcpy] into an [unsigned char *] of the caller: the first
    [length bs] bytes are replaced, one store per byte. *)
Definition store_bytes (p : ptr) (bs : list byte) : M unit :=
  match bs with
  | [] => pure tt
  | _ =>
      o <- deref p ;;
      match o with
      | OBytes l =>
          if (length bs <=? length l)%nat then
            assign p (OBytes (bs ++ drop (length bs) l)) ;;;
            (fun w => Ok tt (mkWorld (objs w) (oom w)
                               (trace w ++ imap (fun k b => EvStoreB p (Z.of_nat k) b) bs)))
          else fault
      | _ => fault
      end
  end.

(** ** libavcodec and libavutil, as far as the bridge calls them *)

(** The codec behind the API.  Each function takes the context by value and
    returns the context it leaves; a return code below 0 is an error. *)
Record codec_library := {
  find_decoder : Z -> option AVCodec;
  find_encoder : Z -> option AVCodec;
  open2 : AVCodec -> AVCodecContext.t -> AVCodecContext.t * Z;
  send_packet : AVCodecContext.t -> list byte -> AVCodecContext.t * Z;
  receive_frame : AVCodecContext.t -> AVCodecContext.t * Z * AVFrame.t;
  send_frame : AVCodecContext.t -> AVFrame.t -> AVCodecContext.t * Z;
  receive_packet : AVCodecContext.t -> AVCodecContext.t * Z * list byte;
  flush_buffers : AVCodecContext.t -> AVCodecContext.t
}.

(** AVERROR(EINVAL) and AVERROR(ENOMEM) with the errno numbers of the
    Emscripten C library; the bridge only ever looks at the sign. *)
Definition AVERROR_EINVAL : Z := -28.
Definition AVERROR_ENOMEM : Z := -48.

(** An lvalue of pointer type, such as [&state->ctx]: how to read it and how
    to assign to it. *)
Record lvalue := mkLvalue {
  rd : M ptr;
  wr : ptr -> M unit
}.

Definition dec_ctx (state : ptr) : lvalue :=
  mkLvalue (s <- get_decoder state ;; pure (decoder_state.ctx s))
           (fun v => upd_decoder state (decoder_state.set_ctx v)).

Definition dec_frame (state : ptr) : lvalue :=
  mkLvalue (s <- get_decoder state ;; pure (decoder_state.frame s))
           (fun v => upd_decoder state (decoder_state.set_frame v)).

Definition dec_packet (state : ptr) : lvalue :=
  mkLvalue (s <- get_decoder state ;; pure (decoder_state.packet s))
           (fun v => upd_decoder state (decoder_state.set_packet v)).

Definition enc_ctx (state : ptr) : lvalue :=
  mkLvalue (s <- get_encoder state ;; pure (encoder_state.ctx s))
           (fun v => upd_encoder state (encoder_state.set_ctx v)).

Definition enc_frame (state : ptr) : lvalue :=
  mkLvalue (s <- get_encoder state ;; pure (encoder_state.frame s))
           (fun v => upd_encoder state (encoder_state.set_frame v)).

Definition enc_packet (state : ptr) : lvalue :=
  mkLvalue (s <- get_encoder state ;; pure (encoder_state.packet s))
           (fun v => upd_encoder state (encoder_state.set_packet v)).

Definition is_planar (fmt : AVSampleFormat) : bool :=
  match fmt with
  | AV_SAMPLE_FMT_U8P | AV_SAMPLE_FMT_S16P | AV_SAMPLE_FMT_S32P
  | AV_SAMPLE_FMT_FLTP | AV_SAMPLE_FMT_DBLP | AV_SAMPLE_FMT_S64P => true
  | _ => false
  end.

Definition is_none (fmt : AVSampleFormat) : bool :=
  match fmt with
  | AV_SAMPLE_FMT_NONE => true
  | _ => false
  end.

(** The planes [av_frame_get_buffer] attaches: one region of [nb_samples]
    samples per channel for a planar format, one region for all channels
    otherwise.  Their content is indeterminate; it is written here as 0. *)
Definition fresh_planes (f : AVFrame.t) : list (list f32) :=
  if is_planar (AVFrame.format f) then
    replicate (Z.to_nat (AVFrame.nb_channels f))
              (replicate (Z.to_nat (AVFrame.nb_samples f)) 0)
  else
    [replicate (Z.to_nat (AVFrame.nb_samples f * AVFrame.nb_channels f)) 0].

Section Bridge.

Variable lib : codec_library.

Definition avcodec_find_decoder (codec_id : Z) : option AVCodec :=
  find_decoder lib codec_id.

Definition avcodec_find_encoder (codec_id : Z) : option AVCodec :=
  find_encoder lib codec_id.

Definition avcodec_alloc_context3 (codec : AVCodec) : M ptr :=
  alloc (OContext AVCodecContext.default).

(** [av_channel_layout_default(&ctx->ch_layout, channels)]. *)
Definition av_channel_layout_default (ctx : ptr) (channels : Z) : M unit :=
  upd_ctx ctx (AVCodecContext.set_nb_channels channels).

(** [av_channel_layout_copy(&frame->ch_layout, &ctx->ch_layout)]. *)
Definition av_channel_layout_copy (frame ctx : ptr) : M unit :=
  c <- get_ctx ctx ;;
  upd_frame frame (AVFrame.set_nb_channels (AVCodecContext.nb_channels c)).

Definition avcodec_open2 (ctx : ptr) (codec : AVCodec) : M Z :=
  c <- get_ctx ctx ;;
  let '(c', r) := open2 lib codec c in
  assign ctx (OContext c') ;;;
  emit (EvOpen r) ;;;
  pure r.

Definition avcodec_free_context (pp : lvalue) : M unit :=
  p <- rd pp ;;
  if p =? NULL then pure tt
  else (_ <- get_ctx p ;; release p ;;; wr pp NULL).

Definition av_frame_alloc : M ptr := alloc (OFrame AVFrame.blank).

Definition av_packet_alloc : M ptr := alloc (OPacket AVPacket.blank).

Definition av_frame_unref (frame : ptr) : M unit :=
  upd_frame frame (fun _ => AVFrame.blank).

Definition av_packet_unref (packet : ptr) : M unit :=
  upd_packet packet (fun _ => AVPacket.blank).

Definition av_frame_free (pp : lvalue) : M unit :=
  p <- rd pp ;;
  if p =? NULL then pure tt
  else (_ <- get_frame p ;; release p ;;; wr pp NULL).

Definition av_packet_free (pp : lvalue) : M unit :=
  p <- rd pp ;;
  if p =? NULL then pure tt
  else (_ <- get_packet p ;; release p ;;; wr pp NULL).

(** [av_frame_get_buffer(frame, 0)]: it needs a format, a positive sample
    count and a positive channel count, and memory. *)
Definition av_frame_get_buffer (frame : ptr) : M Z :=
  f <- get_frame frame ;;
  if is_none (AVFrame.format f) || (AVFrame.nb_samples f <=? 0)
     || (AVFrame.nb_channels f <=? 0)
  then pure AVERROR_EINVAL
  else
    room <- reserve ;;
    if room : bool then
      assign frame (OFrame (AVFrame.set_extended_data (fresh_planes f) f)) ;;;
      pure 0
    else pure AVERROR_ENOMEM.

(** The bytes a packet designates. *)
Definition packet_bytes (k : AVPacket.t) : M (list byte) :=
  match AVPacket.data k with
  | PktNull => if AVPacket.size k =? 0 then pure [] else fault
  | PktBorrowed p => load_bytes p (AVPacket.size k)
  | PktOwned bs =>
      if (0 <=? AVPacket.size k) && (AVPacket.size k <=? Z.of_nat (length bs))
      then pure (take (Z.to_nat (AVPacket.size k)) bs)
      else fault
  end.

Definition avcodec_send_packet (ctx packet : ptr) : M Z :=
  c <- get_ctx ctx ;;
  k <- get_packet packet ;;
  payload <- packet_bytes k ;;
  let '(c', r) := send_packet lib c payload in
  assign ctx (OContext c') ;;;
  emit (EvSendPacket payload r) ;;;
  pure r.

(** The frame is unreferenced first; it holds the decoded frame exactly when
    the call succeeds. *)
Definition avcodec_receive_frame (ctx frame : ptr) : M Z :=
  c <- get_ctx ctx ;;
  av_frame_unref frame ;;;
  let '(c', r, fr) := receive_frame lib c in
  assign ctx (OContext c') ;;;
  (if r <? 0 then pure tt else assign frame (OFrame fr)) ;;;
  emit (EvReceiveFrame r fr) ;;;
  pure r.

Definition avcodec_send_frame (ctx frame : ptr) : M Z :=
  c <- get_ctx ctx ;;
  f <- get_frame frame ;;
  let '(c', r) := send_frame lib c f in
  assign ctx (OContext c') ;;;
  emit (EvSendFrame f r) ;;;
  pure r.

(** The packet is unreferenced first; it holds the compressed bytes exactly
    when the call succeeds. *)
Definition avcodec_receive_packet (ctx packet : ptr) : M Z :=
  c <- get_ctx ctx ;;
  av_packet_unref packet ;;;
  let '(c', r, bs) := receive_packet lib c in
  assign ctx (OContext c') ;;;
  (if r <? 0 then pure tt
   else assign packet (OPacket (AVPacket.mk (PktOwned bs) (Z.of_nat (length bs))))) ;;;
  emit (EvReceivePacket r bs) ;;;
  pure r.

Definition avcodec_flush_buffers (ctx : ptr) : M unit :=
  upd_ctx ctx (flush_buffers lib) ;;; emit EvFlush.

(** [memcpy(dst, src, n)] from a packet's data. *)
Definition memcpy (dst : ptr) (k : AVPacket.t) : M unit :=
  bs <- packet_bytes k ;; store_bytes dst bs.

(** ** The bridge *)

(** [malloc(sizeof(decoder_state))]; the three fields of the new struct are
    indeterminate until assigned, they are written here as null. *)
Definition malloc_decoder_state : M ptr :=
  alloc (ODecoder (decoder_state.mk NULL NULL NULL)).

Definition malloc_encoder_state : M ptr :=
  alloc (OEncoder (encoder_state.mk NULL NULL NULL)).

Definition free (p : ptr) : M unit := release p.

Definition init_decoder (codec_id sample_rate channels : Z) : M ptr :=
  match avcodec_find_decoder codec_id with
  | None => pure NULL
  | Some codec =>
      state <- malloc_decoder_state ;;
      c <- avcodec_alloc_context3 codec ;;
      wr (dec_ctx state) c ;;;
      ctx <- rd (dec_ctx state) ;;
      upd_ctx ctx (AVCodecContext.set_sample_rate sample_rate) ;;;
      ctx <- rd (dec_ctx state) ;;
      av_channel_layout_default ctx channels ;;;
      ctx <- rd (dec_ctx state) ;;
      r <- avcodec_open2 ctx codec ;;
      if r <? 0 then
        avcodec_free_context (dec_ctx state) ;;;
        free state ;;;
        pure NULL
      else
        f <- av_frame_alloc ;;
        wr (dec_frame state) f ;;;
        k <- av_packet_alloc ;;
        wr (dec_packet state) k ;;;
        pure state
  end.

(** The three pointers of the struct are read once: no statement of
    [decode_packet] assigns to the struct. *)
Definition decode_packet (state input_buf : ptr) (input_size : Z)
    (output_buf out_frames out_sample_rate out_channels : ptr) : M Z :=
  s <- get_decoder state ;;
  av_packet_unref (decoder_state.packet s) ;;;
  upd_packet (decoder_state.packet s) (AVPacket.set_data (PktBorrowed input_buf)) ;;;
  upd_packet (decoder_state.packet s) (AVPacket.set_size input_size) ;;;
  ret <- avcodec_send_packet (decoder_state.ctx s) (decoder_state.packet s) ;;
  if ret <? 0 then pure ret
  else
    ret <- avcodec_receive_frame (decoder_state.ctx s) (decoder_state.frame s) ;;
    if ret <? 0 then pure ret
    else
      f <- get_frame (decoder_state.frame s) ;;
      let frames := AVFrame.nb_samples f in
      let channels := AVFrame.nb_channels f in
      let sample_rate := AVFrame.sample_rate f in
      c <- get_ctx (decoder_state.ctx s) ;;
      let sample_rate :=
        if sample_rate =? 0 then AVCodecContext.sample_rate c else sample_rate in
      let channels :=
        if channels =? 0 then AVCodecContext.nb_channels c else channels in
      for_lt frames (fun i =>
        for_lt channels (fun ch =>
          f <- get_frame (decoder_state.frame s) ;;
          channel_data <- at_index (AVFrame.extended_data f) ch ;;
          v <- at_index channel_data i ;;
          store_float output_buf (wrap32 (wrap32 (i * channels) + ch)) v)) ;;;
      store_int out_frames frames ;;;
      store_int out_sample_rate sample_rate ;;;
      store_int out_channels channels ;;;
      av_frame_unref (decoder_state.frame s) ;;;
      pure 0.

Definition flush_decoder (state : ptr) : M unit :=
  if state =? NULL then pure tt
  else
    ctx <- rd (dec_ctx state) ;;
    if ctx =? NULL then pure tt else avcodec_flush_buffers ctx.

Definition close_decoder (state : ptr) : M unit :=
  if state =? NULL then pure tt
  else
    f <- rd (dec_frame state) ;;
    (if f =? NULL then pure tt else av_frame_free (dec_frame state)) ;;;
    k <- rd (dec_packet state) ;;
    (if k =? NULL then pure tt else av_packet_free (dec_packet state)) ;;;
    c <- rd (dec_ctx state) ;;
    (if c =? NULL then pure tt else avcodec_free_context (dec_ctx state)) ;;;
    free state.

Definition init_encoder (codec_id sample_rate channels bitrate : Z) : M ptr :=
  match avcodec_find_encoder codec_id with
  | None => pure NULL
  | Some codec =>
      state <- malloc_encoder_state ;;
      c <- avcodec_alloc_context3 codec ;;
      wr (enc_ctx state) c ;;;
      ctx <- rd (enc_ctx state) ;;
      upd_ctx ctx (AVCodecContext.set_sample_rate sample_rate) ;;;
      ctx <- rd (enc_ctx state) ;;
      av_channel_layout_default ctx channels ;;;
      ctx <- rd (enc_ctx state) ;;
      upd_ctx ctx (AVCodecContext.set_bit_rate bitrate) ;;;
      ctx <- rd (enc_ctx state) ;;
      upd_ctx ctx (AVCodecContext.set_sample_fmt AV_SAMPLE_FMT_FLTP) ;;;
      ctx <- rd (enc_ctx state) ;;
      r <- avcodec_open2 ctx codec ;;
      if r <? 0 then
        avcodec_free_context (enc_ctx state) ;;;
        free state ;;;
        pure NULL
      else
        f <- av_frame_alloc ;;
        wr (enc_frame state) f ;;;
        frame <- rd (enc_frame state) ;;
        ctx <- rd (enc_ctx state) ;;
        c <- get_ctx ctx ;;
        upd_frame frame (AVFrame.set_nb_samples (AVCodecContext.frame_size c)) ;;;
        upd_frame frame (AVFrame.set_format (AVCodecContext.sample_fmt c)) ;;;
        upd_frame frame (AVFrame.set_sample_rate sample_rate) ;;;
        av_channel_layout_copy frame ctx ;;;
        _ <- av_frame_get_buffer frame ;;
        k <- av_packet_alloc ;;
        wr (enc_packet state) k ;;;
        pure state
  end.

(** [channel_data[i] = v] where [channel_data] is [frame->extended_data[ch]]. *)
Definition store_plane (frame : ptr) (ch i : Z) (v : f32) : M unit :=
  f <- get_frame frame ;;
  channel_data <- at_index (AVFrame.extended_data f) ch ;;
  _ <- at_index channel_data i ;;
  assign frame
    (OFrame (AVFrame.set_extended_data
               (<[Z.to_nat ch:=<[Z.to_nat i:=v]> channel_data]> (AVFrame.extended_data f))
               f)).

(** The three pointers of the struct are read once: no statement of
    [encode_samples] assigns to the struct.  The C code takes the address
    [channel_data] of plane [ch] once per channel and stores through it in
    the inner loop; [store_plane] finds the plane again at each store. *)
Definition encode_samples (state input_buf : ptr) (num_frames : Z)
    (output_buf : ptr) (output_buf_size : Z) : M Z :=
  s <- get_encoder state ;;
  f <- get_frame (encoder_state.frame s) ;;
  let channels := AVFrame.nb_channels f in
  for_lt channels (fun ch =>
    for_lt num_frames (fun i =>
      v <- load_float input_buf (wrap32 (wrap32 (i * channels) + ch)) ;;
      store_plane (encoder_state.frame s) ch i v)) ;;;
  upd_frame (encoder_state.frame s) (AVFrame.set_nb_samples num_frames) ;;;
  ret <- avcodec_send_frame (encoder_state.ctx s) (encoder_state.frame s) ;;
  if ret <? 0 then pure ret
  else
    ret <- avcodec_receive_packet (encoder_state.ctx s) (encoder_state.packet s) ;;
    if ret <? 0 then pure ret
    else
      k <- get_packet (encoder_state.packet s) ;;
      if AVPacket.size k >? output_buf_size then pure (-1)
      else
        memcpy output_buf k ;;;
        k <- get_packet (encoder_state.packet s) ;;
        let size := AVPacket.size k in
        av_packet_unref (encoder_state.packet s) ;;;
        pure size.

Definition close_encoder (state : ptr) : M unit :=
  if state =? NULL then pure tt
  else
    f <- rd (enc_frame state) ;;
    (if f =? NULL then pure tt else av_frame_free (enc_frame state)) ;;;
    k <- rd (enc_packet state) ;;
    (if k =? NULL then pure tt else av_packet_free (enc_packet state)) ;;;
    c <- rd (enc_ctx state) ;;
    (if c =? NULL then pure tt else avcodec_free_context (enc_ctx state)) ;;;
    free state.

End Bridge.

(** ** Reading the store from outside *)

(** Element [i] of the float buffer at [p], if there is one. *)
Definition float_at (w : world) (p : ptr) (i : Z) : option f32 :=
  match objs w !! p with
  | Some (OFloats l) => if i <? 0 then None else l !! Z.to_nat i
  | _ => None
  end.

(** Sample [i] of the plane of channel [ch] of a frame. *)
Definition sample (fr : AVFrame.t) (ch i : Z) : option f32 :=
  if (ch <? 0) || (i <? 0) then None
  else match AVFrame.extended_data fr !! Z.to_nat ch with
       | Some plane => plane !! Z.to_nat i
       | None => None
       end.

(** The events a call added to the history. *)
Definition events_since (w w' : world) : list event :=
  drop (length (trace w)) (trace w').

(** A pointer field of a session is sound when it is null or designates a
    live object of the right kind. *)
Definition frame_or_null (w : world) (p : ptr) : Prop :=
  p = NULL \/ exists f, objs w !! p = Some (OFrame f).

Definition packet_or_null (w : world) (p : ptr) : Prop :=
  p = NULL \/ exists k, objs w !! p = Some (OPacket k).

Definition ctx_or_null (w : world) (p : ptr) : Prop :=
  p = NULL \/ exists c, objs w !! p = Some (OContext c).

(** The release events of a destroy call, in order. *)
Definition free_of (p : ptr) : list event :=
  if p =? NULL then [] else [EvFree p].

Definition drop_obj (p : ptr) (m : gmap Z obj) : gmap Z obj :=
  if p =? NULL then m else delete p m.

(** ** A small codec to run the bridge on

    Codec 7 is known to the library, both ways.  It opens unless the sample
    rate is negative, has a frame period of 3 samples, refuses an empty
    packet with code -5, decodes any other packet to the same 3-sample
    stereo frame, and encodes any frame to two bytes. *)
Definition demo_frame : AVFrame.t :=
  AVFrame.mk 3 AV_SAMPLE_FMT_FLTP 0 2 [[10; 11; 12]; [20; 21; 22]].

Definition demo_codec : codec_library := {|
  find_decoder id := if id =? 7 then Some 7 else None;
  find_encoder id := if id =? 7 then Some 7 else None;
  open2 codec c :=
    (AVCodecContext.mk (AVCodecContext.sample_rate c) (AVCodecContext.nb_channels c)
       (AVCodecContext.bit_rate c) (AVCodecContext.sample_fmt c) 3 [],
     if AVCodecContext.sample_rate c <? 0 then AVERROR_EINVAL else 0);
  send_packet c bs := (c, if (length bs =? 0)%nat then -5 else 0);
  receive_frame c := (c, 0, demo_frame);
  send_frame c f := (c, 0);
  receive_packet c := (c, 0, [Byte.x0b; Byte.x77]);
  flush_buffers c := c
|}.

(** The caller's memory in the examples: six floats at 98, four bytes at
    99, one byte at 100, seven floats at 101, three [int] cells. *)
Definition demo_world : world :=
  mkWorld (<[98:=OFloats [1; 2; 3; 4; 5; 6]]>
           (<[99:=OBytes [Byte.x00; Byte.x00; Byte.x00; Byte.x00]]>
            (<[100:=OBytes [Byte.x0b]]>
             (<[101:=OFloats [0; 0; 0; 0; 0; 0; 9]]>
              (<[102:=OInt 0]> (<[103:=OInt 0]> (<[104:=OInt 0]> ∅)))))))
          [] [].

(** The world a call leaves, when it returns. *)
Definition world_after {A} (o : outcome A) (w : world) : world :=
  match o with
  | Fault => w
  | Ok _ w' => w'
  end.

Definition result_of {A} (o : outcome A) : option A :=
  match o with
  | Fault => None
  | Ok a _ => Some a
  end.

(** ** The stages of a decode call

    The worlds a [decode_packet] call goes through, written out: after the
    input is attached and submitted, after a frame is requested, and on
    return. *)

(** The [n] bytes a borrowed packet designates at [p]. *)
Definition payload_of (w : world) (p : ptr) (n : Z) : option (list byte) :=
  if n <=? 0 then Some []
  else if p =? NULL then None
  else match objs w !! p with
       | Some (OBytes l) =>
           if n <=? Z.of_nat (length l) then Some (take (Z.to_nat n) l) else None
       | _ => None
       end.

Definition sent_world (w : world) (s : decoder_state.t) (input_buf : ptr)
    (input_size : Z) (c1 : AVCodecContext.t) (payload : list byte) (r1 : Z) : world :=
  mkWorld
    (<[decoder_state.ctx s:=OContext c1]>
       (<[decoder_state.packet s:=
            OPacket (AVPacket.mk (PktBorrowed input_buf) input_size)]> (objs w)))
    (oom w)
    (trace w ++ [EvSendPacket payload r1]).

Definition received_world (w1 : world) (s : decoder_state.t)
    (c2 : AVCodecContext.t) (r2 : Z) (fr : AVFrame.t) : world :=
  mkWorld
    (<[decoder_state.frame s:=OFrame (if r2 <? 0 then AVFrame.blank else fr)]>
       (<[decoder_state.ctx s:=OContext c2]> (objs w1)))
    (oom w1)
    (trace w1 ++ [EvReceiveFrame r2 fr]).

(** The copy loop of [decode_packet], by itself. *)
Definition interleave_loop (frame output_buf : ptr) (frames channels : Z) : M unit :=
  for_lt frames (fun i =>
    for_lt channels (fun ch =>
      f <- get_frame frame ;;
      channel_data <- at_index (AVFrame.extended_data f) ch ;;
      v <- at_index channel_data i ;;
      store_float output_buf (wrap32 (wrap32 (i * channels) + ch)) v)).

(** What the decoder reports for a frame [fr] when the context is [c]. *)
Definition reported_rate (c : AVCodecContext.t) (fr : AVFrame.t) : Z :=
  if AVFrame.sample_rate fr =? 0 then AVCodecContext.sample_rate c
  else AVFrame.sample_rate fr.

Definition reported_channels (c : AVCodecContext.t) (fr : AVFrame.t) : Z :=
  if AVFrame.nb_channels fr =? 0 then AVCodecContext.nb_channels c
  else AVFrame.nb_channels fr.

Definition returned_world (w3 : world) (s : decoder_state.t)
    (out_frames out_sample_rate out_channels : ptr) (F SR C : Z) : world :=
  mkWorld
    (<[decoder_state.frame s:=OFrame AVFrame.blank]>
       (<[out_channels:=OInt C]>
          (<[out_sample_rate:=OInt SR]>
             (<[out_frames:=OInt F]> (objs w3)))))
    (oom w3)
    (trace w3 ++ [EvStoreI out_frames F; EvStoreI out_sample_rate SR;
                  EvStoreI out_channels C]).

(** The three ways a [decode_packet] call returns. *)
Inductive decode_run (lib : codec_library) (state input_buf : ptr) (input_size : Z)
    (output_buf out_frames out_sample_rate out_channels : ptr) (w : world) :
    Z -> world -> Prop :=
| decode_send_failed s c k0 payload c1 r1 :
    state <> NULL ->
    objs w !! state = Some (ODecoder s) ->
    objs w !! decoder_state.ctx s = Some (OContext c) ->
    objs w !! decoder_state.packet s = Some (OPacket k0) ->
    payload_of w input_buf input_size = Some payload ->
    send_packet lib c payload = (c1, r1) ->
    r1 < 0 ->
    decode_run lib state input_buf input_size output_buf out_frames
      out_sample_rate out_channels w
      r1 (sent_world w s input_buf input_size c1 payload r1)
| decode_receive_failed s c k0 payload c1 r1 f0 c2 r2 fr :
    state <> NULL ->
    objs w !! state = Some (ODecoder s) ->
    objs w !! decoder_state.ctx s = Some (OContext c) ->
    objs w !! decoder_state.packet s = Some (OPacket k0) ->
    objs w !! decoder_state.frame s = Some (OFrame f0) ->
    payload_of w input_buf input_size = Some payload ->
    send_packet lib c payload = (c1, r1) ->
    0 <= r1 ->
    receive_frame lib c1 = (c2, r2, fr) ->
    r2 < 0 ->
    decode_run lib state input_buf input_size output_buf out_frames
      out_sample_rate out_channels w
      r2 (received_world (sent_world w s input_buf input_size c1 payload r1) s c2 r2 fr)
| decode_done s c k0 payload c1 r1 f0 c2 r2 fr w3 x1 x2 x3 :
    state <> NULL ->
    objs w !! state = Some (ODecoder s) ->
    objs w !! decoder_state.ctx s = Some (OContext c) ->
    objs w !! decoder_state.packet s = Some (OPacket k0) ->
    objs w !! decoder_state.frame s = Some (OFrame f0) ->
    payload_of w input_buf input_size = Some payload ->
    send_packet lib c payload = (c1, r1) ->
    0 <= r1 ->
    receive_frame lib c1 = (c2, r2, fr) ->
    0 <= r2 ->
    interleave_loop (decoder_state.frame s) output_buf (AVFrame.nb_samples fr)
      (reported_channels c2 fr)
      (received_world (sent_world w s input_buf input_size c1 payload r1) s c2 r2 fr)
      = Ok tt w3 ->
    out_frames <> NULL -> out_sample_rate <> NULL -> out_channels <> NULL ->
    objs w3 !! out_frames = Some (OInt x1) ->
    (<[out_frames:=OInt (AVFrame.nb_samples fr)]> (objs w3)) !! out_sample_rate
      = Some (OInt x2) ->
    (<[out_sample_rate:=OInt (reported_rate c2 fr)]>
       (<[out_frames:=OInt (AVFrame.nb_samples fr)]> (objs w3))) !! out_channels
      = Some (OInt x3) ->
    decode_run lib state input_buf input_size output_buf out_frames
      out_sample_rate out_channels w
      0 (returned_world w3 s out_frames out_sample_rate out_channels
           (AVFrame.nb_samples fr) (reported_rate c2 fr) (reported_channels c2 fr)).

(** The index [i * channels + ch] as the 32-bit machine computes it. *)
Definition index32 (i channels ch : Z) : Z := wrap32 (wrap32 (i * channels) + ch).

(** ** The invariant of the copy loop

    [processed C i ch i' ch'] says that the pair (frame [i'], channel [ch'])
    comes before the pair ([i], [ch]) in the order of the decoder's loop
    nest, frames outside and channels inside. *)
Definition processed (C i ch i' ch' : Z) : Prop :=
  0 <= i' /\ 0 <= ch' < C /\ (i' < i \/ (i' = i /\ ch' < ch)).

Definition store_within (out : ptr) (bound : Z) (e : event) : Prop :=
  exists j v, e = EvStoreF out j v /\ 0 <= j < bound.

(** The state of the world when the loop nest of [decode_packet], started in
    [w] with the output buffer holding [l0], is about to copy the pair
    ([i], [ch]). *)
Definition interleave_inv (fp out : ptr) (F C : Z) (fr : AVFrame.t) (w : world)
    (l0 : list f32) (i ch : Z) (w' : world) : Prop :=
  oom w' = oom w /\
  objs w' !! fp = Some (OFrame fr) /\
  (forall p, p <> out -> objs w' !! p = objs w !! p) /\
  (exists stores, trace w' = trace w ++ stores /\
                  Forall (store_within out (F * C)) stores) /\
  (exists l', objs w' !! out = Some (OFloats l') /\
     length l' = length l0 /\
     (forall j : nat, F * C <= Z.of_nat j -> l' !! j = l0 !! j) /\
     (forall i' ch', processed C i ch i' ch' ->
        0 <= index32 i' C ch' < Z.of_nat (length l0)) /\
     (F * C <= 2 ^ 31 ->
      forall i' ch', processed C i ch i' ch' ->
        exists v, sample fr ch' i' = Some v /\
                  l' !! Z.to_nat (i' * C + ch') = Some v)).

(** One copy of the decoder's loop nest: sample [i] of channel [ch] goes to
    the output buffer. *)
Definition interleave_body (fp out : ptr) (C i ch : Z) : M unit :=
  f <- get_frame fp ;;
  channel_data <- at_index (AVFrame.extended_data f) ch ;;
  v <- at_index channel_data i ;;
  store_float out (wrap32 (wrap32 (i * C) + ch)) v.

(** Memory the caller owns: its float, byte and [int] buffers. *)
Definition caller_owned (o : obj) : Prop :=
  match o with
  | OFloats _ | OBytes _ | OInt _ => True
  | _ => False
  end.

(** The events that write to the caller's memory. *)
Definition is_store (e : event) : Prop :=
  match e with
  | EvStoreF _ _ _ | EvStoreI _ _ | EvStoreB _ _ _ => True
  | _ => False
  end.

(** A decoder session a call can work on: the struct and its three holders
    are live; [c] is the codec context as it stands. *)
Definition decoder_ready (w : world) (state : ptr) (s : decoder_state.t)
    (c : AVCodecContext.t) : Prop :=
  state <> NULL /\ objs w !! state = Some (ODecoder s) /\
  decoder_state.ctx s <> NULL /\
  objs w !! decoder_state.ctx s = Some (OContext c) /\
  decoder_state.frame s <> NULL /\
  (exists f, objs w !! decoder_state.frame s = Some (OFrame f)) /\
  decoder_state.packet s <> NULL /\
  (exists k, objs w !! decoder_state.packet s = Some (OPacket k)).

(** ** The stages of an encode call *)

(** The copy loop of [encode_samples], by itself, and one copy of it. *)
Definition deinterleave_body (fp inp : ptr) (C ch i : Z) : M unit :=
  v <- load_float inp (wrap32 (wrap32 (i * C) + ch)) ;;
  store_plane fp ch i v.

Definition deinterleave_loop (fp inp : ptr) (n C : Z) : M unit :=
  for_lt C (fun ch => for_lt n (fun i => deinterleave_body fp inp C ch i)).

(** A load of the loop nest: the element of sample [i] of channel [ch], for
    some [i] below [n] and [ch] below [C], read at an index of the input that
    lies in [0, n * C). *)
Definition load_within (inp : ptr) (n C : Z) (e : event) : Prop :=
  exists i ch, 0 <= i < n /\ 0 <= ch < C /\
    e = EvLoadF inp (index32 i C ch) /\ 0 <= index32 i C ch < n * C.

(** The state of the world while the loop nest of [encode_samples], started
    in [w] with the scratch frame [f0], is running: only the planes of the
    scratch frame have changed, and every event is a load from the input
    below the bound. *)
Definition deinterleave_inv (fp inp : ptr) (n C : Z) (f0 : AVFrame.t) (w w' : world) : Prop :=
  oom w' = oom w /\
  (forall p, p <> fp -> objs w' !! p = objs w !! p) /\
  (exists planes, objs w' !! fp = Some (OFrame (AVFrame.set_extended_data planes f0))) /\
  (exists loads, trace w' = trace w ++ loads /\ Forall (load_within inp n C) loads).

Definition submitted_world (w3 : world) (s : encoder_state.t) (c1 : AVCodecContext.t)
    (fr : AVFrame.t) (r1 : Z) : world :=
  mkWorld
    (<[encoder_state.ctx s:=OContext c1]>
       (<[encoder_state.frame s:=OFrame fr]> (objs w3)))
    (oom w3)
    (trace w3 ++ [EvSendFrame fr r1]).

Definition packed_world (w4 : world) (s : encoder_state.t) (c2 : AVCodecContext.t)
    (r2 : Z) (bs : list byte) : world :=
  mkWorld
    (<[encoder_state.packet s:=
         OPacket (if r2 <? 0 then AVPacket.blank
                  else AVPacket.mk (PktOwned bs) (Z.of_nat (length bs)))]>
       (<[encoder_state.ctx s:=OContext c2]> (objs w4)))
    (oom w4)
    (trace w4 ++ [EvReceivePacket r2 bs]).

(** The world [memcpy] and the final [av_packet_unref] leave. *)
Definition copied_world (w5 : world) (s : encoder_state.t) (output_buf : ptr)
    (bs : list byte) : world :=
  match bs with
  | [] => mkWorld (<[encoder_state.packet s:=OPacket AVPacket.blank]> (objs w5))
                  (oom w5) (trace w5)
  | _ =>
      match objs w5 !! output_buf with
      | Some (OBytes l) =>
          mkWorld (<[encoder_state.packet s:=OPacket AVPacket.blank]>
                     (<[output_buf:=OBytes (bs ++ drop (length bs) l)]> (objs w5)))
                  (oom w5)
                  (trace w5 ++ imap (fun k b => EvStoreB output_buf (Z.of_nat k) b) bs)
      | _ => w5
      end
  end.

(** The four ways an [encode_samples] call returns. *)
Inductive encode_run (lib : codec_library) (state input_buf : ptr) (num_frames : Z)
    (output_buf : ptr) (output_buf_size : Z) (w : world) : Z -> world -> Prop :=
| encode_send_failed s f0 w3 f3 c c1 r1 :
    state <> NULL ->
    objs w !! state = Some (OEncoder s) ->
    objs w !! encoder_state.frame s = Some (OFrame f0) ->
    deinterleave_loop (encoder_state.frame s) input_buf num_frames
      (AVFrame.nb_channels f0) w = Ok tt w3 ->
    objs w3 !! encoder_state.frame s = Some (OFrame f3) ->
    objs w3 !! encoder_state.ctx s = Some (OContext c) ->
    send_frame lib c (AVFrame.set_nb_samples num_frames f3) = (c1, r1) ->
    r1 < 0 ->
    encode_run lib state input_buf num_frames output_buf output_buf_size w
      r1 (submitted_world w3 s c1 (AVFrame.set_nb_samples num_frames f3) r1)
| encode_receive_failed s f0 w3 f3 c c1 r1 k0 c2 r2 bs :
    state <> NULL ->
    objs w !! state = Some (OEncoder s) ->
    objs w !! encoder_state.frame s = Some (OFrame f0) ->
    deinterleave_loop (encoder_state.frame s) input_buf num_frames
      (AVFrame.nb_channels f0) w = Ok tt w3 ->
    objs w3 !! encoder_state.frame s = Some (OFrame f3) ->
    objs w3 !! encoder_state.ctx s = Some (OContext c) ->
    send_frame lib c (AVFrame.set_nb_samples num_frames f3) = (c1, r1) ->
    0 <= r1 ->
    objs w3 !! encoder_state.packet s = Some (OPacket k0) ->
    receive_packet lib c1 = (c2, r2, bs) ->
    r2 < 0 ->
    encode_run lib state input_buf num_frames output_buf output_buf_size w
      r2 (packed_world
            (submitted_world w3 s c1 (AVFrame.set_nb_samples num_frames f3) r1)
            s c2 r2 bs)
| encode_too_small s f0 w3 f3 c c1 r1 k0 c2 r2 bs :
    state <> NULL ->
    objs w !! state = Some (OEncoder s) ->
    objs w !! encoder_state.frame s = Some (OFrame f0) ->
    deinterleave_loop (encoder_state.frame s) input_buf num_frames
      (AVFrame.nb_channels f0) w = Ok tt w3 ->
    objs w3 !! encoder_state.frame s = Some (OFrame f3) ->
    objs w3 !! encoder_state.ctx s = Some (OContext c) ->
    send_frame lib c (AVFrame.set_nb_samples num_frames f3) = (c1, r1) ->
    0 <= r1 ->
    objs w3 !! encoder_state.packet s = Some (OPacket k0) ->
    receive_packet lib c1 = (c2, r2, bs) ->
    0 <= r2 ->
    output_buf_size < Z.of_nat (length bs) ->
    encode_run lib state input_buf num_frames output_buf output_buf_size w
      (-1) (packed_world
              (submitted_world w3 s c1 (AVFrame.set_nb_samples num_frames f3) r1)
              s c2 r2 bs)
| encode_done s f0 w3 f3 c c1 r1 k0 c2 r2 bs :
    state <> NULL ->
    objs w !! state = Some (OEncoder s) ->
    objs w !! encoder_state.frame s = Some (OFrame f0) ->
    deinterleave_loop (encoder_state.frame s) input_buf num_frames
      (AVFrame.nb_channels f0) w = Ok tt w3 ->
    objs w3 !! encoder_state.frame s = Some (OFrame f3) ->
    objs w3 !! encoder_state.ctx s = Some (OContext c) ->
    send_frame lib c (AVFrame.set_nb_samples num_frames f3) = (c1, r1) ->
    0 <= r1 ->
    objs w3 !! encoder_state.packet s = Some (OPacket k0) ->
    receive_packet lib c1 = (c2, r2, bs) ->
    0 <= r2 ->
    Z.of_nat (length bs) <= output_buf_size ->
    (bs = [] \/
     exists l, output_buf <> NULL /\ objs w3 !! output_buf = Some (OBytes l) /\
               (length bs <= length l)%nat) ->
    encode_run lib state input_buf num_frames output_buf output_buf_size w
      (Z.of_nat (length bs))
      (copied_world
         (packed_world
            (submitted_world w3 s c1 (AVFrame.set_nb_samples num_frames f3) r1)
            s c2 r2 bs)
         s output_buf bs).

(** ** What a created session looks like *)

(** The context [init_decoder] hands to [avcodec_open2]. *)
Definition decoder_config (sample_rate channels : Z) : AVCodecContext.t :=
  AVCodecContext.set_nb_channels channels
    (AVCodecContext.set_sample_rate sample_rate AVCodecContext.default).

(** The context [init_encoder] hands to [avcodec_open2]. *)
Definition encoder_config (sample_rate channels bitrate : Z) : AVCodecContext.t :=
  AVCodecContext.set_sample_fmt AV_SAMPLE_FMT_FLTP
    (AVCodecContext.set_bit_rate bitrate
       (AVCodecContext.set_nb_channels channels
          (AVCodecContext.set_sample_rate sample_rate AVCodecContext.default))).

(** A holder that an allocation filled, or left null when it failed. *)
Definition new_or_null (w w' : world) (p : ptr) (o : obj) : Prop :=
  p = NULL \/ (p <> NULL /\ objs w !! p = None /\ objs w' !! p = Some o).

(** The session [init_decoder] returns when it does not return null: the
    struct and the opened context are new objects; the frame and packet
    holders are new objects or null. *)
Definition decoder_created (lib : codec_library) (codec_id sample_rate channels : Z)
    (w w' : world) (p : ptr) : Prop :=
  exists s codec c r,
    find_decoder lib codec_id = Some codec /\
    open2 lib codec (decoder_config sample_rate channels) = (c, r) /\ 0 <= r /\
    p <> NULL /\ objs w !! p = None /\ objs w' !! p = Some (ODecoder s) /\
    decoder_state.ctx s <> NULL /\
    objs w !! decoder_state.ctx s = None /\
    objs w' !! decoder_state.ctx s = Some (OContext c) /\
    new_or_null w w' (decoder_state.frame s) (OFrame AVFrame.blank) /\
    new_or_null w w' (decoder_state.packet s) (OPacket AVPacket.blank) /\
    (forall q o, objs w !! q = Some o -> objs w' !! q = Some o).

(** The scratch frame [init_encoder] sets up for an opened context [c],
    before its buffers are requested. *)
Definition encoder_frame (c : AVCodecContext.t) (sample_rate : Z) : AVFrame.t :=
  AVFrame.mk (AVCodecContext.frame_size c) (AVCodecContext.sample_fmt c) sample_rate
    (AVCodecContext.nb_channels c) [].

(** Whether [av_frame_get_buffer] accepts the frame as it is set up. *)
Definition buffer_request_valid (f : AVFrame.t) : bool :=
  negb (is_none (AVFrame.format f) || (AVFrame.nb_samples f <=? 0)
        || (AVFrame.nb_channels f <=? 0)).

(** The frame has the planes [av_frame_get_buffer] attaches when the request
    is valid and memory is granted ([granted] is the answer to the fourth
    allocation request of the call); it has none otherwise. *)
Definition backed_or_bare (c : AVCodecContext.t) (sample_rate : Z) (granted : bool)
    (f : AVFrame.t) : Prop :=
  (buffer_request_valid (encoder_frame c sample_rate) = true /\ granted = true ->
   f = AVFrame.set_extended_data (fresh_planes (encoder_frame c sample_rate))
         (encoder_frame c sample_rate)) /\
  (buffer_request_valid (encoder_frame c sample_rate) = false \/ granted = false ->
   f = encoder_frame c sample_rate).

(** The session [init_encoder] returns when it does not return null. *)
Definition encoder_created (lib : codec_library)
    (codec_id sample_rate channels bitrate : Z) (w w' : world) (p : ptr) : Prop :=
  exists s codec c r f,
    find_encoder lib codec_id = Some codec /\
    open2 lib codec (encoder_config sample_rate channels bitrate) = (c, r) /\ 0 <= r /\
    p <> NULL /\ objs w !! p = None /\ objs w' !! p = Some (OEncoder s) /\
    encoder_state.ctx s <> NULL /\
    objs w !! encoder_state.ctx s = None /\
    objs w' !! encoder_state.ctx s = Some (OContext c) /\
    encoder_state.frame s <> NULL /\
    objs w !! encoder_state.frame s = None /\
    objs w' !! encoder_state.frame s = Some (OFrame f) /\
    backed_or_bare c sample_rate (hd true (tl (tl (tl (oom w))))) f /\
    new_or_null w w' (encoder_state.packet s) (OPacket AVPacket.blank) /\
    (forall q o, objs w !! q = Some o -> objs w' !! q = Some o).

(** ** The configuration of a decoder session *)

(** A codec library that leaves the sample rate and the channel count of a
    context as it finds them. *)
Definition keeps_config (lib : codec_library) : Prop :=
  (forall codec c c' r, open2 lib codec c = (c', r) ->
     AVCodecContext.sample_rate c' = AVCodecContext.sample_rate c /\
     AVCodecContext.nb_channels c' = AVCodecContext.nb_channels c) /\
  (forall c payload c' r, send_packet lib c payload = (c', r) ->
     AVCodecContext.sample_rate c' = AVCodecContext.sample_rate c /\
     AVCodecContext.nb_channels c' = AVCodecContext.nb_channels c) /\
  (forall c c' r fr, receive_frame lib c = (c', r, fr) ->
     AVCodecContext.sample_rate c' = AVCodecContext.sample_rate c /\
     AVCodecContext.nb_channels c' = AVCodecContext.nb_channels c) /\
  (forall c,
     AVCodecContext.sample_rate (flush_buffers lib c) = AVCodecContext.sample_rate c /\
     AVCodecContext.nb_channels (flush_buffers lib c) = AVCodecContext.nb_channels c).

(** The context of the session at [state] holds the sample rate [sr] and the
    channel count [ch]. *)
Definition session_config (w : world) (state : ptr) (sr ch : Z) : Prop :=
  exists s c,
    objs w !! state = Some (ODecoder s) /\
    objs w !! decoder_state.ctx s = Some (OContext c) /\
    AVCodecContext.sample_rate c = sr /\ AVCodecContext.nb_channels c = ch.

(** A codec that learns the format from the stream: receiving a frame sets
    the context to 44100 Hz mono, and the frame it returns carries neither a
    sample rate nor a channel count. *)
Definition retuning_frame : AVFrame.t :=
  AVFrame.mk 3 AV_SAMPLE_FMT_FLTP 0 0 [[10; 11; 12]].

Definition retuning_codec : codec_library := {|
  find_decoder id := if id =? 7 then Some 7 else None;
  find_encoder id := if id =? 7 then Some 7 else None;
  open2 codec c := (c, 0);
  send_packet c bs := (c, 0);
  receive_frame c :=
    (AVCodecContext.set_nb_channels 1 (AVCodecContext.set_sample_rate 44100 c),
     0, retuning_frame);
  send_frame c f := (c, 0);
  receive_packet c := (c, 0, []);
  flush_buffers c := c
|}.

(** An encoder session a call can work on: the struct and its three holders
    are live; [f] is the scratch frame and [c] the codec context. *)
Definition encoder_ready (w : world) (state : ptr) (s : encoder_state.t)
    (c : AVCodecContext.t) (f : AVFrame.t) : Prop :=
  state <> NULL /\ objs w !! state = Some (OEncoder s) /\
  encoder_state.ctx s <> NULL /\
  objs w !! encoder_state.ctx s = Some (OContext c) /\
  encoder_state.frame s <> NULL /\
  objs w !! encoder_state.frame s = Some (OFrame f) /\
  encoder_state.packet s <> NULL /\
  (exists k, objs w !! encoder_state.packet s = Some (OPacket k)).

(** The planes of [f] have room for [n] samples of each of its channels. *)
Definition planes_hold (f : AVFrame.t) (n : Z) : Prop :=
  forall ch, 0 <= ch < AVFrame.nb_channels f ->
    exists plane, AVFrame.extended_data f !! Z.to_nat ch = Some plane /\
                  n <= Z.of_nat (length plane).

(** The frame [fr] has a sample for each of [F] frames of [C] channels. *)
Definition frame_holds (fr : AVFrame.t) (F C : Z) : Prop :=
  forall i ch, 0 <= i < F -> 0 <= ch < C -> is_Some (sample fr ch i).

(** ** Sessions and codecs of the examples *)

(** The decoder and the encoder sessions the demonstration codec opens in
    the caller's memory of the examples, 48000 Hz stereo. *)
Definition demo_decoder : world :=
  world_after (init_decoder demo_codec 7 48000 2 demo_world) demo_world.

Definition demo_encoder : world :=
  world_after (init_encoder demo_codec 7 48000 2 192000 demo_world) demo_world.

(** The caller's memory of the examples when the third allocation asked of
    the allocator fails. *)
Definition short_world : world :=
  mkWorld (objs demo_world) [true; true; false] [].

(** A codec that answers -1 to every frame submitted for encoding. *)
Definition refusing_codec : codec_library := {|
  find_decoder id := if id =? 7 then Some 7 else None;
  find_encoder id := if id =? 7 then Some 7 else None;
  open2 codec c :=
    (AVCodecContext.mk (AVCodecContext.sample_rate c) (AVCodecContext.nb_channels c)
       (AVCodecContext.bit_rate c) (AVCodecContext.sample_fmt c) 3 [], 0);
  send_packet c bs := (c, 0);
  receive_frame c := (c, 0, demo_frame);
  send_frame c f := (c, -1);
  receive_packet c := (c, 0, [Byte.x0b; Byte.x77]);
  flush_buffers c := c
|}.

(** The worlds the calls of the examples leave. *)
Definition demo_decoded : world :=
  world_after (decode_packet demo_codec 105 100 1 101 102 103 104 demo_decoder)
              demo_decoder.

Definition demo_encoded : world :=
  world_after (encode_samples demo_codec 105 98 3 99 4 demo_encoder) demo_encoder.

Definition demo_oversize : world :=
  world_after (encode_samples demo_codec 105 98 3 100 1 demo_encoder) demo_encoder.

Definition short_decoder : world :=
  world_after (init_decoder demo_codec 7 48000 2 short_world) short_world.

(** The caller's memory of the examples when the fourth allocation asked of
    the allocator fails. *)
Definition tight_world : world :=
  mkWorld (objs demo_world) [true; true; true; false] [].

Definition bare_encoder : world :=
  world_after (init_encoder demo_codec 7 48000 2 192000 tight_world) tight_world.

Definition refused_encoder : world :=
  world_after (init_encoder refusing_codec 7 48000 2 192000 demo_world) demo_world.

Definition refused_encoded : world :=
  world_after (encode_samples refusing_codec 105 98 3 99 4 refused_encoder)
              refused_encoder.

Definition retuned_decoder : world :=
  world_after (init_decoder retuning_codec 7 48000 2 demo_world) demo_world.

Definition retuned_decoded : world :=
  world_after (decode_packet retuning_codec 105 100 1 101 102 103 104 retuned_decoder)
              retuned_decoder.

(** The session structs and the contexts of the examples. *)
Definition demo_decoder_state : decoder_state.t := decoder_state.mk 106 107 108.

Definition demo_encoder_state : encoder_state.t := encoder_state.mk 106 107 108.

Definition demo_decoder_ctx : AVCodecContext.t :=
  AVCodecContext.mk 48000 2 0 AV_SAMPLE_FMT_NONE 3 [].

Definition demo_encoder_ctx : AVCodecContext.t :=
  AVCodecContext.mk 48000 2 192000 AV_SAMPLE_FMT_FLTP 3 [].

Definition demo_encoder_frame : AVFrame.t :=
  AVFrame.mk 3 AV_SAMPLE_FMT_FLTP 48000 2 [[0; 0; 0]; [0; 0; 0]].

(** ** What a call leaves in place *)

(** The shape of an object: a session struct as it is, every other object
    reduced to its kind and, for a buffer of the caller, its length. *)
Definition obj_shape (o : obj) : obj :=
  match o with
  | ODecoder s => ODecoder s
  | OEncoder s => OEncoder s
  | OContext _ => OContext AVCodecContext.default
  | OFrame _ => OFrame AVFrame.blank
  | OPacket _ => OPacket AVPacket.blank
  | OFloats l => OFloats (replicate (length l) 0)
  | OBytes l => OBytes (replicate (length l) Byte.x00)
  | OInt _ => OInt 0
  end.

(** Two stores with the same live addresses, each holding an object of the
    same shape. *)
Definition same_shape (m m' : gmap Z obj) : Prop :=
  forall q : ptr, obj_shape <$> m' !! q = obj_shape <$> m !! q.

(** The events of the allocator. *)
Definition is_memory_event (e : event) : Prop :=
  match e with
  | EvAlloc _ | EvAllocFail | EvFree _ => True
  | _ => False
  end.

(** A call that neither allocates nor releases, and leaves every object in
    its place with its shape. *)
Definition same_layout (w w' : world) : Prop :=
  oom w' = oom w /\ same_shape (objs w) (objs w') /\
  exists evs, trace w' = trace w ++ evs /\
              Forall (fun e => ~ is_memory_event e) evs.

(** ** The invariant of the encoder's copy loop, in full

    [copied n ch i ch' i'] says that the pair (channel [ch'], sample [i'])
    has been copied when the loop nest is about to copy ([ch], [i]). *)
Definition copied (n ch i ch' i' : Z) : Prop :=
  0 <= ch' /\ 0 <= i' < n /\ (ch' < ch \/ (ch' = ch /\ i' < i)).

(** The state of the world when the loop nest of [encode_samples], started
    in [w] with the scratch frame [f0] and the input holding [l], is about to
    copy the pair ([ch], [i]): the planes keep their lengths, a copied sample
    is the element of the input at [i' * C + ch'], every other sample is as
    it was. *)
Definition deinterleave_state (fp inp : ptr) (n C : Z) (f0 : AVFrame.t)
    (l : list f32) (w : world) (ch i : Z) (w' : world) : Prop :=
  oom w' = oom w /\
  (forall p : ptr, p <> fp -> objs w' !! p = objs w !! p) /\
  exists planes,
    objs w' !! fp = Some (OFrame (AVFrame.set_extended_data planes f0)) /\
    length <$> planes = length <$> AVFrame.extended_data f0 /\
    (forall ch' i', copied n ch i ch' i' ->
       0 <= index32 i' C ch' < Z.of_nat (length l)) /\
    (n * C <= 2 ^ 31 ->
     forall ch' i', copied n ch i ch' i' ->
       exists v, l !! Z.to_nat (i' * C + ch') = Some v /\
                 sample (AVFrame.set_extended_data planes f0) ch' i' = Some v) /\
    (forall ch' i', ~ copied n ch i ch' i' ->
       sample (AVFrame.set_extended_data planes f0) ch' i' = sample f0 ch' i').

(** The frame [fr] is the scratch frame [f0] with the [n] samples of each of
    its channels taken from the interleaved buffer at [inp] in [w]: sample
    [i] of channel [ch] is the element at [i * C + ch], every other sample
    and every field but the sample count is as in [f0]. *)
Definition deinterleaved (w : world) (inp : ptr) (n : Z) (f0 fr : AVFrame.t) : Prop :=
  AVFrame.nb_samples fr = n /\
  AVFrame.format fr = AVFrame.format f0 /\
  AVFrame.sample_rate fr = AVFrame.sample_rate f0 /\
  AVFrame.nb_channels fr = AVFrame.nb_channels f0 /\
  length <$> AVFrame.extended_data fr = length <$> AVFrame.extended_data f0 /\
  (forall i ch, 0 <= i < n -> 0 <= ch < AVFrame.nb_channels f0 ->
     exists v, float_at w inp (i * AVFrame.nb_channels f0 + ch) = Some v /\
               sample fr ch i = Some v) /\
  (forall i ch, ~ (0 <= i < n /\ 0 <= ch < AVFrame.nb_channels f0) ->
     sample fr ch i = sample f0 ch i).

(** ** Memory for a creation call *)

(** The allocator grants the next [k] requests. *)
Fixpoint all_granted (k : nat) (l : list bool) : bool :=
  match k with
  | O => true
  | S k' => hd true l && all_granted k' (tl l)
  end.

(** An encoder session with [C] channels whose planes have room for [fs]
    samples each. *)
Definition encoder_capacity (w : world) (state : ptr) (C fs : Z) : Prop :=
  exists s c f,
    encoder_ready w state s c f /\ AVFrame.nb_channels f = C /\ planes_hold f fs.

(** The number of samples plane [ch] of a frame has room for; none when the
    frame has no such plane. *)
Definition plane_room (f : AVFrame.t) (ch : Z) : Z :=
  match AVFrame.extended_data f !! Z.to_nat ch with
  | Some plane => Z.of_nat (length plane)
  | None => 0
  end.

(** A codec whose decoder hands out frames without samples. *)
Definition silent_codec : codec_library := {|
  find_decoder id := if id =? 7 then Some 7 else None;
  find_encoder id := if id =? 7 then Some 7 else None;
  open2 codec c :=
    (AVCodecContext.mk (AVCodecContext.sample_rate c) (AVCodecContext.nb_channels c)
       (AVCodecContext.bit_rate c) (AVCodecContext.sample_fmt c) 3 [], 0);
  send_packet c bs := (c, 0);
  receive_frame c := (c, 0, AVFrame.mk 0 AV_SAMPLE_FMT_FLTP 48000 2 []);
  send_frame c f := (c, 0);
  receive_packet c := (c, 0, []);
  flush_buffers c := c
|}.

Definition silent_decoder : world :=
  world_after (init_decoder silent_codec 7 48000 2 demo_world) demo_world.

(** The scratch frame at [fp] is [f0] up to the content of its planes, which
    have the lengths of those of [f0]. *)
Definition shaped (fp : ptr) (f0 : AVFrame.t) (w : world) : Prop :=
  fp <> NULL /\
  exists planes,
    objs w !! fp = Some (OFrame (AVFrame.set_extended_data planes f0)) /\
    length <$> planes = length <$> AVFrame.extended_data f0.

(** A codec whose decoder hands out the frame that de-interleaving the six
    floats at 98 gives. *)
Definition echo_codec : codec_library := {|
  find_decoder id := if id =? 7 then Some 7 else None;
  find_encoder id := if id =? 7 then Some 7 else None;
  open2 codec c :=
    (AVCodecContext.mk (AVCodecContext.sample_rate c) (AVCodecContext.nb_channels c)
       (AVCodecContext.bit_rate c) (AVCodecContext.sample_fmt c) 3 [], 0);
  send_packet c bs := (c, 0);
  receive_frame c :=
    (c, 0, AVFrame.mk 3 AV_SAMPLE_FMT_FLTP 48000 2 [[1; 3; 5]; [2; 4; 6]]);
  send_frame c f := (c, 0);
  receive_packet c := (c, 0, []);
  flush_buffers c := c
|}.

Definition echo_decoder : world :=
  world_after (init_decoder echo_codec 7 48000 2 demo_world) demo_world.

Definition echo_decoded : world :=
  world_after (decode_packet echo_codec 105 99 2 101 102 103 104 echo_decoder)
              echo_decoder.

(** * Properties *)

(** ** Inversion of the monad and of the store primitives *)

Lemma bind_Ok {A B} (m : M A) (k : A -> M B) w b w' :
  bind m k w = Ok b w' -> exists a w1, m w = Ok a w1 /\ k a w1 = Ok b w'.
Proof.
  unfold bind. destruct (m w) as [|a w1]; [discriminate|]. eauto.
Qed.

Lemma bind_run {A B} (m : M A) (k : A -> M B) w a w1 :
  m w = Ok a w1 -> bind m k w = k a w1.
Proof. unfold bind. intros ->. reflexivity. Qed.

Lemma deref_Ok p w o w' :
  deref p w = Ok o w' -> w' = w /\ p <> NULL /\ objs w !! p = Some o.
Proof.
  unfold deref. destruct (Z.eqb_spec p NULL); [discriminate|].
  destruct (objs w !! p); [|discriminate]. intros [= -> ->]. auto.
Qed.

Lemma deref_run p w o :
  p <> NULL -> objs w !! p = Some o -> deref p w = Ok o w.
Proof.
  intros Hp Ho. unfold deref. destruct (Z.eqb_spec p NULL); [done|].
  by rewrite Ho.
Qed.

Lemma assign_Ok p o w u w' :
  assign p o w = Ok u w' ->
  w' = set_objs (<[p:=o]> (objs w)) w /\ p <> NULL /\ is_Some (objs w !! p).
Proof.
  unfold assign. destruct (Z.eqb_spec p NULL); [discriminate|].
  destruct (objs w !! p) eqn:E; [|discriminate]. intros [= _ <-]. eauto.
Qed.

Lemma assign_run p o w :
  p <> NULL -> is_Some (objs w !! p) ->
  assign p o w = Ok tt (set_objs (<[p:=o]> (objs w)) w).
Proof.
  intros Hp [x Hx]. unfold assign. destruct (Z.eqb_spec p NULL); [done|].
  by rewrite Hx.
Qed.

Lemma fresh_addr_above (m : gmap Z obj) k :
  is_Some (m !! k) -> k < fresh_addr m.
Proof.
  unfold fresh_addr.
  revert k. apply (map_fold_weak_ind
    (fun r (m : gmap Z obj) => forall k, is_Some (m !! k) -> k < 1 + r)).
  - intros k [x Hx]. by rewrite lookup_empty in Hx.
  - intros i x m' r _ IH k Hk. destruct (decide (i = k)) as [->|Hne].
    + lia.
    + rewrite lookup_insert_ne in Hk by done. specialize (IH k Hk). lia.
Qed.

Lemma fresh_addr_pos (m : gmap Z obj) : 0 < fresh_addr m.
Proof.
  unfold fresh_addr.
  apply (map_fold_weak_ind (fun r (m : gmap Z obj) => 0 < 1 + r)); lia.
Qed.

Lemma fresh_addr_free (m : gmap Z obj) : m !! fresh_addr m = None.
Proof.
  destruct (m !! fresh_addr m) eqn:E; [|done].
  assert (fresh_addr m < fresh_addr m) by (apply fresh_addr_above; eauto). lia.
Qed.

(** A step of a run: [m] takes [w] to [w'] and yields [a]. *)
Ltac inv_bind H :=
  let a := fresh "a" in
  let w1 := fresh "w" in
  let H1 := fresh "Hrun" in
  apply bind_Ok in H as (a & w1 & H1 & H).

Ltac run_with lem := erewrite bind_run; [|solve [eapply lem; eauto]].

Section Typed_access.

Lemma get_decoder_Ok p w s w' :
  get_decoder p w = Ok s w' ->
  w' = w /\ p <> NULL /\ objs w !! p = Some (ODecoder s).
Proof.
  unfold get_decoder. intros H. inv_bind H. apply deref_Ok in Hrun as (-> & ? & ?).
  destruct a; try discriminate. injection H as -> ->. auto.
Qed.

Lemma get_encoder_Ok p w s w' :
  get_encoder p w = Ok s w' ->
  w' = w /\ p <> NULL /\ objs w !! p = Some (OEncoder s).
Proof.
  unfold get_encoder. intros H. inv_bind H. apply deref_Ok in Hrun as (-> & ? & ?).
  destruct a; try discriminate. injection H as -> ->. auto.
Qed.

Lemma get_ctx_Ok p w c w' :
  get_ctx p w = Ok c w' ->
  w' = w /\ p <> NULL /\ objs w !! p = Some (OContext c).
Proof.
  unfold get_ctx. intros H. inv_bind H. apply deref_Ok in Hrun as (-> & ? & ?).
  destruct a; try discriminate. injection H as -> ->. auto.
Qed.

Lemma get_frame_Ok p w f w' :
  get_frame p w = Ok f w' ->
  w' = w /\ p <> NULL /\ objs w !! p = Some (OFrame f).
Proof.
  unfold get_frame. intros H. inv_bind H. apply deref_Ok in Hrun as (-> & ? & ?).
  destruct a; try discriminate. injection H as -> ->. auto.
Qed.

Lemma get_packet_Ok p w k w' :
  get_packet p w = Ok k w' ->
  w' = w /\ p <> NULL /\ objs w !! p = Some (OPacket k).
Proof.
  unfold get_packet. intros H. inv_bind H. apply deref_Ok in Hrun as (-> & ? & ?).
  destruct a; try discriminate. injection H as -> ->. auto.
Qed.

Lemma get_decoder_run p w s :
  p <> NULL -> objs w !! p = Some (ODecoder s) -> get_decoder p w = Ok s w.
Proof. intros. unfold get_decoder. by run_with deref_run. Qed.

Lemma get_encoder_run p w s :
  p <> NULL -> objs w !! p = Some (OEncoder s) -> get_encoder p w = Ok s w.
Proof. intros. unfold get_encoder. by run_with deref_run. Qed.

Lemma get_ctx_run p w c :
  p <> NULL -> objs w !! p = Some (OContext c) -> get_ctx p w = Ok c w.
Proof. intros. unfold get_ctx. by run_with deref_run. Qed.

Lemma get_frame_run p w f :
  p <> NULL -> objs w !! p = Some (OFrame f) -> get_frame p w = Ok f w.
Proof. intros. unfold get_frame. by run_with deref_run. Qed.

Lemma get_packet_run p w k :
  p <> NULL -> objs w !! p = Some (OPacket k) -> get_packet p w = Ok k w.
Proof. intros. unfold get_packet. by run_with deref_run. Qed.

Lemma upd_decoder_Ok p f w u w' :
  upd_decoder p f w = Ok u w' ->
  exists s, p <> NULL /\ objs w !! p = Some (ODecoder s) /\
            w' = set_objs (<[p:=ODecoder (f s)]> (objs w)) w.
Proof.
  unfold upd_decoder. intros H. inv_bind H.
  apply get_decoder_Ok in Hrun as (-> & ? & ?).
  apply assign_Ok in H as (-> & _ & _). eauto.
Qed.

Lemma upd_encoder_Ok p f w u w' :
  upd_encoder p f w = Ok u w' ->
  exists s, p <> NULL /\ objs w !! p = Some (OEncoder s) /\
            w' = set_objs (<[p:=OEncoder (f s)]> (objs w)) w.
Proof.
  unfold upd_encoder. intros H. inv_bind H.
  apply get_encoder_Ok in Hrun as (-> & ? & ?).
  apply assign_Ok in H as (-> & _ & _). eauto.
Qed.

Lemma upd_ctx_Ok p f w u w' :
  upd_ctx p f w = Ok u w' ->
  exists c, p <> NULL /\ objs w !! p = Some (OContext c) /\
            w' = set_objs (<[p:=OContext (f c)]> (objs w)) w.
Proof.
  unfold upd_ctx. intros H. inv_bind H.
  apply get_ctx_Ok in Hrun as (-> & ? & ?).
  apply assign_Ok in H as (-> & _ & _). eauto.
Qed.

Lemma upd_frame_Ok p f w u w' :
  upd_frame p f w = Ok u w' ->
  exists x, p <> NULL /\ objs w !! p = Some (OFrame x) /\
            w' = set_objs (<[p:=OFrame (f x)]> (objs w)) w.
Proof.
  unfold upd_frame. intros H. inv_bind H.
  apply get_frame_Ok in Hrun as (-> & ? & ?).
  apply assign_Ok in H as (-> & _ & _). eauto.
Qed.

Lemma upd_packet_Ok p f w u w' :
  upd_packet p f w = Ok u w' ->
  exists k, p <> NULL /\ objs w !! p = Some (OPacket k) /\
            w' = set_objs (<[p:=OPacket (f k)]> (objs w)) w.
Proof.
  unfold upd_packet. intros H. inv_bind H.
  apply get_packet_Ok in Hrun as (-> & ? & ?).
  apply assign_Ok in H as (-> & _ & _). eauto.
Qed.

Lemma upd_decoder_run p f w s :
  p <> NULL -> objs w !! p = Some (ODecoder s) ->
  upd_decoder p f w = Ok tt (set_objs (<[p:=ODecoder (f s)]> (objs w)) w).
Proof.
  intros. unfold upd_decoder. run_with get_decoder_run. apply assign_run; eauto.
Qed.

Lemma upd_encoder_run p f w s :
  p <> NULL -> objs w !! p = Some (OEncoder s) ->
  upd_encoder p f w = Ok tt (set_objs (<[p:=OEncoder (f s)]> (objs w)) w).
Proof.
  intros. unfold upd_encoder. run_with get_encoder_run. apply assign_run; eauto.
Qed.

Lemma upd_ctx_run p f w c :
  p <> NULL -> objs w !! p = Some (OContext c) ->
  upd_ctx p f w = Ok tt (set_objs (<[p:=OContext (f c)]> (objs w)) w).
Proof.
  intros. unfold upd_ctx. run_with get_ctx_run. apply assign_run; eauto.
Qed.

Lemma upd_frame_run p f w x :
  p <> NULL -> objs w !! p = Some (OFrame x) ->
  upd_frame p f w = Ok tt (set_objs (<[p:=OFrame (f x)]> (objs w)) w).
Proof.
  intros. unfold upd_frame. run_with get_frame_run. apply assign_run; eauto.
Qed.

Lemma upd_packet_run p f w k :
  p <> NULL -> objs w !! p = Some (OPacket k) ->
  upd_packet p f w = Ok tt (set_objs (<[p:=OPacket (f k)]> (objs w)) w).
Proof.
  intros. unfold upd_packet. run_with get_packet_run. apply assign_run; eauto.
Qed.

Lemma release_run p w o :
  p <> NULL -> objs w !! p = Some o ->
  release p w = Ok tt (mkWorld (delete p (objs w)) (oom w) (trace w ++ [EvFree p])).
Proof.
  intros Hp Ho. unfold release. destruct (Z.eqb_spec p NULL); [done|].
  by rewrite Ho.
Qed.

Lemma release_Ok p w u w' :
  release p w = Ok u w' ->
  (p = NULL /\ w' = w) \/
  (p <> NULL /\ is_Some (objs w !! p) /\
   w' = mkWorld (delete p (objs w)) (oom w) (trace w ++ [EvFree p])).
Proof.
  unfold release. destruct (Z.eqb_spec p NULL).
  - intros [= <-]. auto.
  - destruct (objs w !! p) eqn:E; [|discriminate]. intros [= <-]. right. eauto.
Qed.

(** Two addresses holding objects of different kinds are different. *)
Lemma addr_neq (m : gmap Z obj) p q a b :
  m !! p = Some a -> m !! q = Some b -> a <> b -> p <> q.
Proof. intros Hp Hq Hab ->. congruence. Qed.

End Typed_access.

(** ** Running a function forward *)

Lemma bind_step {A B} (m : M A) (k : A -> M B) w a w1 b w' :
  m w = Ok a w1 -> k a w1 = Ok b w' -> bind m k w = Ok b w'.
Proof. intros H1 H2. by rewrite (bind_run _ _ _ _ _ H1). Qed.

Lemma run_to {A} (m : M A) w a w1 w2 :
  m w = Ok a w1 -> w1 = w2 -> m w = Ok a w2.
Proof. by intros ? <-. Qed.

Lemma pure_run {A} (a : A) w : pure a w = Ok a w.
Proof. reflexivity. Qed.

Lemma emit_run e w : emit e w = Ok tt (log_event e w).
Proof. reflexivity. Qed.

(** Lookups in a store built by insertions and deletions, given the
    disequalities of the addresses involved. *)
Ltac lookup :=
  unfold log_event, set_objs; cbn [objs oom trace];
  repeat first
    [ rewrite lookup_insert_eq
    | rewrite lookup_insert_ne by (first [assumption | congruence])
    | rewrite lookup_delete_ne by (first [assumption | congruence]) ];
  first [eassumption | reflexivity | solve [eauto]].

Ltac nonnull := first [assumption | congruence | lia].

Ltac fwd :=
  cbv beta;
  cbn [decoder_state.ctx decoder_state.frame decoder_state.packet
       decoder_state.set_ctx decoder_state.set_frame decoder_state.set_packet
       encoder_state.ctx encoder_state.frame encoder_state.packet
       encoder_state.set_ctx encoder_state.set_frame encoder_state.set_packet
       objs oom trace set_objs log_event];
  lazymatch goal with
  | |- bind _ _ _ = Ok _ _ => eapply bind_step; [fwd | fwd]
  | |- pure _ _ = Ok _ _ => apply pure_run
  | |- emit _ _ = Ok _ _ => apply emit_run
  | |- (if ?b then _ else _) _ = Ok _ _ =>
      first
        [ change b with true; cbv iota; fwd
        | change b with false; cbv iota; fwd
        | match goal with
          | H : b = true |- _ => rewrite H; fwd
          | H : b = false |- _ => rewrite H; fwd
          end ]
  | |- rd ?pp _ = Ok _ _ =>
      let h := eval hnf in pp in change pp with h; cbn [rd]; fwd
  | |- wr ?pp _ _ = Ok _ _ =>
      let h := eval hnf in pp in change pp with h; cbn [wr]; fwd
  | |- get_decoder _ _ = Ok _ _ => eapply get_decoder_run; [nonnull | lookup]
  | |- get_encoder _ _ = Ok _ _ => eapply get_encoder_run; [nonnull | lookup]
  | |- get_ctx _ _ = Ok _ _ => eapply get_ctx_run; [nonnull | lookup]
  | |- get_frame _ _ = Ok _ _ => eapply get_frame_run; [nonnull | lookup]
  | |- get_packet _ _ = Ok _ _ => eapply get_packet_run; [nonnull | lookup]
  | |- upd_decoder _ _ _ = Ok _ _ => eapply upd_decoder_run; [nonnull | lookup]
  | |- upd_encoder _ _ _ = Ok _ _ => eapply upd_encoder_run; [nonnull | lookup]
  | |- upd_ctx _ _ _ = Ok _ _ => eapply upd_ctx_run; [nonnull | lookup]
  | |- upd_frame _ _ _ = Ok _ _ => eapply upd_frame_run; [nonnull | lookup]
  | |- upd_packet _ _ _ = Ok _ _ => eapply upd_packet_run; [nonnull | lookup]
  | |- release _ _ = Ok _ _ => eapply release_run; [nonnull | lookup]
  | |- free _ _ = Ok _ _ => eapply release_run; [nonnull | lookup]
  | |- av_frame_free _ _ = Ok _ _ => unfold av_frame_free; fwd
  | |- av_packet_free _ _ = Ok _ _ => unfold av_packet_free; fwd
  | |- avcodec_free_context _ _ = Ok _ _ => unfold avcodec_free_context; fwd
  | |- av_frame_unref _ _ = Ok _ _ => unfold av_frame_unref; fwd
  | |- av_packet_unref _ _ = Ok _ _ => unfold av_packet_unref; fwd
  | |- av_channel_layout_default _ _ _ = Ok _ _ =>
      unfold av_channel_layout_default; fwd
  | |- av_channel_layout_copy _ _ _ = Ok _ _ => unfold av_channel_layout_copy; fwd
  | |- assign _ _ _ = Ok _ _ => eapply assign_run; [nonnull | eexists; lookup]
  end.

(** Two worlds built by different sequences of insertions, deletions and
    events are compared field by field. *)
Ltac map_eq_tac :=
  apply map_eq; intros ?;
  repeat first [rewrite lookup_insert | rewrite lookup_delete];
  repeat case_decide; simplify_eq; try done.

Ltac world_eq :=
  unfold log_event, set_objs; cbn [objs oom trace];
  f_equal;
  first [ reflexivity
        | rewrite <- ?app_assoc; reflexivity
        | map_eq_tac ].

(** ** Destruction *)

Section Destruction.

Lemma or_null_case (P : Prop) (p : ptr) :
  p = NULL \/ P ->
  (p = NULL /\ (p =? NULL) = true) \/ ((p =? NULL) = false /\ p <> NULL /\ P).
Proof.
  intros H. destruct (Z.eqb_spec p NULL) as [->|Hn]; [by left|].
  right. destruct H; [done|auto].
Qed.

Lemma close_decoder_live w state s :
  state <> NULL ->
  objs w !! state = Some (ODecoder s) ->
  frame_or_null w (decoder_state.frame s) ->
  packet_or_null w (decoder_state.packet s) ->
  ctx_or_null w (decoder_state.ctx s) ->
  close_decoder state w =
    Ok tt (mkWorld
             (delete state
                (drop_obj (decoder_state.ctx s)
                   (drop_obj (decoder_state.packet s)
                      (drop_obj (decoder_state.frame s) (objs w)))))
             (oom w)
             (trace w ++ free_of (decoder_state.frame s)
                      ++ free_of (decoder_state.packet s)
                      ++ free_of (decoder_state.ctx s) ++ [EvFree state])).
Proof.
  intros Hs Hst Hf Hk Hc. destruct s as [c f k]. simpl in *.
  unfold close_decoder, free_of, drop_obj.
  destruct (Z.eqb_spec state NULL) as [|_]; [done|].
  apply or_null_case in Hf as [[-> Ef]|(Ef & Hf0 & [xf Hf])];
  apply or_null_case in Hk as [[-> Ek]|(Ek & Hk0 & [xk Hk])];
  apply or_null_case in Hc as [[-> Ec]|(Ec & Hc0 & [xc Hc])].
  all: try assert (f <> state) by (eapply addr_neq; eauto; done).
  all: try assert (k <> state) by (eapply addr_neq; eauto; done).
  all: try assert (c <> state) by (eapply addr_neq; eauto; done).
  all: try assert (f <> k) by (eapply addr_neq; eauto; done).
  all: try assert (f <> c) by (eapply addr_neq; eauto; done).
  all: try assert (k <> c) by (eapply addr_neq; eauto; done).
  all: rewrite ?Ef, ?Ek, ?Ec.
  all: (eapply run_to; [fwd|world_eq]).
Qed.


Lemma close_encoder_live w state s :
  state <> NULL ->
  objs w !! state = Some (OEncoder s) ->
  frame_or_null w (encoder_state.frame s) ->
  packet_or_null w (encoder_state.packet s) ->
  ctx_or_null w (encoder_state.ctx s) ->
  close_encoder state w =
    Ok tt (mkWorld
             (delete state
                (drop_obj (encoder_state.ctx s)
                   (drop_obj (encoder_state.packet s)
                      (drop_obj (encoder_state.frame s) (objs w)))))
             (oom w)
             (trace w ++ free_of (encoder_state.frame s)
                      ++ free_of (encoder_state.packet s)
                      ++ free_of (encoder_state.ctx s) ++ [EvFree state])).
Proof.
  intros Hs Hst Hf Hk Hc. destruct s as [c f k]. simpl in *.
  unfold close_encoder, free_of, drop_obj.
  destruct (Z.eqb_spec state NULL) as [|_]; [done|].
  apply or_null_case in Hf as [[-> Ef]|(Ef & Hf0 & [xf Hf])];
  apply or_null_case in Hk as [[-> Ek]|(Ek & Hk0 & [xk Hk])];
  apply or_null_case in Hc as [[-> Ec]|(Ec & Hc0 & [xc Hc])].
  all: try assert (f <> state) by (eapply addr_neq; eauto; done).
  all: try assert (k <> state) by (eapply addr_neq; eauto; done).
  all: try assert (c <> state) by (eapply addr_neq; eauto; done).
  all: try assert (f <> k) by (eapply addr_neq; eauto; done).
  all: try assert (f <> c) by (eapply addr_neq; eauto; done).
  all: try assert (k <> c) by (eapply addr_neq; eauto; done).
  all: rewrite ?Ef, ?Ek, ?Ec.
  all: (eapply run_to; [fwd|world_eq]).
Qed.

End Destruction.

(** C9.  [close_decoder(NULL)] and [close_encoder(NULL)] return at once and
    leave the world untouched.  On a live session whose three holders are each
    either null or live, the call releases the frame holder if it is not
    null, then the packet holder if it is not null, then the codec context if
    it is not null, and the session struct last; nothing else changes. *)
Theorem close_session_safe :
  (forall w, close_decoder NULL w = Ok tt w) /\
  (forall w, close_encoder NULL w = Ok tt w) /\
  (forall w state s,
     state <> NULL ->
     objs w !! state = Some (ODecoder s) ->
     frame_or_null w (decoder_state.frame s) ->
     packet_or_null w (decoder_state.packet s) ->
     ctx_or_null w (decoder_state.ctx s) ->
     close_decoder state w =
       Ok tt (mkWorld
                (delete state
                   (drop_obj (decoder_state.ctx s)
                      (drop_obj (decoder_state.packet s)
                         (drop_obj (decoder_state.frame s) (objs w)))))
                (oom w)
                (trace w ++ free_of (decoder_state.frame s)
                         ++ free_of (decoder_state.packet s)
                         ++ free_of (decoder_state.ctx s) ++ [EvFree state]))) /\
  (forall w state s,
     state <> NULL ->
     objs w !! state = Some (OEncoder s) ->
     frame_or_null w (encoder_state.frame s) ->
     packet_or_null w (encoder_state.packet s) ->
     ctx_or_null w (encoder_state.ctx s) ->
     close_encoder state w =
       Ok tt (mkWorld
                (delete state
                   (drop_obj (encoder_state.ctx s)
                      (drop_obj (encoder_state.packet s)
                         (drop_obj (encoder_state.frame s) (objs w)))))
                (oom w)
                (trace w ++ free_of (encoder_state.frame s)
                         ++ free_of (encoder_state.packet s)
                         ++ free_of (encoder_state.ctx s) ++ [EvFree state]))).
Proof.
  split; [reflexivity|]. split; [reflexivity|].
  split; intros; [by apply close_decoder_live | by apply close_encoder_live].
Qed.

(** ** The calls into the codec *)

Section Codec_calls.

Variable lib : codec_library.

Lemma at_index_Ok {A} (l : list A) i w a w' :
  at_index l i w = Ok a w' -> w' = w /\ 0 <= i /\ l !! Z.to_nat i = Some a.
Proof.
  unfold at_index. destruct (Z.ltb_spec i 0); [discriminate|].
  destruct (l !! Z.to_nat i); [|discriminate]. intros [= -> ->]. auto.
Qed.

Lemma at_index_run {A} (l : list A) i w a :
  0 <= i -> l !! Z.to_nat i = Some a -> at_index l i w = Ok a w.
Proof.
  intros Hi Ha. unfold at_index. destruct (Z.ltb_spec i 0); [lia|]. by rewrite Ha.
Qed.

Lemma load_bytes_Ok p n w bs w' :
  load_bytes p n w = Ok bs w' -> w' = w /\ payload_of w p n = Some bs.
Proof.
  unfold load_bytes, payload_of. destruct (n <=? 0); [by intros [= <- <-]|].
  intros H. inv_bind H. apply deref_Ok in Hrun as (-> & Hp & Ho).
  destruct (Z.eqb_spec p NULL); [done|]. rewrite Ho.
  destruct a; try discriminate.
  destruct (n <=? Z.of_nat (length l)); [|discriminate].
  by injection H as <- <-.
Qed.

Lemma load_bytes_run p n w bs :
  payload_of w p n = Some bs -> load_bytes p n w = Ok bs w.
Proof.
  unfold load_bytes, payload_of. destruct (n <=? 0); [by intros [= ->]|].
  destruct (Z.eqb_spec p NULL); [done|].
  destruct (objs w !! p) as [o|] eqn:Ho; [|done].
  intros H. erewrite bind_run by (by apply deref_run).
  destruct o; try discriminate.
  destruct (n <=? Z.of_nat (length l)); [|discriminate]. by injection H as ->.
Qed.

(** Reading a payload only looks at the byte buffer it is read from. *)
Lemma payload_of_agree w1 w2 p n :
  (forall l, objs w1 !! p = Some (OBytes l) -> objs w2 !! p = Some (OBytes l)) ->
  forall bs, payload_of w1 p n = Some bs -> payload_of w2 p n = Some bs.
Proof.
  intros Hag bs. unfold payload_of. destruct (n <=? 0); [done|].
  destruct (p =? NULL); [done|].
  destruct (objs w1 !! p) as [[]|] eqn:E; try done.
  by rewrite (Hag _ eq_refl).
Qed.

Lemma store_int_Ok p v w u w' :
  store_int p v w = Ok u w' ->
  p <> NULL /\ (exists x, objs w !! p = Some (OInt x)) /\
  w' = mkWorld (<[p:=OInt v]> (objs w)) (oom w) (trace w ++ [EvStoreI p v]).
Proof.
  unfold store_int. intros H. inv_bind H. apply deref_Ok in Hrun as (-> & Hp & Ho).
  destruct a; try discriminate. inv_bind H.
  apply assign_Ok in Hrun as (-> & _ & _). injection H as <-. eauto.
Qed.

Lemma store_int_run p v w x :
  p <> NULL -> objs w !! p = Some (OInt x) ->
  store_int p v w =
    Ok tt (mkWorld (<[p:=OInt v]> (objs w)) (oom w) (trace w ++ [EvStoreI p v])).
Proof.
  intros Hp Ho. unfold store_int. erewrite bind_run by (by apply deref_run).
  cbv beta iota. erewrite bind_run by (apply assign_run; eauto). reflexivity.
Qed.

Lemma store_float_Ok p i v w u w' :
  store_float p i v w = Ok u w' ->
  p <> NULL /\
  exists l, objs w !! p = Some (OFloats l) /\ 0 <= i < Z.of_nat (length l) /\
    w' = mkWorld (<[p:=OFloats (<[Z.to_nat i:=v]> l)]> (objs w)) (oom w)
                 (trace w ++ [EvStoreF p i v]).
Proof.
  unfold store_float. intros H. inv_bind H. apply deref_Ok in Hrun as (-> & Hp & Ho).
  destruct a; try discriminate. inv_bind H.
  apply at_index_Ok in Hrun as (-> & Hi & Hl). inv_bind H.
  apply assign_Ok in Hrun as (-> & _ & _). injection H as <-.
  apply lookup_lt_Some in Hl. split; [done|]. eexists. split; [done|]. split; [lia|done].
Qed.

Lemma store_float_run p i v w l :
  p <> NULL -> objs w !! p = Some (OFloats l) -> 0 <= i < Z.of_nat (length l) ->
  store_float p i v w =
    Ok tt (mkWorld (<[p:=OFloats (<[Z.to_nat i:=v]> l)]> (objs w)) (oom w)
                   (trace w ++ [EvStoreF p i v])).
Proof.
  intros Hp Ho Hi. unfold store_float. erewrite bind_run by (by apply deref_run).
  cbv beta iota.
  destruct (lookup_lt_is_Some_2 l (Z.to_nat i)) as [x Hx]; [lia|].
  erewrite bind_run by (apply at_index_run; [lia|done]).
  erewrite bind_run by (apply assign_run; eauto). reflexivity.
Qed.

Lemma load_float_Ok p i w v w' :
  load_float p i w = Ok v w' ->
  p <> NULL /\
  exists l, objs w !! p = Some (OFloats l) /\ 0 <= i /\ l !! Z.to_nat i = Some v /\
    w' = mkWorld (objs w) (oom w) (trace w ++ [EvLoadF p i]).
Proof.
  unfold load_float. intros H. inv_bind H. apply deref_Ok in Hrun as (-> & Hp & Ho).
  destruct a; try discriminate. inv_bind H.
  apply at_index_Ok in Hrun as (-> & Hi & Hl). inv_bind H.
  injection Hrun as <-. injection H as <- <-. eauto 10.
Qed.

Lemma load_float_run p i w l v :
  p <> NULL -> objs w !! p = Some (OFloats l) -> 0 <= i -> l !! Z.to_nat i = Some v ->
  load_float p i w = Ok v (mkWorld (objs w) (oom w) (trace w ++ [EvLoadF p i])).
Proof.
  intros Hp Ho Hi Hv. unfold load_float. erewrite bind_run by (by apply deref_run).
  cbv beta iota. erewrite bind_run by (by apply at_index_run). reflexivity.
Qed.

Lemma packet_bytes_Ok k w bs w' :
  packet_bytes k w = Ok bs w' -> w' = w.
Proof.
  unfold packet_bytes. destruct (AVPacket.data k).
  - destruct (AVPacket.size k =? 0); [by intros [= <- <-]|done].
  - intros H. by apply load_bytes_Ok in H as [-> _].
  - destruct (_ && _); [by intros [= <- <-]|done].
Qed.

Lemma avcodec_send_packet_Ok ctx packet w r w' :
  avcodec_send_packet lib ctx packet w = Ok r w' ->
  exists c k payload c1,
    ctx <> NULL /\ objs w !! ctx = Some (OContext c) /\
    packet <> NULL /\ objs w !! packet = Some (OPacket k) /\
    packet_bytes k w = Ok payload w /\
    send_packet lib c payload = (c1, r) /\
    w' = mkWorld (<[ctx:=OContext c1]> (objs w)) (oom w)
                 (trace w ++ [EvSendPacket payload r]).
Proof.
  unfold avcodec_send_packet. intros H.
  inv_bind H. apply get_ctx_Ok in Hrun as (-> & Hc0 & Hc).
  inv_bind H. apply get_packet_Ok in Hrun as (-> & Hk0 & Hk).
  inv_bind H. pose proof (packet_bytes_Ok _ _ _ _ Hrun) as ->.
  destruct (send_packet lib a a1) as [c1 r1] eqn:Es.
  inv_bind H. apply assign_Ok in Hrun0 as (-> & _ & _).
  inv_bind H. injection Hrun0 as <-. injection H as <- <-.
  eauto 12.
Qed.

Lemma avcodec_receive_frame_Ok ctx frame w r w' :
  avcodec_receive_frame lib ctx frame w = Ok r w' ->
  exists c f0 c2 fr,
    ctx <> NULL /\ objs w !! ctx = Some (OContext c) /\
    frame <> NULL /\ objs w !! frame = Some (OFrame f0) /\
    receive_frame lib c = (c2, r, fr) /\
    w' = mkWorld (<[frame:=OFrame (if r <? 0 then AVFrame.blank else fr)]>
                    (<[ctx:=OContext c2]> (objs w)))
                 (oom w) (trace w ++ [EvReceiveFrame r fr]).
Proof.
  unfold avcodec_receive_frame, av_frame_unref. intros H.
  inv_bind H. apply get_ctx_Ok in Hrun as (-> & Hc0 & Hc).
  inv_bind H. apply upd_frame_Ok in Hrun as (f0 & Hf0 & Hf & ->).
  destruct (receive_frame lib a) as [[c2 r2] fr] eqn:Er.
  assert (frame <> ctx) by (eapply addr_neq; eauto; done).
  inv_bind H. apply assign_Ok in Hrun as (-> & _ & _).
  inv_bind H. inv_bind H. unfold emit, pure in *.
  destruct (r2 <? 0) eqn:Er2; [|apply assign_Ok in Hrun as (-> & _ & _)];
    simplify_eq; exists a, f0, c2, fr; repeat (split; [done|]);
    rewrite Er2; world_eq.
Qed.

End Codec_calls.

Tactic Notation "inv_bind" hyp(H) "as" ident(a) ident(w) ident(H1) :=
  apply bind_Ok in H as (a & w & H1 & H).

(** ** How a decode call returns *)

Section Decode_inversion.

Variable lib : codec_library.

Lemma decode_packet_inv state input_buf input_size output_buf
    out_frames out_sample_rate out_channels w r w' :
  decode_packet lib state input_buf input_size output_buf
    out_frames out_sample_rate out_channels w = Ok r w' ->
  decode_run lib state input_buf input_size output_buf
    out_frames out_sample_rate out_channels w r w'.
Proof.
  unfold decode_packet, av_packet_unref, av_frame_unref. intros H.
  inv_bind H as s w0 Hs. apply get_decoder_Ok in Hs as (-> & Hs0 & Hs).
  destruct s as [cp fp kp]; cbn [decoder_state.ctx decoder_state.frame
    decoder_state.packet] in *.
  inv_bind H as u1 w1 Hk. apply upd_packet_Ok in Hk as (k0 & Hk0 & Hk & ->).
  inv_bind H as u2 w2 Hk1. apply upd_packet_Ok in Hk1 as (k1 & _ & Hk1 & ->).
  inv_bind H as u3 w3 Hk2. apply upd_packet_Ok in Hk2 as (k2 & _ & Hk2 & ->).
  unfold set_objs in *; cbn [objs oom trace] in *.
  rewrite lookup_insert_eq in Hk1, Hk2. simplify_eq.
  unfold AVPacket.set_data, AVPacket.set_size, AVPacket.blank in *;
    cbn [AVPacket.data AVPacket.size] in *.
  rewrite !insert_insert_eq in H.
  inv_bind H as r1 w4 Hsend.
  apply avcodec_send_packet_Ok in Hsend
    as (c & k & payload & c1 & Hc0 & Hc & _ & Hk' & Hpay & Hsend & ->).
  cbn [objs oom trace] in *.
  rewrite lookup_insert_eq in Hk'. simplify_eq.
  assert (cp <> kp) as Hck.
  { intros ->. rewrite lookup_insert_eq in Hc. discriminate. }
  rewrite !lookup_insert_ne in Hc by done.
  unfold packet_bytes in Hpay; cbn [AVPacket.data AVPacket.size] in Hpay.
  apply load_bytes_Ok in Hpay as [_ Hpay].
  assert (payload_of w input_buf input_size = Some payload) as Hpay'.
  { revert Hpay. unfold payload_of; cbn [objs].
    destruct (input_size <=? 0); [done|]. destruct (input_buf =? NULL); [done|].
    destruct (decide (input_buf = kp)) as [->|Hne].
    - by rewrite lookup_insert_eq.
    - by rewrite !lookup_insert_ne by done. }
  clear Hpay.
  change {| objs := <[cp:=OContext c1]>
               (<[kp:=OPacket (AVPacket.mk (PktBorrowed input_buf) input_size)]>
                  (objs w));
            oom := oom w; trace := trace w ++ [EvSendPacket payload r1] |}
    with (sent_world w (decoder_state.mk cp fp kp) input_buf input_size c1 payload r1) in H.
  set (w1 := sent_world w (decoder_state.mk cp fp kp) input_buf input_size c1 payload r1) in *.
  destruct (Z.ltb_spec r1 0) as [Hneg|Hpos].
  { injection H as <- <-. eapply decode_send_failed; eauto. }
  inv_bind H as r2 w5 Hrecv.
  apply avcodec_receive_frame_Ok in Hrecv
    as (c' & f0 & c2 & fr & _ & Hc' & Hf0 & Hf & Hrecv & ->).
  assert (objs w1 !! cp = Some (OContext c1)) as Hc1
    by (unfold w1, sent_world; cbn; by rewrite lookup_insert_eq).
  rewrite Hc1 in Hc'. simplify_eq.
  assert (fp <> cp) as Hfc by (eapply addr_neq; eauto; done).
  assert (objs w !! fp = Some (OFrame f0)) as Hf'.
  { revert Hf. unfold w1, sent_world; cbn.
    rewrite lookup_insert_ne by done.
    destruct (decide (kp = fp)) as [->|Hne]; [by rewrite lookup_insert_eq|].
    by rewrite lookup_insert_ne by done. }
  change {| objs := <[fp:=OFrame (if r2 <? 0 then AVFrame.blank else fr)]>
                      (<[cp:=OContext c2]> (objs w1));
            oom := oom w1; trace := trace w1 ++ [EvReceiveFrame r2 fr] |}
    with (received_world w1 (decoder_state.mk cp fp kp) c2 r2 fr) in H.
  set (w2 := received_world w1 (decoder_state.mk cp fp kp) c2 r2 fr) in *.
  destruct (Z.ltb_spec r2 0) as [Hneg2|Hpos2].
  { injection H as <- <-. eapply decode_receive_failed; eauto. }
  inv_bind H as f w6 Hfr. apply get_frame_Ok in Hfr as (-> & _ & Hfr).
  inv_bind H as cx w7 Hc2. apply get_ctx_Ok in Hc2 as (-> & _ & Hc2).
  assert (f = fr) as ->.
  { revert Hfr. unfold w2, received_world; cbn. rewrite lookup_insert_eq.
    destruct (Z.ltb_spec r2 0); [lia|]. congruence. }
  assert (cx = c2) as ->.
  { revert Hc2. unfold w2, received_world; cbn.
    rewrite lookup_insert_ne by done. rewrite lookup_insert_eq. congruence. }
  inv_bind H as u4 w3 Hloop.
  inv_bind H as u5 w8 Hx1. apply store_int_Ok in Hx1 as (Hof & [x1 Hx1] & ->).
  inv_bind H as u6 w9 Hx2. apply store_int_Ok in Hx2 as (Hor & [x2 Hx2] & ->).
  inv_bind H as u7 w10 Hx3. apply store_int_Ok in Hx3 as (Hoc & [x3 Hx3] & ->).
  inv_bind H as u8 w11 Hun. apply upd_frame_Ok in Hun as (x & _ & _ & ->).
  injection H as <- <-. cbn [objs oom trace] in *. destruct u4.
  assert (forall X Y, X = Y ->
     decode_run lib state input_buf input_size output_buf out_frames
       out_sample_rate out_channels w 0 Y ->
     decode_run lib state input_buf input_size output_buf out_frames
       out_sample_rate out_channels w 0 X) as Hconv by (by intros ?? ->).
  eapply Hconv; [|eapply (decode_done _ _ _ _ _ _ _ _ _ (decoder_state.mk cp fp kp));
                  eauto].
  unfold returned_world, reported_rate, reported_channels.
  cbn [decoder_state.frame]. world_eq.
Qed.

End Decode_inversion.

(** ** Loops and 32-bit indices *)

Section Loops.

Lemma iter_from_ind (P : Z -> world -> Prop) (body : Z -> M unit) n i w w' :
  iter_from i n body w = Ok tt w' ->
  P i w ->
  (forall j w1 w2, i <= j < i + Z.of_nat n -> P j w1 -> body j w1 = Ok tt w2 -> P (j + 1) w2) ->
  P (i + Z.of_nat n) w'.
Proof.
  revert i w. induction n as [|n IH]; intros i w H HP Hstep.
  - injection H as <-. by replace (i + Z.of_nat 0) with i by lia.
  - cbn [iter_from] in H. inv_bind H as u w1 Hb. destruct u.
    replace (i + Z.of_nat (S n)) with ((i + 1) + Z.of_nat n) by lia.
    apply (IH (i + 1) w1); [done| |].
    + apply (Hstep i w w1); [lia|done|done].
    + intros j wa wb Hj. apply Hstep. lia.
Qed.

Lemma for_lt_ind (P : Z -> world -> Prop) (body : Z -> M unit) hi w w' :
  for_lt hi body w = Ok tt w' ->
  P 0 w ->
  (forall j w1 w2, 0 <= j < hi -> P j w1 -> body j w1 = Ok tt w2 -> P (j + 1) w2) ->
  P (Z.max 0 hi) w'.
Proof.
  unfold for_lt. intros H HP Hstep.
  replace (Z.max 0 hi) with (0 + Z.of_nat (Z.to_nat hi)) by lia.
  eapply iter_from_ind; [done|done|].
  intros j w1 w2 Hj. apply Hstep. lia.
Qed.

Lemma for_lt_nothing (body : Z -> M unit) hi w :
  hi <= 0 -> for_lt hi body w = Ok tt w.
Proof. intros H. unfold for_lt. by replace (Z.to_nat hi) with O by lia. Qed.

Lemma iter_from_run (body : Z -> M unit) (f : Z -> world -> world) n i w :
  (forall j w1, i <= j < i + Z.of_nat n -> body j w1 = Ok tt (f j w1)) ->
  exists w', iter_from i n body w = Ok tt w'.
Proof.
  revert i w. induction n as [|n IH]; intros i w Hb; [by eexists|].
  cbn [iter_from]. rewrite (bind_run _ _ _ _ _ (Hb i w ltac:(lia))).
  apply IH. intros j w1 Hj. apply Hb. lia.
Qed.

Lemma wrap32_small x : - 2 ^ 31 <= x < 2 ^ 31 -> wrap32 x = x.
Proof. intros H. unfold wrap32. rewrite Z.mod_small; lia. Qed.

Lemma wrap32_idemp_add a b : wrap32 (wrap32 a + b) = wrap32 (a + b).
Proof.
  unfold wrap32.
  replace ((a + 2 ^ 31) mod 2 ^ 32 - 2 ^ 31 + b + 2 ^ 31)
    with ((a + 2 ^ 31) mod 2 ^ 32 + b) by lia.
  rewrite Zplus_mod_idemp_l. f_equal. f_equal. lia.
Qed.

Lemma wrap32_le x : 0 <= x -> wrap32 x <= x.
Proof.
  intros H. unfold wrap32.
  pose proof (Z.mod_le (x + 2 ^ 31) (2 ^ 32) ltac:(lia) ltac:(lia)). lia.
Qed.

Lemma index32_le i channels ch :
  0 <= i -> 0 <= channels -> 0 <= ch -> index32 i channels ch <= i * channels + ch.
Proof.
  intros. unfold index32. rewrite wrap32_idemp_add. apply wrap32_le. nia.
Qed.

Lemma index32_exact i channels ch :
  0 <= i -> 0 <= channels -> 0 <= ch -> i * channels + ch < 2 ^ 31 ->
  index32 i channels ch = i * channels + ch.
Proof.
  intros. unfold index32. rewrite wrap32_idemp_add. apply wrap32_small. nia.
Qed.

(** If every index of an [F] by [C] block is non-negative on the machine,
    the block has at most [2^31] elements: element number [2^31] would wrap
    to a negative index. *)
Lemma index32_covering F C :
  0 < F -> 0 < C ->
  (forall i ch, 0 <= i < F -> 0 <= ch < C -> 0 <= index32 i C ch) ->
  F * C <= 2 ^ 31.
Proof.
  intros HF HC Hall.
  destruct (Z_le_gt_dec (F * C) (2 ^ 31)) as [|Hbig]; [done|exfalso].
  pose proof (Z.div_mod (2 ^ 31) C ltac:(lia)) as Hdm.
  pose proof (Z.mod_pos_bound (2 ^ 31) C ltac:(lia)) as Hm.
  assert (0 <= 2 ^ 31 / C) as Hq by (apply Z.div_pos; lia).
  assert (2 ^ 31 / C < F) as HqF by (apply Z.div_lt_upper_bound; lia).
  specialize (Hall (2 ^ 31 / C) (2 ^ 31 mod C) ltac:(lia) ltac:(lia)).
  unfold index32 in Hall. rewrite wrap32_idemp_add in Hall.
  replace (2 ^ 31 / C * C + 2 ^ 31 mod C) with (2 ^ 31) in Hall by lia.
  revert Hall. unfold wrap32. vm_compute. done.
Qed.

End Loops.

(** ** The copy loop of the decoder *)

Section Interleave.

Variables (fp out : ptr) (F C : Z) (fr : AVFrame.t) (w : world) (l0 : list f32).

Hypothesis Hfp : objs w !! fp = Some (OFrame fr).
Hypothesis Hout : objs w !! out = Some (OFloats l0).

Lemma interleave_inv_start : interleave_inv fp out F C fr w l0 0 0 w.
Proof.
  unfold interleave_inv, processed. repeat split; try done.
  - exists []. by rewrite app_nil_r.
  - exists l0. repeat split; try done; intros; lia.
Qed.

Lemma interleave_body_step i ch w1 w2 :
  0 <= i < F -> 0 <= ch < C ->
  interleave_inv fp out F C fr w l0 i ch w1 ->
  interleave_body fp out C i ch w1 = Ok tt w2 ->
  interleave_inv fp out F C fr w l0 i (ch + 1) w2.
Proof.
  intros Hi Hch (Hoom & Hf & Hoth & (stores & Htr & Hst) & (l' & Hl' & Hlen & Htail & Hidx & Hval)) H.
  unfold interleave_body in H.
  inv_bind H as f wa Hg. apply get_frame_Ok in Hg as (-> & _ & Hg).
  rewrite Hf in Hg. injection Hg as <-.
  inv_bind H as plane wb Hp. apply at_index_Ok in Hp as (-> & _ & Hp).
  inv_bind H as v wc Hv. apply at_index_Ok in Hv as (-> & _ & Hv).
  apply store_float_Ok in H as (Ho & l & Hl & Hj & ->).
  rewrite Hl' in Hl. injection Hl as <-.
  fold (index32 i C ch) in *.
  assert (fp <> out) as Hne by (eapply addr_neq; eauto; done).
  assert (index32 i C ch <= i * C + ch) as Hle by (apply index32_le; lia).
  assert (i * C + ch < F * C) as Hlt by nia.
  unfold interleave_inv; cbn [objs oom trace].
  split; [done|]. split; [by rewrite lookup_insert_ne|].
  split; [intros p Hp'; by rewrite lookup_insert_ne by done; apply Hoth|].
  split.
  { exists (stores ++ [EvStoreF out (index32 i C ch) v]).
    split; [by rewrite Htr, app_assoc|].
    apply Forall_app. split; [done|]. constructor; [|done].
    eexists _, _. split; [done|]. lia. }
  exists (<[Z.to_nat (index32 i C ch):=v]> l').
  split; [by rewrite lookup_insert_eq|].
  split; [by rewrite length_insert|].
  split.
  { intros j Hj'. rewrite list_lookup_insert_ne by lia. by apply Htail. }
  split.
  { intros i' ch' (Hi' & Hch' & Hord).
    destruct (decide (i' = i /\ ch' = ch)) as [[-> ->]|Hnew]; [lia|].
    apply Hidx. unfold processed. repeat split; try lia. }
  intros Hsmall i' ch' (Hi' & Hch' & Hord).
  assert (index32 i C ch = i * C + ch) as Hex by (apply index32_exact; lia).
  rewrite Hex in *.
  destruct (decide (i' = i /\ ch' = ch)) as [[-> ->]|Hnew].
  - exists v. split.
    + unfold sample. destruct (Z.ltb_spec ch 0); [lia|].
      destruct (Z.ltb_spec i 0); [lia|]. cbn. by rewrite Hp.
    + apply list_lookup_insert_eq. lia.
  - destruct (Hval Hsmall i' ch') as (v' & Hs' & Hl'').
    { unfold processed. repeat split; try lia. }
    exists v'. split; [done|].
    rewrite list_lookup_insert_ne; [done|]. nia.
Qed.

Lemma interleave_row i w1 w2 :
  0 <= i < F ->
  interleave_inv fp out F C fr w l0 i 0 w1 ->
  for_lt C (interleave_body fp out C i) w1 = Ok tt w2 ->
  interleave_inv fp out F C fr w l0 (i + 1) 0 w2.
Proof.
  intros Hi Hinv H.
  pose proof (for_lt_ind (fun ch w' => interleave_inv fp out F C fr w l0 i ch w')
                _ _ _ _ H Hinv) as Hend.
  cbv beta in Hend.
  assert (interleave_inv fp out F C fr w l0 i (Z.max 0 C) w2) as Hrow.
  { apply Hend. intros ch wa wb Hch. by apply interleave_body_step. }
  clear Hend H.
  destruct Hrow as (Hoom & Hf & Hoth & Hst & (l' & Hl' & Hlen & Htail & Hidx & Hval)).
  unfold interleave_inv. repeat (split; [done|]).
  exists l'. repeat (split; [done|]).
  assert (forall i' ch', processed C (i + 1) 0 i' ch' -> processed C i (Z.max 0 C) i' ch')
    as Hpr by (unfold processed; intros; lia).
  split; [intros; apply Hidx; auto|]. intros Hs i' ch' Hp. apply Hval; auto.
Qed.

Lemma interleave_loop_inv w3 :
  interleave_loop fp out F C w = Ok tt w3 ->
  interleave_inv fp out F C fr w l0 (Z.max 0 F) 0 w3.
Proof.
  intros H. unfold interleave_loop in H.
  apply (for_lt_ind (fun i w' => interleave_inv fp out F C fr w l0 i 0 w') _ _ _ _ H).
  - apply interleave_inv_start.
  - intros i w1 w2 Hi Hinv Hb. by eapply interleave_row.
Qed.

End Interleave.

Lemma interleave_loop_summary fp out F C fr w w3 :
  objs w !! fp = Some (OFrame fr) ->
  interleave_loop fp out F C w = Ok tt w3 ->
  ((F <= 0 \/ C <= 0) /\ w3 = w) \/
  (0 < F /\ 0 < C /\
   exists l0, objs w !! out = Some (OFloats l0) /\
     F * C <= Z.of_nat (length l0) /\ F * C <= 2 ^ 31 /\
     interleave_inv fp out F C fr w l0 F 0 w3).
Proof.
  intros Hfp H.
  destruct (Z_le_gt_dec F 0) as [HF|HF].
  { left. split; [auto|]. unfold interleave_loop in H.
    rewrite for_lt_nothing in H by done. by injection H as <-. }
  destruct (Z_le_gt_dec C 0) as [HC|HC].
  { left. split; [auto|]. unfold interleave_loop in H.
    pose proof (for_lt_ind (fun _ w' => w' = w) _ _ _ _ H eq_refl) as Hend.
    apply Hend. intros j w1 w2 _ -> Hb.
    rewrite for_lt_nothing in Hb by done. by injection Hb as <-. }
  right. split; [lia|]. split; [lia|].
  assert (exists l0, objs w !! out = Some (OFloats l0)) as [l0 Hout].
  { pose proof H as H'. unfold interleave_loop, for_lt in H'.
    destruct (Z.to_nat F) as [|n] eqn:En; [lia|]. cbn [iter_from] in H'.
    inv_bind H' as u w1 Hrow. clear H'. unfold for_lt in Hrow.
    destruct (Z.to_nat C) as [|m] eqn:Em; [lia|]. cbn [iter_from] in Hrow.
    inv_bind Hrow as u' w2 Hb. clear Hrow.
    inv_bind Hb as f wa Hg. apply get_frame_Ok in Hg as (-> & _ & _).
    inv_bind Hb as plane wb Hp. apply at_index_Ok in Hp as (-> & _ & _).
    inv_bind Hb as v wc Hv. apply at_index_Ok in Hv as (-> & _ & _).
    apply store_float_Ok in Hb as (_ & l & Hl & _). eauto. }
  exists l0. split; [done|].
  pose proof (interleave_loop_inv fp out F C fr w l0 Hfp Hout w3 H) as Hinv.
  replace (Z.max 0 F) with F in Hinv by lia.
  pose proof Hinv as (_ & _ & _ & _ & (l' & _ & _ & _ & Hidx & _)).
  assert (forall i ch, 0 <= i < F -> 0 <= ch < C ->
            0 <= index32 i C ch < Z.of_nat (length l0)) as Hall.
  { intros i ch Hi Hch. apply Hidx. unfold processed. lia. }
  assert (F * C <= 2 ^ 31) as Hsmall.
  { apply index32_covering; [lia|lia|]. intros i ch Hi Hch. by apply Hall. }
  split; [|done].
  specialize (Hall (F - 1) (C - 1) ltac:(lia) ltac:(lia)).
  rewrite index32_exact in Hall by nia. nia.
Qed.

(** ** The decoder's output *)

Section Decode_output.

Variable lib : codec_library.

Variables (state input_buf : ptr) (input_size : Z).
Variables (output_buf out_frames out_sample_rate out_channels : ptr).

(** A successful call, taken apart: the codec's two answers, the world
    [w3] the copy loop leaves, and the three reported values. *)
Lemma decode_success w w' :
  decode_packet lib state input_buf input_size output_buf
    out_frames out_sample_rate out_channels w = Ok 0 w' ->
  exists s c k0 f0 payload c1 r1 c2 r2 fr w3 x1 x2 x3,
    state <> NULL /\
    objs w !! state = Some (ODecoder s) /\
    objs w !! decoder_state.ctx s = Some (OContext c) /\
    objs w !! decoder_state.packet s = Some (OPacket k0) /\
    objs w !! decoder_state.frame s = Some (OFrame f0) /\
    payload_of w input_buf input_size = Some payload /\
    send_packet lib c payload = (c1, r1) /\ 0 <= r1 /\
    receive_frame lib c1 = (c2, r2, fr) /\ 0 <= r2 /\
    interleave_loop (decoder_state.frame s) output_buf (AVFrame.nb_samples fr)
      (reported_channels c2 fr)
      (received_world (sent_world w s input_buf input_size c1 payload r1) s c2 r2 fr)
      = Ok tt w3 /\
    objs w3 !! out_frames = Some (OInt x1) /\
    (<[out_frames:=OInt (AVFrame.nb_samples fr)]> (objs w3)) !! out_sample_rate
      = Some (OInt x2) /\
    (<[out_sample_rate:=OInt (reported_rate c2 fr)]>
       (<[out_frames:=OInt (AVFrame.nb_samples fr)]> (objs w3))) !! out_channels
      = Some (OInt x3) /\
    w' = returned_world w3 s out_frames out_sample_rate out_channels
           (AVFrame.nb_samples fr) (reported_rate c2 fr) (reported_channels c2 fr).
Proof.
  intros H. apply decode_packet_inv in H.
  inversion H; subst; try lia.
  repeat eexists; eauto.
Qed.

Lemma received_world_frame w s input_buf' input_size' c1 payload r1 c2 r2 fr :
  0 <= r2 ->
  objs (received_world (sent_world w s input_buf' input_size' c1 payload r1) s c2 r2 fr)
    !! decoder_state.frame s = Some (OFrame fr).
Proof.
  intros Hr. unfold received_world. cbn [objs]. rewrite lookup_insert_eq.
  by destruct (Z.ltb_spec r2 0); [lia|].
Qed.

(** The session objects are the only ones that submission and reception
    change. *)
Lemma received_world_other w s c1 payload r1 c2 r2 fr p :
  p <> decoder_state.ctx s -> p <> decoder_state.packet s ->
  p <> decoder_state.frame s ->
  objs (received_world (sent_world w s input_buf input_size c1 payload r1) s c2 r2 fr) !! p
    = objs w !! p.
Proof.
  intros. unfold received_world, sent_world. cbn [objs].
  by rewrite !lookup_insert_ne by done.
Qed.

Lemma sent_world_other w s c1 payload r1 p :
  p <> decoder_state.ctx s -> p <> decoder_state.packet s ->
  objs (sent_world w s input_buf input_size c1 payload r1) !! p = objs w !! p.
Proof.
  intros. unfold sent_world. cbn [objs]. by rewrite !lookup_insert_ne by done.
Qed.

Lemma caller_owned_neq (m : gmap Z obj) p q o o' :
  m !! p = Some o -> caller_owned o ->
  m !! q = Some o' -> ~ caller_owned o' -> p <> q.
Proof. intros Hp Ho Hq Ho' ->. congruence. Qed.

(** C1.  When [decode_packet] returns 0, it has received a frame [fr] from
    the codec and reported a frame count [F] and a channel count [C] through
    its out-parameters; the caller's output buffer then holds, at index
    [i * C + ch], sample [i] of the plane of channel [ch] of [fr], for every
    [0 <= i < F] and [0 <= ch < C]. *)
Theorem decode_packet_interleaves w w' :
  decode_packet lib state input_buf input_size output_buf
    out_frames out_sample_rate out_channels w = Ok 0 w' ->
  exists payload r1 r2 fr stores F SR C,
    trace w' = trace w ++ [EvSendPacket payload r1; EvReceiveFrame r2 fr] ++ stores
                 ++ [EvStoreI out_frames F; EvStoreI out_sample_rate SR;
                     EvStoreI out_channels C] /\
    0 <= r2 /\
    forall i ch, 0 <= i < F -> 0 <= ch < C ->
      exists v, sample fr ch i = Some v /\
                float_at w' output_buf (i * C + ch) = Some v.
Proof.
  intros H. apply decode_success in H
    as (s & c & k0 & f0 & payload & c1 & r1 & c2 & r2 & fr & w3 & x1 & x2 & x3
        & Hs0 & Hs & Hc & Hk & Hf & Hpay & Hsend & Hr1 & Hrecv & Hr2 & Hloop
        & Hx1 & Hx2 & Hx3 & ->).
  set (w2 := received_world (sent_world w s input_buf input_size c1 payload r1) s c2 r2 fr) in *.
  assert (objs w2 !! decoder_state.frame s = Some (OFrame fr)) as Hfr
    by (by apply received_world_frame).
  pose proof (interleave_loop_summary _ _ _ _ _ _ _ Hfr Hloop) as Hsum.
  set (F := AVFrame.nb_samples fr) in *. set (C := reported_channels c2 fr) in *.
  assert (trace w2 = trace w ++ [EvSendPacket payload r1; EvReceiveFrame r2 fr]) as Htr2.
  { unfold w2, received_world, sent_world. cbn [trace]. by rewrite <- app_assoc. }
  destruct Hsum as [[Hdeg ->]|(HF & HC & l0 & Hout & Hlen & Hsmall & Hinv)].
  - exists payload, r1, r2, fr, [], F, (reported_rate c2 fr), C.
    split; [|split; [done|intros; lia]].
    unfold returned_world. cbn [trace]. rewrite Htr2. by rewrite <- !app_assoc.
  - destruct Hinv as (_ & Hfr3 & _ & (stores & Htr3 & _) & (l' & Hl' & _ & _ & _ & Hval)).
    exists payload, r1, r2, fr, stores, F, (reported_rate c2 fr), C.
    split; [|split; [done|]].
    { unfold returned_world. cbn [trace]. rewrite Htr3, Htr2. by rewrite <- !app_assoc. }
    intros i ch Hi Hch.
    destruct (Hval Hsmall i ch) as (v & Hv & Hlv); [unfold processed; lia|].
    exists v. split; [done|].
    assert (output_buf <> out_frames) by (eapply addr_neq; eauto; done).
    assert (output_buf <> out_sample_rate).
    { intros <-. rewrite lookup_insert_ne in Hx2 by done. congruence. }
    assert (output_buf <> out_channels).
    { intros <-. rewrite !lookup_insert_ne in Hx3 by done. congruence. }
    assert (output_buf <> decoder_state.frame s) by (eapply addr_neq; eauto; done).
    unfold float_at, returned_world. cbn [objs].
    rewrite !lookup_insert_ne by done. rewrite Hl'.
    destruct (Z.ltb_spec (i * C + ch) 0); [nia|done].
Qed.

(** The out-parameters are [int] cells, so none of them is the float buffer
    the loop wrote to, nor the frame holder. *)
Lemma out_params_apart (m : gmap Z obj) p o x1 x2 x3 F SR :
  m !! p = Some o -> (forall x, o <> OInt x) ->
  m !! out_frames = Some (OInt x1) ->
  (<[out_frames:=OInt F]> m) !! out_sample_rate = Some (OInt x2) ->
  (<[out_sample_rate:=OInt SR]> (<[out_frames:=OInt F]> m)) !! out_channels
    = Some (OInt x3) ->
  p <> out_frames /\ p <> out_sample_rate /\ p <> out_channels.
Proof.
  intros Hp Ho H1 H2 H3.
  assert (p <> out_frames) by (intros ->; rewrite Hp in H1; injection H1; apply Ho).
  assert (p <> out_sample_rate).
  { intros <-. rewrite lookup_insert_ne in H2 by done.
    rewrite Hp in H2; injection H2; apply Ho. }
  repeat split; try done.
  intros <-. rewrite !lookup_insert_ne in H3 by done.
  rewrite Hp in H3; injection H3; apply Ho.
Qed.

(** When [decode_packet] returns 0 with frame count [F] and channel
    count [C], every store to a float goes to the caller's output buffer at
    an index in [0, F * C); the buffer keeps its length and its elements from
    index [F * C] on; every other buffer of the caller, apart from the three
    out-parameters, is as it was. *)
Lemma decode_packet_confined w w' :
  decode_packet lib state input_buf input_size output_buf
    out_frames out_sample_rate out_channels w = Ok 0 w' ->
  exists payload r1 r2 fr stores F SR C,
    trace w' = trace w ++ [EvSendPacket payload r1; EvReceiveFrame r2 fr] ++ stores
                 ++ [EvStoreI out_frames F; EvStoreI out_sample_rate SR;
                     EvStoreI out_channels C] /\
    Forall (store_within output_buf (F * C)) stores /\
    (stores <> [] ->
     exists l, objs w !! output_buf = Some (OFloats l) /\ F * C <= Z.of_nat (length l)) /\
    (forall l, objs w !! output_buf = Some (OFloats l) ->
       exists l', objs w' !! output_buf = Some (OFloats l') /\
         length l' = length l /\
         forall j : nat, F * C <= Z.of_nat j -> l' !! j = l !! j) /\
    (forall p o, objs w !! p = Some o -> caller_owned o ->
       p <> output_buf -> p <> out_frames -> p <> out_sample_rate ->
       p <> out_channels -> objs w' !! p = Some o).
Proof.
  intros H. apply decode_success in H
    as (s & c & k0 & f0 & payload & c1 & r1 & c2 & r2 & fr & w3 & x1 & x2 & x3
        & Hs0 & Hs & Hc & Hk & Hf & Hpay & Hsend & Hr1 & Hrecv & Hr2 & Hloop
        & Hx1 & Hx2 & Hx3 & ->).
  set (w2 := received_world (sent_world w s input_buf input_size c1 payload r1) s c2 r2 fr) in *.
  assert (objs w2 !! decoder_state.frame s = Some (OFrame fr)) as Hfr
    by (by apply received_world_frame).
  pose proof (interleave_loop_summary _ _ _ _ _ _ _ Hfr Hloop) as Hsum.
  set (F := AVFrame.nb_samples fr) in *. set (C := reported_channels c2 fr) in *.
  assert (trace w2 = trace w ++ [EvSendPacket payload r1; EvReceiveFrame r2 fr]) as Htr2.
  { unfold w2, received_world, sent_world. cbn [trace]. by rewrite <- app_assoc. }
  assert (forall p o, objs w !! p = Some o -> caller_owned o -> objs w2 !! p = Some o)
    as Hkeep2.
  { intros p o Hp Ho. unfold w2. rewrite received_world_other; [done| | |];
      eapply caller_owned_neq; eauto; cbn; tauto. }
  assert (exists stores,
            trace w3 = trace w2 ++ stores /\
            Forall (store_within output_buf (F * C)) stores /\
            (stores <> [] ->
             exists l, objs w2 !! output_buf = Some (OFloats l) /\
                       F * C <= Z.of_nat (length l)) /\
            (forall p, p <> output_buf -> objs w3 !! p = objs w2 !! p) /\
            (forall l, objs w2 !! output_buf = Some (OFloats l) ->
               exists l', objs w3 !! output_buf = Some (OFloats l') /\
                 length l' = length l /\
                 forall j : nat, F * C <= Z.of_nat j -> l' !! j = l !! j))
    as (stores & Htr3 & Hst & Hne & Hoth & Hbuf).
  { destruct Hsum as [[Hdeg ->]|(HF & HC & l0 & Hout & Hlen & Hsmall & Hinv)].
    - exists []. rewrite app_nil_r. repeat split; try done. eauto.
    - destruct Hinv as (_ & _ & Hoth & (stores & Htr3 & Hst)
                        & (l' & Hl' & Hlen' & Htail & _ & _)).
      exists stores. repeat split; try done; [eauto|].
      intros l Hl. rewrite Hout in Hl. injection Hl as <-. eauto. }
  exists payload, r1, r2, fr, stores, F, (reported_rate c2 fr), C.
  split.
  { unfold returned_world. cbn [trace]. rewrite Htr3, Htr2. by rewrite <- !app_assoc. }
  split; [done|]. split.
  { intros Hs'. destruct (Hne Hs') as (l & Hl & Hlen). exists l. split; [|done].
    destruct (objs w !! output_buf) as [o|] eqn:Ew.
    - destruct (decide (output_buf = decoder_state.ctx s)) as [E|N1];
        [rewrite E in Ew, Hl; unfold w2, received_world, sent_world in Hl;
         cbn [objs] in Hl; assert (decoder_state.frame s <> decoder_state.ctx s)
           by (eapply addr_neq; eauto; done);
         rewrite lookup_insert_ne, lookup_insert_eq in Hl by done; discriminate|].
      destruct (decide (output_buf = decoder_state.frame s)) as [E|N2];
        [rewrite E in Hl; congruence|].
      destruct (decide (output_buf = decoder_state.packet s)) as [E|N3];
        [rewrite E in Hl; unfold w2, received_world, sent_world in Hl;
         cbn [objs] in Hl;
         rewrite E in N1, N2;
         rewrite !lookup_insert_ne, lookup_insert_eq in Hl by done; discriminate|].
      unfold w2 in Hl. rewrite received_world_other in Hl by done. congruence.
    - exfalso. unfold w2, received_world, sent_world in Hl. cbn [objs] in Hl.
      destruct (decide (decoder_state.frame s = output_buf)) as [E|N2];
        [rewrite <- E in Ew; congruence|].
      destruct (decide (decoder_state.ctx s = output_buf)) as [E|N1];
        [rewrite <- E in Ew; congruence|].
      destruct (decide (decoder_state.packet s = output_buf)) as [E|N3];
        [rewrite <- E in Ew; congruence|].
      rewrite !lookup_insert_ne in Hl by done. congruence. }
  split.
  - intros l Hl. pose proof (Hkeep2 _ _ Hl I) as Hl2.
    destruct (Hbuf l Hl2) as (l' & Hl' & Hlen' & Htail).
    exists l'. split; [|done].
    destruct (out_params_apart (objs w3) output_buf _ _ _ _ _ _ Hl'
                ltac:(done) Hx1 Hx2 Hx3) as (? & ? & ?).
    assert (output_buf <> decoder_state.frame s).
    { intros E. rewrite E in Hl. congruence. }
    unfold returned_world. cbn [objs]. by rewrite !lookup_insert_ne by done.
  - intros p o Hp Ho N1 N2 N3 N4.
    assert (p <> decoder_state.frame s)
      by (eapply caller_owned_neq; eauto; cbn; tauto).
    unfold returned_world. cbn [objs]. rewrite !lookup_insert_ne by done.
    rewrite Hoth by done. by apply Hkeep2.
Qed.

(** The codec context a successful call leaves is the one the codec returned
    from [receive_frame]; the values reported for a frame without sample rate
    or channel count are read from it. *)
Lemma decode_packet_reports w w' :
  decode_packet lib state input_buf input_size output_buf
    out_frames out_sample_rate out_channels w = Ok 0 w' ->
  exists s c payload c1 r1 c2 r2 fr stores,
    objs w !! state = Some (ODecoder s) /\
    objs w !! decoder_state.ctx s = Some (OContext c) /\
    payload_of w input_buf input_size = Some payload /\
    send_packet lib c payload = (c1, r1) /\
    receive_frame lib c1 = (c2, r2, fr) /\
    objs w' !! decoder_state.ctx s = Some (OContext c2) /\
    trace w' = trace w ++ [EvSendPacket payload r1; EvReceiveFrame r2 fr] ++ stores
                 ++ [EvStoreI out_frames (AVFrame.nb_samples fr);
                     EvStoreI out_sample_rate (reported_rate c2 fr);
                     EvStoreI out_channels (reported_channels c2 fr)].
Proof.
  intros H. apply decode_success in H
    as (s & c & k0 & f0 & payload & c1 & r1 & c2 & r2 & fr & w3 & x1 & x2 & x3
        & Hs0 & Hs & Hc & Hk & Hf & Hpay & Hsend & Hr1 & Hrecv & Hr2 & Hloop
        & Hx1 & Hx2 & Hx3 & ->).
  set (w2 := received_world (sent_world w s input_buf input_size c1 payload r1) s c2 r2 fr) in *.
  assert (objs w2 !! decoder_state.frame s = Some (OFrame fr)) as Hfr
    by (by apply received_world_frame).
  assert (decoder_state.frame s <> decoder_state.ctx s) as Hfc
    by (eapply (addr_neq (objs w)); [exact Hf|exact Hc|done]).
  assert (objs w2 !! decoder_state.ctx s = Some (OContext c2)) as Hc2.
  { unfold w2, received_world. cbn [objs].
    rewrite lookup_insert_ne by done. by rewrite lookup_insert_eq. }
  pose proof (interleave_loop_summary _ _ _ _ _ _ _ Hfr Hloop) as Hsum.
  assert (trace w2 = trace w ++ [EvSendPacket payload r1; EvReceiveFrame r2 fr]) as Htr2.
  { unfold w2, received_world, sent_world. cbn [trace]. by rewrite <- app_assoc. }
  assert (exists stores, trace w3 = trace w2 ++ stores /\
                         objs w3 !! decoder_state.ctx s = Some (OContext c2))
    as (stores & Htr3 & Hc3).
  { destruct Hsum as [[Hdeg ->]|(HF & HC & l0 & Hout & Hlen & Hsmall & Hinv)].
    - exists []. by rewrite app_nil_r.
    - destruct Hinv as (_ & _ & Hoth & (stores & Htr3 & _) & _).
      exists stores. split; [done|]. rewrite Hoth; [done|].
      intros E. rewrite E in Hc2. congruence. }
  exists s, c, payload, c1, r1, c2, r2, fr, stores.
  repeat (split; [done|]). split.
  - destruct (out_params_apart (objs w3) _ _ _ _ _ _ _ Hc3
                ltac:(done) Hx1 Hx2 Hx3) as (? & ? & ?).
    unfold returned_world. cbn [objs]. by rewrite !lookup_insert_ne by done.
  - unfold returned_world. cbn [trace]. rewrite Htr3, Htr2. by rewrite <- !app_assoc.
Qed.

End Decode_output.

(** ** The failure paths of the decoder *)

Section Decode_failure.

Variable lib : codec_library.

Lemma avcodec_send_packet_run ctx packet w c k payload c1 r :
  ctx <> NULL -> objs w !! ctx = Some (OContext c) ->
  packet <> NULL -> objs w !! packet = Some (OPacket k) ->
  packet_bytes k w = Ok payload w ->
  send_packet lib c payload = (c1, r) ->
  avcodec_send_packet lib ctx packet w =
    Ok r (mkWorld (<[ctx:=OContext c1]> (objs w)) (oom w)
                  (trace w ++ [EvSendPacket payload r])).
Proof.
  intros Hc0 Hc Hk0 Hk Hpay Hsend. unfold avcodec_send_packet.
  erewrite bind_run by (by apply get_ctx_run).
  erewrite bind_run by (by apply get_packet_run).
  erewrite bind_run by done. cbv beta. rewrite Hsend.
  erewrite bind_run by (apply assign_run; eauto). reflexivity.
Qed.

Lemma avcodec_receive_frame_run ctx frame w c f0 c2 r fr :
  ctx <> NULL -> objs w !! ctx = Some (OContext c) ->
  frame <> NULL -> objs w !! frame = Some (OFrame f0) ->
  receive_frame lib c = (c2, r, fr) ->
  avcodec_receive_frame lib ctx frame w =
    Ok r (mkWorld (<[frame:=OFrame (if r <? 0 then AVFrame.blank else fr)]>
                     (<[ctx:=OContext c2]> (objs w)))
                  (oom w) (trace w ++ [EvReceiveFrame r fr])).
Proof.
  intros Hc0 Hc Hf0 Hf Hrecv. unfold avcodec_receive_frame, av_frame_unref.
  assert (frame <> ctx) by (eapply addr_neq; eauto; done).
  erewrite bind_run by (by apply get_ctx_run).
  erewrite bind_run by (by eapply upd_frame_run).
  cbv beta. rewrite Hrecv.
  erewrite bind_run by (apply assign_run; [done|]; unfold set_objs; cbn [objs];
                         rewrite lookup_insert_ne by done; eauto).
  destruct (r <? 0) eqn:Er.
  - erewrite bind_run by reflexivity. cbv beta.
    erewrite bind_run by reflexivity. unfold pure. f_equal. world_eq.
  - erewrite bind_run by (apply assign_run; [done|]; unfold set_objs; cbn [objs];
                           rewrite lookup_insert_ne, lookup_insert_eq by done; eauto).
    erewrite bind_run by reflexivity. unfold pure. f_equal. world_eq.
Qed.

(** The first half of a decode call: the packet is reset, the caller's
    buffer is attached, and the packet is submitted. *)
Lemma decode_packet_submits state input_buf input_size output_buf
    out_frames out_sample_rate out_channels w s c k0 payload c1 r1 :
  state <> NULL ->
  objs w !! state = Some (ODecoder s) ->
  decoder_state.ctx s <> NULL ->
  objs w !! decoder_state.ctx s = Some (OContext c) ->
  decoder_state.packet s <> NULL ->
  objs w !! decoder_state.packet s = Some (OPacket k0) ->
  payload_of w input_buf input_size = Some payload ->
  send_packet lib c payload = (c1, r1) ->
  decode_packet lib state input_buf input_size output_buf
    out_frames out_sample_rate out_channels w =
  (if r1 <? 0 then pure r1
   else
     ret <- avcodec_receive_frame lib (decoder_state.ctx s) (decoder_state.frame s) ;;
     if ret <? 0 then pure ret
     else
       f <- get_frame (decoder_state.frame s) ;;
       c <- get_ctx (decoder_state.ctx s) ;;
       interleave_loop (decoder_state.frame s) output_buf (AVFrame.nb_samples f)
         (reported_channels c f) ;;;
       store_int out_frames (AVFrame.nb_samples f) ;;;
       store_int out_sample_rate (reported_rate c f) ;;;
       store_int out_channels (reported_channels c f) ;;;
       av_frame_unref (decoder_state.frame s) ;;;
       pure 0)
    (sent_world w s input_buf input_size c1 payload r1).
Proof.
  intros Hs0 Hs Hc0 Hc Hk0 Hk Hpay Hsend.
  assert (decoder_state.ctx s <> decoder_state.packet s) as Hck
    by (eapply addr_neq; eauto; done).
  unfold decode_packet, av_packet_unref.
  erewrite bind_run by (by apply get_decoder_run).
  erewrite bind_run by (by eapply upd_packet_run).
  erewrite bind_run by (eapply upd_packet_run; [done|]; unfold set_objs; cbn [objs];
                         by rewrite lookup_insert_eq).
  erewrite bind_run by (eapply upd_packet_run; [done|]; unfold set_objs; cbn [objs];
                         by rewrite lookup_insert_eq).
  unfold set_objs, AVPacket.set_data, AVPacket.set_size, AVPacket.blank;
    cbn [objs oom trace AVPacket.data AVPacket.size].
  rewrite !insert_insert_eq.
  erewrite bind_run; cycle 1.
  { eapply avcodec_send_packet_run; [done| |done| | |exact Hsend]; cbn [objs].
    - by rewrite lookup_insert_ne.
    - by rewrite lookup_insert_eq.
    - unfold packet_bytes. cbn [AVPacket.data AVPacket.size].
      apply load_bytes_run. eapply payload_of_agree; [|exact Hpay].
      intros l Hl. cbn [objs]. rewrite lookup_insert_ne; [done|].
      intros E. rewrite <- E in Hl. congruence. }
  reflexivity.
Qed.

Lemma events_since_app w w' evs :
  trace w' = trace w ++ evs -> events_since w w' = evs.
Proof. intros H. unfold events_since. rewrite H. apply drop_app_length. Qed.

(** C4.  On a live session with a readable input, let [r1] be the codec's
    answer to the submission and [r2] its answer to the request for a frame.
    If [r1 < 0] the call returns [r1]; if [r1 >= 0] and [r2 < 0] it returns
    [r2]; a call that returns, returns 0 exactly when both answers are
    non-negative; and a call that returns a non-zero code has stored nothing:
    no store event, and every buffer of the caller, the output buffer and the
    three out-parameters among them, is as it was. *)
Theorem decode_packet_error_paths state input_buf input_size output_buf
    out_frames out_sample_rate out_channels w s c payload c1 r1 c2 r2 fr :
  decoder_ready w state s c ->
  payload_of w input_buf input_size = Some payload ->
  send_packet lib c payload = (c1, r1) ->
  receive_frame lib c1 = (c2, r2, fr) ->
  (r1 < 0 ->
   decode_packet lib state input_buf input_size output_buf
     out_frames out_sample_rate out_channels w =
   Ok r1 (sent_world w s input_buf input_size c1 payload r1)) /\
  (0 <= r1 -> r2 < 0 ->
   decode_packet lib state input_buf input_size output_buf
     out_frames out_sample_rate out_channels w =
   Ok r2 (received_world (sent_world w s input_buf input_size c1 payload r1)
            s c2 r2 fr)) /\
  (forall r w',
     decode_packet lib state input_buf input_size output_buf
       out_frames out_sample_rate out_channels w = Ok r w' ->
     (r = 0 <-> 0 <= r1 /\ 0 <= r2)) /\
  (forall r w',
     decode_packet lib state input_buf input_size output_buf
       out_frames out_sample_rate out_channels w = Ok r w' ->
     r <> 0 ->
     r < 0 /\
     Forall (fun e => ~ is_store e) (events_since w w') /\
     forall p o, objs w !! p = Some o -> caller_owned o -> objs w' !! p = Some o).
Proof.
  intros (Hs0 & Hs & Hc0 & Hc & Hf0 & [f0 Hf] & Hk0 & [k0 Hk]) Hpay Hsend Hrecv.
  assert (decoder_state.frame s <> decoder_state.ctx s) as Hfc
    by (eapply addr_neq; eauto; done).
  assert (decoder_state.frame s <> decoder_state.packet s) as Hfk
    by (eapply addr_neq; eauto; done).
  pose proof (decode_packet_submits state input_buf input_size output_buf
                out_frames out_sample_rate out_channels w s c k0 payload c1 r1
                Hs0 Hs Hc0 Hc Hk0 Hk Hpay Hsend) as Hrun.
  assert (forall r w',
            decode_packet lib state input_buf input_size output_buf
              out_frames out_sample_rate out_channels w = Ok r w' ->
            (r1 < 0 /\ r = r1 /\
             w' = sent_world w s input_buf input_size c1 payload r1) \/
            (0 <= r1 /\ r2 < 0 /\ r = r2 /\
             w' = received_world (sent_world w s input_buf input_size c1 payload r1)
                    s c2 r2 fr) \/
            (0 <= r1 /\ 0 <= r2 /\ r = 0)) as Hcases.
  { intros r w' H. apply decode_packet_inv in H.
    inversion H; subst;
      repeat match goal with
      | H1 : ?m !! ?p = Some _, H2 : ?m !! ?p = Some _ |- _ =>
          rewrite H1 in H2; simplify_eq
      | H1 : payload_of ?w ?p ?n = Some _, H2 : payload_of ?w ?p ?n = Some _ |- _ =>
          rewrite H1 in H2; simplify_eq
      | H1 : send_packet lib ?c ?b = _, H2 : send_packet lib ?c ?b = _ |- _ =>
          rewrite H1 in H2; simplify_eq
      | H1 : receive_frame lib ?c = _, H2 : receive_frame lib ?c = _ |- _ =>
          rewrite H1 in H2; simplify_eq
      end; auto 10. }
  split; [|split; [|split]].
  - intros Hneg. rewrite Hrun. destruct (Z.ltb_spec r1 0); [reflexivity|lia].
  - intros Hpos Hneg. rewrite Hrun. destruct (Z.ltb_spec r1 0); [lia|].
    erewrite bind_run; cycle 1.
    { eapply avcodec_receive_frame_run; [done| |done| |exact Hrecv];
        unfold sent_world; cbn [objs].
      - by rewrite lookup_insert_eq.
      - by rewrite !lookup_insert_ne by done. }
    unfold received_world. destruct (Z.ltb_spec r2 0); [reflexivity|lia].
  - intros r w' H. destruct (Hcases r w' H) as [(?&?&?)|[(?&?&?&?)|(?&?&?)]]; lia.
  - intros r w' H Hr.
    assert (forall p o, objs w !! p = Some o -> caller_owned o ->
              p <> decoder_state.ctx s /\ p <> decoder_state.packet s /\
              p <> decoder_state.frame s) as Hapart.
    { intros p o Hp Ho. repeat split; eapply caller_owned_neq; eauto; cbn; tauto. }
    destruct (Hcases r w' H) as [(?&->&->)|[(?&?&->&->)|(?&?&?)]]; [| |lia].
    + split; [done|]. split.
      * erewrite events_since_app by reflexivity. repeat constructor. by intros [].
      * intros p o Hp Ho. destruct (Hapart p o Hp Ho) as (? & ? & ?).
        by rewrite sent_world_other.
    + split; [done|]. split.
      * erewrite events_since_app
          by (unfold received_world, sent_world; cbn [trace];
              by rewrite <- app_assoc).
        repeat constructor; by intros [].
      * intros p o Hp Ho. destruct (Hapart p o Hp Ho) as (? & ? & ?).
        by rewrite received_world_other.
Qed.

End Decode_failure.

(** ** How an encode call returns *)

Section Encode_inversion.

Variable lib : codec_library.

Lemma store_plane_Ok frame ch i v w u w' :
  store_plane frame ch i v w = Ok u w' ->
  exists f plane,
    frame <> NULL /\ objs w !! frame = Some (OFrame f) /\
    0 <= ch /\ AVFrame.extended_data f !! Z.to_nat ch = Some plane /\
    0 <= i < Z.of_nat (length plane) /\
    w' = set_objs
           (<[frame:=OFrame (AVFrame.set_extended_data
                (<[Z.to_nat ch:=<[Z.to_nat i:=v]> plane]> (AVFrame.extended_data f)) f)]>
              (objs w)) w.
Proof.
  unfold store_plane. intros H.
  inv_bind H as f w1 Hf. apply get_frame_Ok in Hf as (-> & Hf0 & Hf).
  inv_bind H as plane w2 Hp. apply at_index_Ok in Hp as (-> & Hch & Hp).
  inv_bind H as x w3 Hx. apply at_index_Ok in Hx as (-> & Hi & Hx).
  apply assign_Ok in H as (-> & _ & _).
  apply lookup_lt_Some in Hx.
  exists f, plane. repeat (split; [done|]). split; [lia|done].
Qed.

Lemma store_plane_run frame ch i v w f plane :
  frame <> NULL -> objs w !! frame = Some (OFrame f) ->
  0 <= ch -> AVFrame.extended_data f !! Z.to_nat ch = Some plane ->
  0 <= i < Z.of_nat (length plane) ->
  store_plane frame ch i v w =
    Ok tt (set_objs
             (<[frame:=OFrame (AVFrame.set_extended_data
                  (<[Z.to_nat ch:=<[Z.to_nat i:=v]> plane]> (AVFrame.extended_data f)) f)]>
                (objs w)) w).
Proof.
  intros Hf0 Hf Hch Hp Hi. unfold store_plane.
  erewrite bind_run by (by apply get_frame_run).
  erewrite bind_run by (by apply at_index_run).
  destruct (lookup_lt_is_Some_2 plane (Z.to_nat i)) as [x Hx]; [lia|].
  erewrite bind_run by (apply at_index_run; [lia|done]).
  apply assign_run; eauto.
Qed.

Lemma store_bytes_Ok p bs w u w' :
  store_bytes p bs w = Ok u w' ->
  (bs = [] /\ w' = w) \/
  (bs <> [] /\ p <> NULL /\
   exists l, objs w !! p = Some (OBytes l) /\ (length bs <= length l)%nat /\
     w' = mkWorld (<[p:=OBytes (bs ++ drop (length bs) l)]> (objs w)) (oom w)
            (trace w ++ imap (fun k b => EvStoreB p (Z.of_nat k) b) bs)).
Proof.
  unfold store_bytes. destruct bs as [|b bs]; [intros [= <-]; by left|].
  intros H. right. split; [done|].
  inv_bind H as o w1 Ho. apply deref_Ok in Ho as (-> & Hp & Ho).
  destruct o; try discriminate.
  destruct (Nat.leb_spec (length (b :: bs)) (length l)); [|discriminate].
  inv_bind H as x w2 Ha. apply assign_Ok in Ha as (-> & _ & _).
  injection H as _ <-. split; [done|]. exists l. repeat (split; [done|]).
  reflexivity.
Qed.

Lemma avcodec_send_frame_Ok ctx frame w r w' :
  avcodec_send_frame lib ctx frame w = Ok r w' ->
  exists c f c1,
    ctx <> NULL /\ objs w !! ctx = Some (OContext c) /\
    frame <> NULL /\ objs w !! frame = Some (OFrame f) /\
    send_frame lib c f = (c1, r) /\
    w' = mkWorld (<[ctx:=OContext c1]> (objs w)) (oom w)
                 (trace w ++ [EvSendFrame f r]).
Proof.
  unfold avcodec_send_frame. intros H.
  inv_bind H as c w1 Hc. apply get_ctx_Ok in Hc as (-> & Hc0 & Hc).
  inv_bind H as f w2 Hf. apply get_frame_Ok in Hf as (-> & Hf0 & Hf).
  destruct (send_frame lib c f) as [c1 r1] eqn:Es.
  inv_bind H as x w3 Ha. apply assign_Ok in Ha as (-> & _ & _).
  inv_bind H as y w4 He. injection He as <-. injection H as <- <-.
  eauto 12.
Qed.

Lemma avcodec_receive_packet_Ok ctx packet w r w' :
  avcodec_receive_packet lib ctx packet w = Ok r w' ->
  exists c k0 c2 bs,
    ctx <> NULL /\ objs w !! ctx = Some (OContext c) /\
    packet <> NULL /\ objs w !! packet = Some (OPacket k0) /\
    receive_packet lib c = (c2, r, bs) /\
    w' = mkWorld (<[packet:=OPacket (if r <? 0 then AVPacket.blank
                                     else AVPacket.mk (PktOwned bs)
                                            (Z.of_nat (length bs)))]>
                    (<[ctx:=OContext c2]> (objs w)))
                 (oom w) (trace w ++ [EvReceivePacket r bs]).
Proof.
  unfold avcodec_receive_packet, av_packet_unref. intros H.
  inv_bind H as c w1 Hc. apply get_ctx_Ok in Hc as (-> & Hc0 & Hc).
  inv_bind H as x w2 Hk. apply upd_packet_Ok in Hk as (k0 & Hk0 & Hk & ->).
  destruct (receive_packet lib c) as [[c2 r2] bs] eqn:Er.
  assert (packet <> ctx) by (eapply addr_neq; eauto; done).
  inv_bind H as y w3 Ha. apply assign_Ok in Ha as (-> & _ & _).
  inv_bind H as z w4 Hb. inv_bind H as z' w5 He. unfold emit, pure in *.
  destruct (r2 <? 0) eqn:Er2; [|apply assign_Ok in Hb as (-> & _ & _)];
    simplify_eq; exists c, k0, c2, bs; repeat (split; [done|]);
    rewrite Er2; world_eq.
Qed.

End Encode_inversion.

(** ** The copy loop of the encoder *)

Section Deinterleave.

Variables (fp inp : ptr) (n C : Z) (f0 : AVFrame.t) (w : world).

Hypothesis Hfp : objs w !! fp = Some (OFrame f0).

Lemma deinterleave_inv_start : deinterleave_inv fp inp n C f0 w w.
Proof.
  unfold deinterleave_inv. repeat split; try done.
  - exists (AVFrame.extended_data f0). rewrite Hfp. by destruct f0.
  - exists []. by rewrite app_nil_r.
Qed.

Lemma deinterleave_body_step ch i w1 w2 :
  0 <= ch < C -> 0 <= i < n ->
  deinterleave_inv fp inp n C f0 w w1 ->
  deinterleave_body fp inp C ch i w1 = Ok tt w2 ->
  deinterleave_inv fp inp n C f0 w w2.
Proof.
  intros Hch Hi (Hoom & Hoth & (planes & Hpl) & (loads & Htr & Hld)) H.
  unfold deinterleave_body in H.
  inv_bind H as v wa Hv.
  apply load_float_Ok in Hv as (Hi0 & l & Hl & Hj & Hlv & ->).
  apply store_plane_Ok in H as (f & plane & Hf0 & Hf & _ & Hp & Hip & ->).
  cbn [objs oom trace] in *. rewrite Hpl in Hf. injection Hf as <-.
  fold (index32 i C ch) in *.
  assert (index32 i C ch <= i * C + ch) by (apply index32_le; lia).
  assert (i * C + ch < n * C) by nia.
  unfold deinterleave_inv, set_objs; cbn [objs oom trace].
  split; [done|].
  split; [intros p Hp'; by rewrite lookup_insert_ne by done; apply Hoth|].
  split; [rewrite lookup_insert_eq; eexists; reflexivity|].
  exists (loads ++ [EvLoadF inp (index32 i C ch)]).
  split; [by rewrite Htr, app_assoc|].
  apply Forall_app. split; [done|]. constructor; [|done].
  exists i, ch. repeat (split; [lia|]). split; [done|]. lia.
Qed.

Lemma deinterleave_loop_inv w3 :
  deinterleave_loop fp inp n C w = Ok tt w3 ->
  deinterleave_inv fp inp n C f0 w w3.
Proof.
  intros H. unfold deinterleave_loop in H.
  apply (for_lt_ind (fun _ w' => deinterleave_inv fp inp n C f0 w w') _ _ _ _ H).
  - apply deinterleave_inv_start.
  - intros ch w1 w2 Hch Hinv Hrow.
    apply (for_lt_ind (fun _ w' => deinterleave_inv fp inp n C f0 w w')
             _ _ _ _ Hrow Hinv).
    intros i wa wb Hi Hinv' Hb. by eapply deinterleave_body_step.
Qed.

End Deinterleave.

Section Encode_run.

Variable lib : codec_library.

Lemma copied_world_nonempty w5 s output_buf bs l :
  bs <> [] -> objs w5 !! output_buf = Some (OBytes l) ->
  copied_world w5 s output_buf bs =
    mkWorld (<[encoder_state.packet s:=OPacket AVPacket.blank]>
               (<[output_buf:=OBytes (bs ++ drop (length bs) l)]> (objs w5)))
            (oom w5)
            (trace w5 ++ imap (fun k b => EvStoreB output_buf (Z.of_nat k) b) bs).
Proof. intros Hne Hl. unfold copied_world. destruct bs; [done|]. by rewrite Hl. Qed.

Lemma encode_samples_inv state input_buf num_frames output_buf output_buf_size w r w' :
  encode_samples lib state input_buf num_frames output_buf output_buf_size w = Ok r w' ->
  encode_run lib state input_buf num_frames output_buf output_buf_size w r w'.
Proof.
  unfold encode_samples, av_packet_unref, memcpy. intros H.
  inv_bind H as s w0 Hs. apply get_encoder_Ok in Hs as (-> & Hs0 & Hs).
  inv_bind H as f0 w1 Hf. apply get_frame_Ok in Hf as (-> & Hf0 & Hf).
  inv_bind H as u1 w3 Hloop. destruct u1.
  change (for_lt (AVFrame.nb_channels f0) _)
    with (deinterleave_loop (encoder_state.frame s) input_buf num_frames
            (AVFrame.nb_channels f0)) in Hloop.
  inv_bind H as u2 w4 Hn. apply upd_frame_Ok in Hn as (f3 & _ & Hf3 & ->).
  inv_bind H as r1 w5 Hsend.
  apply avcodec_send_frame_Ok in Hsend
    as (c & f & c1 & Hc0 & Hc & _ & Hf' & Hsend & ->).
  unfold set_objs in *; cbn [objs oom trace] in *.
  rewrite lookup_insert_eq in Hf'. injection Hf' as <-.
  assert (encoder_state.ctx s <> encoder_state.frame s) as Hcf.
  { intros E. rewrite E, lookup_insert_eq in Hc. discriminate. }
  rewrite lookup_insert_ne in Hc by done.
  change {| objs := <[encoder_state.ctx s:=OContext c1]>
               (<[encoder_state.frame s:=OFrame (AVFrame.set_nb_samples num_frames f3)]>
                  (objs w3));
            oom := oom w3;
            trace := trace w3 ++ [EvSendFrame (AVFrame.set_nb_samples num_frames f3) r1] |}
    with (submitted_world w3 s c1 (AVFrame.set_nb_samples num_frames f3) r1) in H.
  set (w4 := submitted_world w3 s c1 (AVFrame.set_nb_samples num_frames f3) r1) in *.
  destruct (Z.ltb_spec r1 0) as [Hneg|Hpos].
  { injection H as <- <-. eapply encode_send_failed; eauto. }
  inv_bind H as r2 w6 Hrecv.
  apply avcodec_receive_packet_Ok in Hrecv
    as (c' & k0 & c2 & bs & _ & Hc' & Hk0 & Hk & Hrecv & ->).
  assert (objs w4 !! encoder_state.ctx s = Some (OContext c1)) as Hc1
    by (unfold w4, submitted_world; cbn; by rewrite lookup_insert_eq).
  rewrite Hc1 in Hc'. injection Hc' as <-.
  assert (encoder_state.packet s <> encoder_state.ctx s) as Hkc
    by (eapply addr_neq; eauto; done).
  assert (encoder_state.packet s <> encoder_state.frame s) as Hkf.
  { intros E. revert Hk. unfold w4, submitted_world; cbn.
    rewrite lookup_insert_ne by done. by rewrite E, lookup_insert_eq. }
  assert (objs w3 !! encoder_state.packet s = Some (OPacket k0)) as Hk3.
  { revert Hk. unfold w4, submitted_world; cbn. by rewrite !lookup_insert_ne by done. }
  change {| objs := <[encoder_state.packet s:=
                        OPacket (if r2 <? 0 then AVPacket.blank
                                 else AVPacket.mk (PktOwned bs) (Z.of_nat (length bs)))]>
                      (<[encoder_state.ctx s:=OContext c2]> (objs w4));
            oom := oom w4; trace := trace w4 ++ [EvReceivePacket r2 bs] |}
    with (packed_world w4 s c2 r2 bs) in H.
  set (w5 := packed_world w4 s c2 r2 bs) in *.
  destruct (Z.ltb_spec r2 0) as [Hneg2|Hpos2].
  { injection H as <- <-. eapply encode_receive_failed; eauto. }
  assert (objs w5 !! encoder_state.packet s
          = Some (OPacket (AVPacket.mk (PktOwned bs) (Z.of_nat (length bs))))) as Hk5.
  { unfold w5, packed_world; cbn. rewrite lookup_insert_eq.
    by destruct (Z.ltb_spec r2 0); [lia|]. }
  inv_bind H as k w7 Hg. apply get_packet_Ok in Hg as (-> & _ & Hg).
  rewrite Hk5 in Hg. injection Hg as <-. cbn [AVPacket.size AVPacket.data] in H.
  destruct (Z.gtb_spec (Z.of_nat (length bs)) output_buf_size) as [Hbig|Hfit].
  { injection H as <- <-. eapply encode_too_small; eauto; lia. }
  inv_bind H as u3 w8 Hcopy. inv_bind Hcopy as bs' w9 Hbytes.
  unfold packet_bytes in Hbytes. cbn [AVPacket.size AVPacket.data] in Hbytes.
  rewrite Z.leb_refl in Hbytes.
  destruct (Z.leb_spec 0 (Z.of_nat (length bs))); [|lia]. cbn [andb] in Hbytes.
  injection Hbytes as <- <-. rewrite Nat2Z.id, firstn_all in Hcopy.
  inv_bind H as k w10 Hg.  apply get_packet_Ok in Hg as (-> & _ & Hg).
  inv_bind H as u4 w11 Hun. apply upd_packet_Ok in Hun as (k' & _ & _ & ->).
  assert (forall X Y, X = Y -> forall z, z = Z.of_nat (length bs) ->
     encode_run lib state input_buf num_frames output_buf output_buf_size w
       (Z.of_nat (length bs)) Y ->
     encode_run lib state input_buf num_frames output_buf output_buf_size w z X)
    as Hconv by (by intros ?? -> ? ->).
  apply store_bytes_Ok in Hcopy as [[-> ->]|(Hne & Ho & l & Hl & Hlen & ->)].
  - rewrite Hk5 in Hg. injection Hg as <-. injection H as <- <-.
    eapply Hconv; [| |eapply encode_done; eauto; lia]; [|done].
    unfold copied_world, set_objs. reflexivity.
  - assert (output_buf <> encoder_state.packet s) as Nk
      by (intros E; rewrite E, Hk5 in Hl; discriminate).
    cbn [objs] in Hg. rewrite lookup_insert_ne, Hk5 in Hg by done.
    injection Hg as <-. injection H as <- <-.
    assert (objs w3 !! output_buf = Some (OBytes l)) as Hl3.
    { revert Hl. unfold w5, packed_world, w4, submitted_world; cbn [objs].
      rewrite lookup_insert_ne by done.
      destruct (decide (encoder_state.ctx s = output_buf)) as [E|N1];
        [by rewrite E, lookup_insert_eq|].
      rewrite lookup_insert_ne by done.
      rewrite lookup_insert_ne by done.
      destruct (decide (encoder_state.frame s = output_buf)) as [E|N2];
        [by rewrite E, lookup_insert_eq|].
      by rewrite lookup_insert_ne by done. }
    eapply Hconv; [|reflexivity|eapply encode_done; eauto; lia].
    rewrite (copied_world_nonempty _ _ _ _ l) by done. unfold set_objs. reflexivity.
Qed.

End Encode_run.

(** ** What an encode call reads, writes and returns *)

Section Encode_output.

Variable lib : codec_library.

Variables (state input_buf : ptr) (num_frames : Z) (output_buf : ptr) (output_buf_size : Z).

(** The caller's buffers are untouched up to the moment the packet is
    copied out. *)
Lemma encode_prefix_keeps w s f0 w3 :
  objs w !! encoder_state.frame s = Some (OFrame f0) ->
  deinterleave_inv (encoder_state.frame s) input_buf num_frames
    (AVFrame.nb_channels f0) f0 w w3 ->
  forall p o, objs w !! p = Some o -> caller_owned o ->
    objs w3 !! p = Some o /\ p <> encoder_state.frame s.
Proof.
  intros Hf (_ & Hoth & _ & _) p o Hp Ho.
  assert (p <> encoder_state.frame s)
    by (eapply caller_owned_neq; eauto; cbn; tauto).
  by rewrite Hoth.
Qed.

Lemma packed_world_other w3 s c1 fr r1 c2 r2 bs p :
  p <> encoder_state.ctx s -> p <> encoder_state.frame s ->
  p <> encoder_state.packet s ->
  objs (packed_world (submitted_world w3 s c1 fr r1) s c2 r2 bs) !! p = objs w3 !! p.
Proof.
  intros. unfold packed_world, submitted_world. cbn [objs].
  by rewrite !lookup_insert_ne by done.
Qed.

Lemma submitted_world_other w3 s c1 fr r1 p :
  p <> encoder_state.ctx s -> p <> encoder_state.frame s ->
  objs (submitted_world w3 s c1 fr r1) !! p = objs w3 !! p.
Proof.
  intros. unfold submitted_world. cbn [objs]. by rewrite !lookup_insert_ne by done.
Qed.

(** Every return of [encode_samples], with the events of the call: the
    loads of the copy loop, the submission of the scratch frame, the request
    for a packet, and the stores of [memcpy]. *)
Lemma encode_samples_returns w r w' :
  encode_samples lib state input_buf num_frames output_buf output_buf_size w = Ok r w' ->
  exists s f0 loads fr r1,
    objs w !! state = Some (OEncoder s) /\
    objs w !! encoder_state.frame s = Some (OFrame f0) /\
    Forall (load_within input_buf num_frames (AVFrame.nb_channels f0)) loads /\
    AVFrame.nb_samples fr = num_frames /\
    AVFrame.nb_channels fr = AVFrame.nb_channels f0 /\
    ((r1 < 0 /\ r = r1 /\
      events_since w w' = loads ++ [EvSendFrame fr r1] /\
      (forall p o, objs w !! p = Some o -> caller_owned o -> objs w' !! p = Some o)) \/
     (0 <= r1 /\ exists r2 bs,
        (r2 < 0 /\ r = r2 /\
         events_since w w' = loads ++ [EvSendFrame fr r1; EvReceivePacket r2 bs] /\
         (forall p o, objs w !! p = Some o -> caller_owned o -> objs w' !! p = Some o)) \/
        (0 <= r2 /\ output_buf_size < Z.of_nat (length bs) /\ r = -1 /\
         events_since w w' = loads ++ [EvSendFrame fr r1; EvReceivePacket r2 bs] /\
         (forall p o, objs w !! p = Some o -> caller_owned o -> objs w' !! p = Some o)) \/
        (0 <= r2 /\ Z.of_nat (length bs) <= output_buf_size /\
         r = Z.of_nat (length bs) /\
         events_since w w' =
           loads ++ [EvSendFrame fr r1; EvReceivePacket r2 bs]
                 ++ imap (fun k b => EvStoreB output_buf (Z.of_nat k) b) bs))).
Proof.
  intros H. apply encode_samples_inv in H.
  destruct H as [s f0 w3 f3 c c1 r1 Hs0 Hs Hf Hloop Hf3 Hc Hsend Hr1
                 |s f0 w3 f3 c c1 r1 k0 c2 r2 bs Hs0 Hs Hf Hloop Hf3 Hc Hsend Hr1 Hk Hrecv Hr2
                 |s f0 w3 f3 c c1 r1 k0 c2 r2 bs Hs0 Hs Hf Hloop Hf3 Hc Hsend Hr1 Hk Hrecv Hr2 Hbig
                 |s f0 w3 f3 c c1 r1 k0 c2 r2 bs Hs0 Hs Hf Hloop Hf3 Hc Hsend Hr1 Hk Hrecv Hr2 Hfit Hout].
  all: pose proof (deinterleave_loop_inv _ _ _ _ _ _ Hf _ Hloop) as Hinv.
  all: pose proof (encode_prefix_keeps _ _ _ _ Hf Hinv) as Hkeep.
  all: pose proof Hinv as (_ & _ & (planes & Hpl) & (loads & Htr & Hld)).
  all: rewrite Hpl in Hf3; injection Hf3 as <-.
  all: exists s, f0, loads, (AVFrame.set_nb_samples num_frames
                               (AVFrame.set_extended_data planes f0)), r1.
  all: repeat (split; [done|]).
  all: assert (forall p o, objs w !! p = Some o -> caller_owned o ->
                 p <> encoder_state.ctx s /\ p <> encoder_state.frame s) as Hapart
         by (intros p o Hp Ho; destruct (Hkeep p o Hp Ho) as [Hp3 ?]; split; [|done];
             eapply caller_owned_neq; eauto; cbn; tauto).
  - left. repeat (split; [done|]). split.
    + apply events_since_app. unfold submitted_world. cbn [trace].
      by rewrite Htr, <- app_assoc.
    + intros p o Hp Ho. destruct (Hapart p o Hp Ho), (Hkeep p o Hp Ho).
      by rewrite submitted_world_other.
  - right. split; [done|]. exists r2, bs. left. repeat (split; [done|]). split.
    + apply events_since_app. unfold packed_world, submitted_world. cbn [trace].
      by rewrite Htr, <- !app_assoc.
    + intros p o Hp Ho. destruct (Hapart p o Hp Ho), (Hkeep p o Hp Ho) as [Hp3 ?].
      rewrite packed_world_other; [done|done|done|].
      eapply caller_owned_neq; eauto; cbn; tauto.
  - right. split; [done|]. exists r2, bs. right. left. repeat (split; [done|]). split.
    + apply events_since_app. unfold packed_world, submitted_world. cbn [trace].
      by rewrite Htr, <- !app_assoc.
    + intros p o Hp Ho. destruct (Hapart p o Hp Ho), (Hkeep p o Hp Ho) as [Hp3 ?].
      rewrite packed_world_other; [done|done|done|].
      eapply caller_owned_neq; eauto; cbn; tauto.
  - right. split; [done|]. exists r2, bs. right. right. repeat (split; [done|]).
    apply events_since_app.
    destruct Hout as [->|(l & Ho0 & Hl & Hlen)].
    + unfold copied_world, packed_world, submitted_world. cbn [trace].
      by rewrite Htr, <- !app_assoc.
    + assert (objs (packed_world
                (submitted_world w3 s c1
                   (AVFrame.set_nb_samples num_frames
                      (AVFrame.set_extended_data planes f0)) r1) s c2 r2 bs)
              !! output_buf = Some (OBytes l)) as Hl5.
      { rewrite packed_world_other; [done| | |]; eapply addr_neq; eauto; done. }
      destruct (decide (bs = [])) as [->|Hne].
      * unfold copied_world, packed_world, submitted_world. cbn [trace].
        by rewrite Htr, <- !app_assoc.
      * rewrite (copied_world_nonempty _ _ _ _ l) by done.
        unfold packed_world, submitted_world. cbn [trace].
        by rewrite Htr, <- !app_assoc.
Qed.

(** In a call with frame count [n] on a session whose scratch frame
    has [C] channels, every load from the input is the load of sample [i] of
    channel [ch] for some [0 <= i < n] and [0 <= ch < C], at an index in
    [0, n * C); all loads come before the submission, and the frame
    submitted to the encoder has its sample count set to [n]. *)
Lemma encode_samples_loads w r w' :
  encode_samples lib state input_buf num_frames output_buf output_buf_size w = Ok r w' ->
  exists s f0 loads fr r1 rest,
    objs w !! state = Some (OEncoder s) /\
    objs w !! encoder_state.frame s = Some (OFrame f0) /\
    events_since w w' = loads ++ EvSendFrame fr r1 :: rest /\
    Forall (load_within input_buf num_frames (AVFrame.nb_channels f0)) loads /\
    Forall (fun e => forall p i, e <> EvLoadF p i) rest /\
    AVFrame.nb_samples fr = num_frames.
Proof.
  intros H. apply encode_samples_returns in H
    as (s & f0 & loads & fr & r1 & Hs & Hf & Hld & Hn & _ & Hcases).
  assert (Forall (fun e => forall p i, e <> EvLoadF p i)
            (imap (fun k b => EvStoreB output_buf (Z.of_nat k) b) (@nil byte))) as _
    by constructor.
  assert (forall bs : list byte,
            Forall (fun e => forall p i, e <> EvLoadF p i)
              (imap (fun k b => EvStoreB output_buf (Z.of_nat k) b) bs)) as Hst.
  { intros bs. apply Forall_forall. intros e He.
    apply list_elem_of_lookup in He as [k Hk].
    rewrite list_lookup_imap in Hk.
    destruct (bs !! k); [|done]. injection Hk as <-. done. }
  destruct Hcases as [(_ & _ & Hev & _)|(_ & r2 & bs & [(_ & _ & Hev & _)
                       |[(_ & _ & _ & Hev & _)|(_ & _ & _ & Hev)]])].
  - exists s, f0, loads, fr, r1, []. repeat split; try done.
  - exists s, f0, loads, fr, r1, [EvReceivePacket r2 bs].
    repeat split; try done. by repeat constructor.
  - exists s, f0, loads, fr, r1, [EvReceivePacket r2 bs].
    repeat split; try done. by repeat constructor.
  - exists s, f0, loads, fr, r1,
      (EvReceivePacket r2 bs :: imap (fun k b => EvStoreB output_buf (Z.of_nat k) b) bs).
    repeat split; try done. constructor; [done|apply Hst].
Qed.

End Encode_output.

(** ** Session creation *)

Section Creation.

Variable lib : codec_library.

Lemma alloc_cases o w :
  alloc o w = Ok NULL (mkWorld (objs w) (tl (oom w)) (trace w ++ [EvAllocFail])) \/
  alloc o w = Ok (fresh_addr (objs w))
                 (mkWorld (<[fresh_addr (objs w):=o]> (objs w)) (tl (oom w))
                          (trace w ++ [EvAlloc (fresh_addr (objs w))])).
Proof. unfold alloc. destruct (oom w) as [|[] rest]; auto. Qed.

Lemma reserve_cases w :
  reserve w = Ok false (mkWorld (objs w) (tl (oom w)) (trace w ++ [EvAllocFail])) \/
  reserve w = Ok true (mkWorld (objs w) (tl (oom w)) (trace w)).
Proof. unfold reserve. destruct (oom w) as [|[] rest]; auto. Qed.

Lemma bind_fault {A B} (m : M A) (k : A -> M B) w :
  m w = Fault -> bind m k w = Fault.
Proof. unfold bind. by intros ->. Qed.

Lemma deref_null w : deref NULL w = Fault.
Proof. reflexivity. Qed.

Lemma fresh_addr_neq (m : gmap Z obj) p o : m !! p = Some o -> p <> fresh_addr m.
Proof. intros H ->. rewrite fresh_addr_free in H. discriminate. Qed.

Lemma fresh_addr_nonnull (m : gmap Z obj) : fresh_addr m <> NULL.
Proof. pose proof (fresh_addr_pos m). unfold NULL. lia. Qed.

Lemma avcodec_open2_run ctx codec w c c' r :
  ctx <> NULL -> objs w !! ctx = Some (OContext c) ->
  open2 lib codec c = (c', r) ->
  avcodec_open2 lib ctx codec w =
    Ok r (mkWorld (<[ctx:=OContext c']> (objs w)) (oom w) (trace w ++ [EvOpen r])).
Proof.
  intros H0 Hc Ho. unfold avcodec_open2.
  erewrite bind_run by (by apply get_ctx_run). rewrite Ho.
  erewrite bind_run by (apply assign_run; eauto). reflexivity.
Qed.

End Creation.

Ltac hfwd H :=
  erewrite bind_run in H by fwd; cbv beta in H;
  unfold set_objs, log_event in H; cbn [objs oom trace] in H.

Ltac hfault H := rewrite bind_fault in H by reflexivity; discriminate H.

Ltac halloc H Ha :=
  match type of H with
  | bind (alloc ?o) _ ?W = _ =>
      destruct (alloc_cases o W) as [Ha|Ha];
      rewrite (bind_run _ _ _ _ _ Ha) in H; cbv beta in H; clear Ha;
      cbn [objs oom trace] in H
  end.

(** What is known of an address the allocator has just handed out. *)
Ltac note_fresh p M :=
  let Hfr := fresh "Hfr" in
  let Hnn := fresh "Hnn" in
  pose proof (fresh_addr_free M) as Hfr;
  pose proof (fresh_addr_nonnull M) as Hnn;
  set (p := fresh_addr M) in *;
  repeat (rewrite lookup_insert in Hfr;
          destruct (decide (_ = p)) in Hfr; [discriminate Hfr|]).

Section Creation_decoder.

Variable lib : codec_library.

Lemma init_decoder_spec codec_id sample_rate channels w p w' :
  init_decoder lib codec_id sample_rate channels w = Ok p w' ->
  (p = NULL /\ objs w' = objs w) \/
  decoder_created lib codec_id sample_rate channels w w' p.
Proof.
  unfold init_decoder, avcodec_find_decoder.
  destruct (find_decoder lib codec_id) as [codec|] eqn:Ef;
    [|intros [= <- <-]; by left].
  unfold malloc_decoder_state, avcodec_alloc_context3, av_frame_alloc,
    av_packet_alloc, av_channel_layout_default.
  intros H.
  halloc H Ha; [halloc H Hb; hfault H|].
  note_fresh p1 (objs w).
  halloc H Hb; [hfwd H; hfwd H; hfault H|].
  match type of H with context [fresh_addr ?M] => note_fresh p2 M end.
  assert ((p1 =? NULL) = false) as Ep1 by (by apply Z.eqb_neq).
  assert ((p2 =? NULL) = false) as Ep2 by (by apply Z.eqb_neq).
  repeat hfwd H.
  rewrite !insert_insert_eq in H.
  destruct (open2 lib codec (decoder_config sample_rate channels)) as [c r] eqn:Eo.
  erewrite bind_run in H
    by (eapply avcodec_open2_run; [done| |exact Eo]; cbn [objs];
        by rewrite lookup_insert_eq).
  cbv beta in H; cbn [objs oom trace] in H. rewrite !insert_insert_eq in H.
  destruct (Z.ltb_spec r 0) as [Hneg|Hpos].
  { repeat hfwd H. injection H as <- <-. left. split; [done|]. cbn [objs].
    apply map_eq. intros i.
    repeat first [rewrite lookup_insert | rewrite lookup_delete].
    repeat case_decide; subst; by rewrite ?Hfr, ?Hfr0. }
  right.
  unfold decoder_state.set_ctx in H;
    cbn [decoder_state.frame decoder_state.packet] in H.
  halloc H Hc;
    try (match type of H with context [fresh_addr ?M] => note_fresh p3 M end);
    hfwd H;
    unfold decoder_state.set_frame in H;
    cbn [decoder_state.ctx decoder_state.frame decoder_state.packet] in H;
    (halloc H Hd;
     try (match type of H with context [fresh_addr ?M] => note_fresh p4 M end);
     hfwd H;
     unfold decoder_state.set_packet in H;
     cbn [decoder_state.ctx decoder_state.frame decoder_state.packet] in H;
     injection H as <- <-; cbn [objs];
     eexists _, codec, c, r;
     repeat (split; [first [done | lookup]|]);
     cbn [decoder_state.ctx decoder_state.frame decoder_state.packet];
     unfold new_or_null; cbn [objs];
     repeat (split; [first [done | lookup | by left
                            | (right; repeat split; first [done | lookup])]|]);
     intros q o Hq; rewrite !lookup_insert_ne by (intros <-; congruence); done).
Qed.

End Creation_decoder.

Section Creation_encoder.

Variable lib : codec_library.

Lemma reserve_outcomes w :
  (hd true (oom w) = false /\
   reserve w = Ok false (mkWorld (objs w) (tl (oom w)) (trace w ++ [EvAllocFail]))) \/
  (hd true (oom w) = true /\
   reserve w = Ok true (mkWorld (objs w) (tl (oom w)) (trace w))).
Proof. unfold reserve. destruct (oom w) as [|[] rest]; auto. Qed.

Lemma av_frame_get_buffer_cases frame w f :
  frame <> NULL -> objs w !! frame = Some (OFrame f) ->
  (buffer_request_valid f = false /\
   av_frame_get_buffer frame w = Ok AVERROR_EINVAL w) \/
  (buffer_request_valid f = true /\ hd true (oom w) = false /\
   av_frame_get_buffer frame w =
     Ok AVERROR_ENOMEM (mkWorld (objs w) (tl (oom w)) (trace w ++ [EvAllocFail]))) \/
  (buffer_request_valid f = true /\ hd true (oom w) = true /\
   av_frame_get_buffer frame w =
     Ok 0 (mkWorld (<[frame:=OFrame (AVFrame.set_extended_data (fresh_planes f) f)]> (objs w))
                   (tl (oom w)) (trace w))).
Proof.
  intros H0 Hf. unfold av_frame_get_buffer, buffer_request_valid.
  erewrite bind_run by (by apply get_frame_run). cbv beta.
  destruct (_ || _); [by left|]. right.
  destruct (reserve_outcomes w) as [[Hh Hr]|[Hh Hr]];
    rewrite (bind_run _ _ _ _ _ Hr); cbv beta iota.
  - by left.
  - right. erewrite bind_run by (apply assign_run; [done|]; cbn [objs]; eauto).
    done.
Qed.

Lemma init_encoder_spec codec_id sample_rate channels bitrate w p w' :
  init_encoder lib codec_id sample_rate channels bitrate w = Ok p w' ->
  (p = NULL /\ objs w' = objs w) \/
  encoder_created lib codec_id sample_rate channels bitrate w w' p.
Proof.
  unfold init_encoder, avcodec_find_encoder.
  destruct (find_encoder lib codec_id) as [codec|] eqn:Ef;
    [|intros [= <- <-]; by left].
  unfold malloc_encoder_state, avcodec_alloc_context3, av_frame_alloc,
    av_packet_alloc.
  intros H.
  halloc H Ha; [halloc H Hb; hfault H|].
  note_fresh p1 (objs w).
  halloc H Hb; [hfwd H; hfwd H; hfault H|].
  match type of H with context [fresh_addr ?M] => note_fresh p2 M end.
  assert ((p1 =? NULL) = false) as Ep1 by (by apply Z.eqb_neq).
  assert ((p2 =? NULL) = false) as Ep2 by (by apply Z.eqb_neq).
  repeat hfwd H.
  rewrite !insert_insert_eq in H.
  destruct (open2 lib codec (encoder_config sample_rate channels bitrate))
    as [c r] eqn:Eo.
  erewrite bind_run in H
    by (eapply avcodec_open2_run; [done| |exact Eo]; cbn [objs];
        by rewrite lookup_insert_eq).
  cbv beta in H; cbn [objs oom trace] in H. rewrite !insert_insert_eq in H.
  destruct (Z.ltb_spec r 0) as [Hneg|Hpos].
  { repeat hfwd H. injection H as <- <-. left. split; [done|]. cbn [objs].
    apply map_eq. intros i.
    repeat first [rewrite lookup_insert | rewrite lookup_delete].
    repeat case_decide; subst; by rewrite ?Hfr, ?Hfr0. }
  right.
  unfold encoder_state.set_ctx in H;
    cbn [encoder_state.frame encoder_state.packet] in H.
  halloc H Hc; [repeat hfwd H; hfault H|].
  match type of H with context [fresh_addr ?M] => note_fresh p3 M end.
  repeat hfwd H.
  unfold encoder_state.set_frame in H;
    cbn [encoder_state.ctx encoder_state.frame encoder_state.packet] in H.
  match type of H with
  | bind (av_frame_get_buffer ?fp) _ ?W = _ =>
      destruct (av_frame_get_buffer_cases fp W (encoder_frame c sample_rate))
        as [[Hv Hg]|[(Hv & Hh & Hg)|(Hv & Hh & Hg)]];
        [done | cbn [objs]; by rewrite lookup_insert_eq | | |];
        rewrite (bind_run _ _ _ _ _ Hg) in H; cbv beta in H; clear Hg;
        cbn [objs oom trace] in H; try cbn [oom] in Hh
  end.
  all: halloc H Hd;
    try (match type of H with context [fresh_addr ?M] => note_fresh p4 M end);
    hfwd H;
    unfold encoder_state.set_packet in H;
    cbn [encoder_state.ctx encoder_state.frame encoder_state.packet] in H;
    injection H as <- <-; cbn [objs];
    eexists _, codec, c, r, _;
    repeat (split; [first [done | lookup]|]);
    cbn [encoder_state.ctx encoder_state.frame encoder_state.packet];
    unfold new_or_null, backed_or_bare; cbn [objs];
    repeat (split; [first [done | lookup | by left
                           | (right; repeat split; first [done | lookup])
                           | (intros; first [reflexivity | intuition congruence])]|]);
    intros q o Hq; rewrite !lookup_insert_ne by (intros <-; congruence); done.
Qed.

End Creation_encoder.

Section Creation_total.

Variable lib : codec_library.

Lemma alloc_granted o w :
  hd true (oom w) = true ->
  alloc o w = Ok (fresh_addr (objs w))
                 (mkWorld (<[fresh_addr (objs w):=o]> (objs w)) (tl (oom w))
                          (trace w ++ [EvAlloc (fresh_addr (objs w))])).
Proof. unfold alloc. destruct (oom w) as [|[] rest]; by intros. Qed.

Ltac hgrant H Hg :=
  match type of H with
  | bind (alloc ?o) _ ?W = _ =>
      rewrite (bind_run _ _ _ _ _ (alloc_granted o W Hg)) in H; cbv beta in H;
      cbn [objs oom trace] in H
  end.

(** With memory for the session struct and the context, [init_decoder]
    returns. *)
Lemma init_decoder_returns codec_id sample_rate channels w :
  hd true (oom w) = true -> hd true (tl (oom w)) = true ->
  exists p w', init_decoder lib codec_id sample_rate channels w = Ok p w'.
Proof.
  intros G1 G2.
  destruct (init_decoder lib codec_id sample_rate channels w) as [|p w'] eqn:H;
    [exfalso|eauto].
  revert H. unfold init_decoder, avcodec_find_decoder.
  destruct (find_decoder lib codec_id) as [codec|] eqn:Ef; [|discriminate].
  unfold malloc_decoder_state, avcodec_alloc_context3, av_frame_alloc,
    av_packet_alloc, av_channel_layout_default.
  intros H.
  hgrant H G1. note_fresh p1 (objs w).
  hgrant H G2.
  match type of H with context [fresh_addr ?M] => note_fresh p2 M end.
  assert ((p1 =? NULL) = false) as Ep1 by (by apply Z.eqb_neq).
  assert ((p2 =? NULL) = false) as Ep2 by (by apply Z.eqb_neq).
  repeat hfwd H.
  destruct (open2 lib codec (decoder_config sample_rate channels)) as [c r] eqn:Eo.
  erewrite bind_run in H
    by (eapply avcodec_open2_run; [done| |exact Eo]; cbn [objs];
        by rewrite lookup_insert_eq).
  cbv beta in H; cbn [objs oom trace] in H.
  destruct (Z.ltb_spec r 0) as [Hneg|Hpos]; [repeat hfwd H; discriminate|].
  halloc H Hc;
    try (match type of H with context [fresh_addr ?M] => note_fresh p3 M end);
    hfwd H;
    (halloc H Hd;
     try (match type of H with context [fresh_addr ?M] => note_fresh p4 M end);
     hfwd H; discriminate).
Qed.

(** With memory for the session struct, the context and the frame holder,
    [init_encoder] returns. *)
Lemma init_encoder_returns codec_id sample_rate channels bitrate w :
  hd true (oom w) = true -> hd true (tl (oom w)) = true ->
  hd true (tl (tl (oom w))) = true ->
  exists p w', init_encoder lib codec_id sample_rate channels bitrate w = Ok p w'.
Proof.
  intros G1 G2 G3.
  destruct (init_encoder lib codec_id sample_rate channels bitrate w) as [|p w'] eqn:H;
    [exfalso|eauto].
  revert H. unfold init_encoder, avcodec_find_encoder.
  destruct (find_encoder lib codec_id) as [codec|] eqn:Ef; [|discriminate].
  unfold malloc_encoder_state, avcodec_alloc_context3, av_frame_alloc,
    av_packet_alloc.
  intros H.
  hgrant H G1. note_fresh p1 (objs w).
  hgrant H G2.
  match type of H with context [fresh_addr ?M] => note_fresh p2 M end.
  assert ((p1 =? NULL) = false) as Ep1 by (by apply Z.eqb_neq).
  assert ((p2 =? NULL) = false) as Ep2 by (by apply Z.eqb_neq).
  repeat hfwd H.
  destruct (open2 lib codec (encoder_config sample_rate channels bitrate))
    as [c r] eqn:Eo.
  erewrite bind_run in H
    by (eapply avcodec_open2_run; [done| |exact Eo]; cbn [objs];
        by rewrite lookup_insert_eq).
  cbv beta in H; cbn [objs oom trace] in H.
  destruct (Z.ltb_spec r 0) as [Hneg|Hpos]; [repeat hfwd H; discriminate|].
  hgrant H G3.
  match type of H with context [fresh_addr ?M] => note_fresh p3 M end.
  repeat hfwd H.
  match type of H with
  | bind (av_frame_get_buffer ?fp) _ ?W = _ =>
      destruct (av_frame_get_buffer_cases fp W (encoder_frame c sample_rate))
        as [[Hv Hg]|[(Hv & Hh & Hg)|(Hv & Hh & Hg)]];
        [done | cbn [objs]; by rewrite lookup_insert_eq | | |];
        rewrite (bind_run _ _ _ _ _ Hg) in H; cbv beta in H; clear Hg;
        cbn [objs oom trace] in H
  end.
  all: halloc H Hd;
    try (match type of H with context [fresh_addr ?M] => note_fresh p4 M end);
    hfwd H; discriminate.
Qed.

End Creation_total.

(** ** What makes a creation return null, and what it does not check *)



Section Creation_unchecked.

Variable lib : codec_library.







End Creation_unchecked.


(** ** What a session keeps of the caller's memory *)

Section References.

Variable lib : codec_library.

(** After any return of [decode_packet] the scratch packet still designates
    the caller's input buffer. *)
Lemma decode_packet_keeps_input state input_buf input_size output_buf
    out_frames out_sample_rate out_channels w r w' :
  decode_packet lib state input_buf input_size output_buf
    out_frames out_sample_rate out_channels w = Ok r w' ->
  exists s,
    objs w !! state = Some (ODecoder s) /\
    objs w' !! decoder_state.packet s
      = Some (OPacket (AVPacket.mk (PktBorrowed input_buf) input_size)) /\
    (r = 0 -> objs w' !! decoder_state.frame s = Some (OFrame AVFrame.blank)).
Proof.
  intros H. apply decode_packet_inv in H.
  destruct H as [s c k0 payload c1 r1 Hs0 Hs Hc Hk Hpay Hsend Hr1
                |s c k0 payload c1 r1 f0 c2 r2 fr Hs0 Hs Hc Hk Hf Hpay Hsend Hr1 Hrecv Hr2
                |s c k0 payload c1 r1 f0 c2 r2 fr w3 x1 x2 x3 Hs0 Hs Hc Hk Hf Hpay Hsend
                   Hr1 Hrecv Hr2 Hloop Ho1 Ho2 Ho3 Hx1 Hx2 Hx3];
    exists s; (split; [done|]).
  all: assert (decoder_state.ctx s <> decoder_state.packet s) as Hck
         by (eapply addr_neq; eauto; done).
  - split; [|lia]. unfold sent_world. cbn [objs].
    by rewrite lookup_insert_ne, lookup_insert_eq.
  - assert (decoder_state.frame s <> decoder_state.packet s) as Hfk
      by (eapply addr_neq; eauto; done).
    split; [|lia]. unfold received_world, sent_world. cbn [objs].
    by rewrite !lookup_insert_ne, lookup_insert_eq by done.
  - assert (decoder_state.frame s <> decoder_state.packet s) as Hfk
      by (eapply addr_neq; eauto; done).
    set (w2 := received_world (sent_world w s input_buf input_size c1 payload r1) s c2 r2 fr) in *.
    assert (objs w2 !! decoder_state.packet s
            = Some (OPacket (AVPacket.mk (PktBorrowed input_buf) input_size))) as Hk2.
    { unfold w2, received_world, sent_world. cbn [objs].
      by rewrite !lookup_insert_ne, lookup_insert_eq by done. }
    assert (objs w2 !! decoder_state.frame s = Some (OFrame fr)) as Hfr
      by (by apply received_world_frame).
    assert (objs w3 !! decoder_state.packet s
            = Some (OPacket (AVPacket.mk (PktBorrowed input_buf) input_size))) as Hk3.
    { destruct (interleave_loop_summary _ _ _ _ _ _ _ Hfr Hloop)
        as [[_ ->]|(_ & _ & l0 & Hout & _ & _ & Hinv)]; [done|].
      destruct Hinv as (_ & _ & Hoth & _). rewrite Hoth; [done|].
      intros E. rewrite E in Hk2. congruence. }
    destruct (out_params_apart out_frames out_sample_rate out_channels (objs w3)
                _ _ _ _ _ _ _ Hk3 ltac:(done) Hx1 Hx2 Hx3)
      as (? & ? & ?).
    split; unfold returned_world; cbn [objs].
    + by rewrite !lookup_insert_ne by done.
    + intros _. by rewrite lookup_insert_eq.
Qed.

(** What the scratch packet held before the call has no effect on it: the
    packet is reset before it is used. *)
Lemma decode_packet_ignores_stale state input_buf input_size output_buf
    out_frames out_sample_rate out_channels w s k0 k :
  state <> NULL -> objs w !! state = Some (ODecoder s) ->
  decoder_state.packet s <> NULL ->
  objs w !! decoder_state.packet s = Some (OPacket k0) ->
  decode_packet lib state input_buf input_size output_buf
    out_frames out_sample_rate out_channels
    (set_objs (<[decoder_state.packet s:=OPacket k]> (objs w)) w) =
  decode_packet lib state input_buf input_size output_buf
    out_frames out_sample_rate out_channels w.
Proof.
  intros Hs0 Hs Hk0 Hk.
  assert (decoder_state.packet s <> state) by (eapply addr_neq; eauto; done).
  unfold decode_packet, av_packet_unref.
  erewrite bind_run
    by (apply get_decoder_run; [done|]; unfold set_objs; cbn [objs];
        by rewrite lookup_insert_ne).
  erewrite (bind_run (get_decoder state)) by (by apply get_decoder_run).
  cbv beta.
  erewrite bind_run
    by (eapply upd_packet_run; [done|]; unfold set_objs; cbn [objs];
        by rewrite lookup_insert_eq).
  erewrite (bind_run (upd_packet _ _) _ w) by (by eapply upd_packet_run).
  unfold set_objs; cbn [objs oom trace]. by rewrite insert_insert_eq.
Qed.

(** An encode call leaves in the scratch packet what it found there, or
    nothing, or an owned buffer of the codec: never a borrowed address. *)
Lemma encode_samples_packet state input_buf num_frames output_buf output_buf_size
    w r w' :
  encode_samples lib state input_buf num_frames output_buf output_buf_size w = Ok r w' ->
  exists s,
    objs w !! state = Some (OEncoder s) /\
    forall k, objs w' !! encoder_state.packet s = Some (OPacket k) ->
      objs w !! encoder_state.packet s = Some (OPacket k) \/
      AVPacket.data k = PktNull \/ exists bs, AVPacket.data k = PktOwned bs.
Proof.
  intros H. apply encode_samples_inv in H.
  destruct H as [s f0 w3 f3 c c1 r1 Hs0 Hs Hf Hloop Hf3 Hc Hsend Hr1
                |s f0 w3 f3 c c1 r1 k0 c2 r2 bs Hs0 Hs Hf Hloop Hf3 Hc Hsend Hr1 Hk Hrecv Hr2
                |s f0 w3 f3 c c1 r1 k0 c2 r2 bs Hs0 Hs Hf Hloop Hf3 Hc Hsend Hr1 Hk Hrecv Hr2 Hbig
                |s f0 w3 f3 c c1 r1 k0 c2 r2 bs Hs0 Hs Hf Hloop Hf3 Hc Hsend Hr1 Hk Hrecv Hr2 Hfit Hout];
    exists s; (split; [done|]); intros k.
  - pose proof (deinterleave_loop_inv _ _ _ _ _ _ Hf _ Hloop) as (_ & Hoth & _ & _).
    unfold submitted_world. cbn [objs].
    destruct (decide (encoder_state.ctx s = encoder_state.packet s)) as [E|N1];
      [rewrite E, lookup_insert_eq; discriminate|].
    rewrite lookup_insert_ne by done.
    destruct (decide (encoder_state.frame s = encoder_state.packet s)) as [E|N2];
      [rewrite E, lookup_insert_eq; discriminate|].
    rewrite lookup_insert_ne by done. rewrite Hoth by done. auto.
  - unfold packed_world. cbn [objs]. rewrite lookup_insert_eq.
    destruct (r2 <? 0); intros [= <-]; cbn; eauto.
  - unfold packed_world. cbn [objs]. rewrite lookup_insert_eq.
    destruct (r2 <? 0); intros [= <-]; cbn; eauto.
  - assert (forall W, objs (copied_world W s output_buf bs) !! encoder_state.packet s
                      = Some (OPacket k) ->
                      W = packed_world
                            (submitted_world w3 s c1
                               (AVFrame.set_nb_samples num_frames f3) r1) s c2 r2 bs ->
                      AVPacket.data k = PktNull \/ exists bs', AVPacket.data k = PktOwned bs')
      as Hgen.
    { intros W Hl ->. revert Hl. unfold copied_world.
      destruct bs as [|b bs].
      - cbn [objs]. rewrite lookup_insert_eq. intros [= <-]. by left.
      - match goal with
        | |- context [match ?x with _ => _ end] => destruct x as [[]|] eqn:Eo
        end;
          try solve [unfold packed_world; cbn [objs]; rewrite lookup_insert_eq;
                     destruct (r2 <? 0); intros [= <-]; cbn; eauto]. }
    intros Hl. right. eapply Hgen; [exact Hl|reflexivity].
Qed.

End References.

(** C7, as the code has it.  [decode_packet] leaves the address and the
    size of the caller's input buffer in the scratch packet on every return;
    the next call resets the packet before using it, so what the packet held
    has no effect on any later call.  After a successful decode the scratch
    frame is blank.  [encode_samples] never puts a borrowed address into the
    scratch packet: it leaves there what it found, or nothing, or a buffer
    the codec owns. *)
Theorem session_references lib :
  (forall state input_buf input_size output_buf out_frames out_sample_rate
          out_channels w r w',
     decode_packet lib state input_buf input_size output_buf
       out_frames out_sample_rate out_channels w = Ok r w' ->
     exists s,
       objs w !! state = Some (ODecoder s) /\
       objs w' !! decoder_state.packet s
         = Some (OPacket (AVPacket.mk (PktBorrowed input_buf) input_size)) /\
       (r = 0 -> objs w' !! decoder_state.frame s = Some (OFrame AVFrame.blank))) /\
  (forall state input_buf input_size output_buf out_frames out_sample_rate
          out_channels w s k0 k,
     state <> NULL -> objs w !! state = Some (ODecoder s) ->
     decoder_state.packet s <> NULL ->
     objs w !! decoder_state.packet s = Some (OPacket k0) ->
     decode_packet lib state input_buf input_size output_buf
       out_frames out_sample_rate out_channels
       (set_objs (<[decoder_state.packet s:=OPacket k]> (objs w)) w) =
     decode_packet lib state input_buf input_size output_buf
       out_frames out_sample_rate out_channels w) /\
  (forall state input_buf num_frames output_buf output_buf_size w r w',
     encode_samples lib state input_buf num_frames output_buf output_buf_size w
       = Ok r w' ->
     exists s,
       objs w !! state = Some (OEncoder s) /\
       forall k, objs w' !! encoder_state.packet s = Some (OPacket k) ->
         objs w !! encoder_state.packet s = Some (OPacket k) \/
         AVPacket.data k = PktNull \/ exists bs, AVPacket.data k = PktOwned bs).
Proof.
  split; [intros; by eapply decode_packet_keeps_input|].
  split; [intros; by eapply decode_packet_ignores_stale|].
  intros; by eapply encode_samples_packet.
Qed.

(** ** The values a decoder falls back to *)

Section Fallback.

Variable lib : codec_library.

(** Whatever a decode call returns, the session struct is untouched and the
    context is the one the codec left. *)
Lemma decode_packet_context state input_buf input_size output_buf
    out_frames out_sample_rate out_channels w r w' :
  decode_packet lib state input_buf input_size output_buf
    out_frames out_sample_rate out_channels w = Ok r w' ->
  exists s c payload c1 r1,
    objs w !! state = Some (ODecoder s) /\
    objs w !! decoder_state.ctx s = Some (OContext c) /\
    send_packet lib c payload = (c1, r1) /\
    objs w' !! state = Some (ODecoder s) /\
    (objs w' !! decoder_state.ctx s = Some (OContext c1) \/
     exists c2 r2 fr, receive_frame lib c1 = (c2, r2, fr) /\
       objs w' !! decoder_state.ctx s = Some (OContext c2)).
Proof.
  intros H. apply decode_packet_inv in H.
  destruct H as [s c k0 payload c1 r1 Hs0 Hs Hc Hk Hpay Hsend Hr1
                |s c k0 payload c1 r1 f0 c2 r2 fr Hs0 Hs Hc Hk Hf Hpay Hsend Hr1 Hrecv Hr2
                |s c k0 payload c1 r1 f0 c2 r2 fr w3 x1 x2 x3 Hs0 Hs Hc Hk Hf Hpay Hsend
                   Hr1 Hrecv Hr2 Hloop Ho1 Ho2 Ho3 Hx1 Hx2 Hx3];
    exists s, c, payload, c1, r1; repeat (split; [done|]).
  all: assert (state <> decoder_state.ctx s) as Hsc by (eapply addr_neq; eauto; done).
  all: assert (state <> decoder_state.packet s) as Hsk by (eapply addr_neq; eauto; done).
  - split.
    + by rewrite sent_world_other.
    + left. unfold sent_world. cbn [objs]. by rewrite lookup_insert_eq.
  - assert (state <> decoder_state.frame s) as Hsf by (eapply addr_neq; eauto; done).
    assert (decoder_state.frame s <> decoder_state.ctx s) as Hfc
      by (eapply addr_neq; eauto; done).
    split.
    + by rewrite received_world_other.
    + right. exists c2, r2, fr. split; [done|]. unfold received_world. cbn [objs].
      by rewrite lookup_insert_ne, lookup_insert_eq.
  - assert (state <> decoder_state.frame s) as Hsf by (eapply addr_neq; eauto; done).
    assert (decoder_state.frame s <> decoder_state.ctx s) as Hfc
      by (eapply addr_neq; eauto; done).
    set (w2 := received_world (sent_world w s input_buf input_size c1 payload r1) s c2 r2 fr) in *.
    assert (objs w2 !! decoder_state.frame s = Some (OFrame fr)) as Hfr
      by (by apply received_world_frame).
    assert (objs w2 !! state = Some (ODecoder s)) as Hs2
      by (unfold w2; by rewrite received_world_other).
    assert (objs w2 !! decoder_state.ctx s = Some (OContext c2)) as Hc2.
    { unfold w2, received_world. cbn [objs].
      by rewrite lookup_insert_ne, lookup_insert_eq. }
    assert (objs w3 !! state = Some (ODecoder s) /\
            objs w3 !! decoder_state.ctx s = Some (OContext c2)) as [Hs3 Hc3].
    { destruct (interleave_loop_summary _ _ _ _ _ _ _ Hfr Hloop)
        as [[_ ->]|(_ & _ & l0 & Hout & _ & _ & Hinv)]; [done|].
      destruct Hinv as (_ & _ & Hoth & _).
      rewrite !Hoth; [done| |]; intros E; rewrite E in *; congruence. }
    destruct (out_params_apart out_frames out_sample_rate out_channels (objs w3)
                _ _ _ _ _ _ _ Hs3 ltac:(done) Hx1 Hx2 Hx3) as (? & ? & ?).
    destruct (out_params_apart out_frames out_sample_rate out_channels (objs w3)
                _ _ _ _ _ _ _ Hc3 ltac:(done) Hx1 Hx2 Hx3) as (? & ? & ?).
    split; [|right; exists c2, r2, fr; split; [done|]];
      unfold returned_world; cbn [objs]; by rewrite !lookup_insert_ne by done.
Qed.

Lemma flush_decoder_context state w u w' s c :
  flush_decoder lib state w = Ok u w' ->
  state <> NULL -> objs w !! state = Some (ODecoder s) ->
  decoder_state.ctx s <> NULL ->
  objs w !! decoder_state.ctx s = Some (OContext c) ->
  objs w' !! state = Some (ODecoder s) /\
  objs w' !! decoder_state.ctx s = Some (OContext (flush_buffers lib c)).
Proof.
  intros H Hs0 Hs Hc0 Hc. revert H. unfold flush_decoder.
  destruct (Z.eqb_spec state NULL); [done|].
  erewrite bind_run by fwd. cbv beta.
  destruct (Z.eqb_spec (decoder_state.ctx s) NULL); [done|].
  unfold avcodec_flush_buffers.
  erewrite bind_run by (by eapply upd_ctx_run).
  assert (state <> decoder_state.ctx s) by (eapply addr_neq; eauto; done).
  intros [= _ <-]. unfold log_event, set_objs. cbn [objs].
  by rewrite lookup_insert_ne, lookup_insert_eq.
Qed.

Lemma init_decoder_config codec_id sample_rate channels w p w' :
  keeps_config lib ->
  init_decoder lib codec_id sample_rate channels w = Ok p w' -> p <> NULL ->
  session_config w' p sample_rate channels.
Proof.
  intros (Hopen & _) H Hp.
  apply init_decoder_spec in H as [[-> _]|(s & codec & c & r & _ & Ho & _ & _ & _
                                           & Hs & _ & _ & Hc & _)]; [done|].
  exists s, c. repeat (split; [done|]).
  destruct (Hopen _ _ _ _ Ho) as [-> ->]. done.
Qed.

Lemma decode_packet_config state input_buf input_size output_buf
    out_frames out_sample_rate out_channels sr ch w r w' :
  keeps_config lib ->
  session_config w state sr ch ->
  decode_packet lib state input_buf input_size output_buf
    out_frames out_sample_rate out_channels w = Ok r w' ->
  session_config w' state sr ch.
Proof.
  intros (_ & Hsend & Hrecv & _) (s & c & Hs & Hc & Hsr & Hch) H.
  apply decode_packet_context in H
    as (s' & c' & payload & c1 & r1 & Hs' & Hc' & Es & Hs2 & Hctx).
  rewrite Hs in Hs'. injection Hs' as <-. rewrite Hc in Hc'. injection Hc' as <-.
  destruct (Hsend _ _ _ _ Es) as [E1 E2].
  destruct Hctx as [Hc1|(c2 & r2 & fr & Er & Hc2)].
  - exists s, c1. repeat (split; [done|]). split; congruence.
  - destruct (Hrecv _ _ _ _ Er) as [E3 E4].
    exists s, c2. repeat (split; [done|]). split; congruence.
Qed.

Lemma flush_decoder_config state sr ch w u w' :
  keeps_config lib ->
  session_config w state sr ch ->
  flush_decoder lib state w = Ok u w' ->
  session_config w' state sr ch.
Proof.
  intros (_ & _ & _ & Hflush) (s & c & Hs & Hc & Hsr & Hch) H.
  destruct (Z.eqb_spec state NULL) as [E|Hs0].
  { revert H. unfold flush_decoder. rewrite E. intros [= _ <-].
    exists s, c. by rewrite E in Hs. }
  destruct (Z.eqb_spec (decoder_state.ctx s) NULL) as [E|Hc0].
  { revert H. unfold flush_decoder. destruct (Z.eqb_spec state NULL); [done|].
    erewrite bind_run by fwd. cbv beta. rewrite E. intros [= _ <-].
    by exists s, c. }
  destruct (flush_decoder_context _ _ _ _ _ _ H Hs0 Hs Hc0 Hc) as [Hs' Hc'].
  exists s, (flush_buffers lib c). repeat (split; [done|]).
  destruct (Hflush c) as [-> ->]. done.
Qed.

End Fallback.

(** C3, as the code has it.  When [decode_packet] returns 0, the sample
    rate it reports for a frame without sample rate, and the channel count
    it reports for a frame without channel count, are those of the session's
    codec context as the codec left it on returning the frame.
    [init_decoder] writes its arguments into that context and the bridge
    never writes them again: with a codec library that leaves the two fields
    alone, they hold the arguments of [init_decoder] after creation and after
    every later decode or flush call, and a frame without sample rate (resp.
    channel count) is reported with the sample rate (resp. channel count)
    given at creation. *)
Theorem decode_packet_fallback lib :
  (forall state input_buf input_size output_buf out_frames out_sample_rate
          out_channels w w',
     decode_packet lib state input_buf input_size output_buf
       out_frames out_sample_rate out_channels w = Ok 0 w' ->
     exists s c payload c1 r1 c2 r2 fr stores,
       objs w !! state = Some (ODecoder s) /\
       objs w !! decoder_state.ctx s = Some (OContext c) /\
       payload_of w input_buf input_size = Some payload /\
       send_packet lib c payload = (c1, r1) /\
       receive_frame lib c1 = (c2, r2, fr) /\
       objs w' !! decoder_state.ctx s = Some (OContext c2) /\
       trace w' = trace w ++ [EvSendPacket payload r1; EvReceiveFrame r2 fr] ++ stores
                    ++ [EvStoreI out_frames (AVFrame.nb_samples fr);
                        EvStoreI out_sample_rate
                          (if AVFrame.sample_rate fr =? 0
                           then AVCodecContext.sample_rate c2
                           else AVFrame.sample_rate fr);
                        EvStoreI out_channels
                          (if AVFrame.nb_channels fr =? 0
                           then AVCodecContext.nb_channels c2
                           else AVFrame.nb_channels fr)]) /\
  (keeps_config lib ->
   (forall codec_id sr ch w p w',
      init_decoder lib codec_id sr ch w = Ok p w' -> p <> NULL ->
      session_config w' p sr ch) /\
   (forall state input_buf input_size output_buf out_frames out_sample_rate
           out_channels sr ch w r w',
      session_config w state sr ch ->
      decode_packet lib state input_buf input_size output_buf
        out_frames out_sample_rate out_channels w = Ok r w' ->
      session_config w' state sr ch) /\
   (forall state sr ch w u w',
      session_config w state sr ch ->
      flush_decoder lib state w = Ok u w' ->
      session_config w' state sr ch) /\
   (forall state input_buf input_size output_buf out_frames out_sample_rate
           out_channels sr ch w w',
      session_config w state sr ch ->
      decode_packet lib state input_buf input_size output_buf
        out_frames out_sample_rate out_channels w = Ok 0 w' ->
      exists payload r1 r2 fr stores,
        trace w' = trace w ++ [EvSendPacket payload r1; EvReceiveFrame r2 fr] ++ stores
                     ++ [EvStoreI out_frames (AVFrame.nb_samples fr);
                         EvStoreI out_sample_rate
                           (if AVFrame.sample_rate fr =? 0 then sr
                            else AVFrame.sample_rate fr);
                         EvStoreI out_channels
                           (if AVFrame.nb_channels fr =? 0 then ch
                            else AVFrame.nb_channels fr)])).
Proof.
  split.
  { intros * H. by apply decode_packet_reports in H. }
  intros Hk. split; [intros; by eapply init_decoder_config|].
  split; [intros; by eapply decode_packet_config|].
  split; [intros; by eapply flush_decoder_config|].
  intros * Hcfg H.
  apply decode_packet_reports in H
    as (s & c & payload & c1 & r1 & c2 & r2 & fr & stores
        & Hs & Hc & _ & Es & Er & Hc2 & Htr).
  destruct Hcfg as (s0 & c0 & Hs0 & Hc0 & Hsr & Hch).
  rewrite Hs in Hs0. injection Hs0 as <-. rewrite Hc in Hc0. injection Hc0 as <-.
  destruct Hk as (_ & Hsend & Hrecv & _).
  destruct (Hsend _ _ _ _ Es) as [E1 E2]. destruct (Hrecv _ _ _ _ Er) as [E3 E4].
  exists payload, r1, r2, fr, stores. rewrite Htr.
  unfold reported_rate, reported_channels. by rewrite E3, E4, E1, E2, Hsr, Hch.
Qed.

(** ** Calls that run to the end *)

Section Loops_total.

Lemma iter_from_total (P : Z -> world -> Prop) (body : Z -> M unit) n i w :
  P i w ->
  (forall j w1, i <= j < i + Z.of_nat n -> P j w1 ->
     exists w2, body j w1 = Ok tt w2 /\ P (j + 1) w2) ->
  exists w', iter_from i n body w = Ok tt w' /\ P (i + Z.of_nat n) w'.
Proof.
  revert i w. induction n as [|n IH]; intros i w HP Hstep.
  - exists w. split; [done|]. by replace (i + Z.of_nat 0) with i by lia.
  - destruct (Hstep i w ltac:(lia) HP) as (w1 & Hb & HP1).
    destruct (IH (i + 1) w1 HP1) as (w' & Hrun & HP').
    { intros j wa Hj. apply Hstep. lia. }
    exists w'. cbn [iter_from]. rewrite (bind_run _ _ _ _ _ Hb).
    split; [done|]. by replace (i + Z.of_nat (S n)) with (i + 1 + Z.of_nat n) by lia.
Qed.

Lemma for_lt_total (P : world -> Prop) (body : Z -> M unit) hi w :
  P w ->
  (forall j w1, 0 <= j < hi -> P w1 -> exists w2, body j w1 = Ok tt w2 /\ P w2) ->
  exists w', for_lt hi body w = Ok tt w' /\ P w'.
Proof.
  intros HP Hstep. unfold for_lt.
  destruct (iter_from_total (fun _ => P) body (Z.to_nat hi) 0 w HP) as (w' & H & HP').
  { intros j w1 Hj. apply Hstep. lia. }
  eauto.
Qed.

(** The copy loop of the decoder runs to the end when the frame has the
    samples and the output buffer has the room. *)
Lemma interleave_loop_runs fp out F C fr w l0 :
  fp <> NULL -> out <> NULL ->
  objs w !! fp = Some (OFrame fr) ->
  objs w !! out = Some (OFloats l0) ->
  F * C <= Z.of_nat (length l0) -> F * C <= 2 ^ 31 ->
  frame_holds fr F C ->
  exists w3, interleave_loop fp out F C w = Ok tt w3 /\
    oom w3 = oom w /\
    (forall p, p <> out -> objs w3 !! p = objs w !! p) /\
    exists l, objs w3 !! out = Some (OFloats l).
Proof.
  intros Hfp0 Hout0 Hfp Hout Hlen Hsmall Hfr.
  assert (fp <> out) as Hne by (eapply addr_neq; eauto; done).
  set (Q := fun w' : world =>
              oom w' = oom w /\
              (forall p, p <> out -> objs w' !! p = objs w !! p) /\
              exists l, objs w' !! out = Some (OFloats l) /\ length l = length l0).
  assert (Q w) as HQ by (repeat split; eauto).
  unfold interleave_loop.
  destruct (for_lt_total Q
              (fun i => for_lt C (fun ch => interleave_body fp out C i ch)) F w HQ)
    as (w3 & Hrun & (Ho & Hoth & l & Hl & _)); [|by eauto 10].
  intros i w1 Hi HQ1.
  apply (for_lt_total Q); [done|].
  intros ch w2 Hch (Ho2 & Hoth2 & l2 & Hl2 & Hlen2).
  destruct (Hfr i ch Hi Hch) as [v Hv].
  unfold sample in Hv. destruct (Z.ltb_spec ch 0); [lia|].
  destruct (Z.ltb_spec i 0); [lia|]. cbn [orb] in Hv.
  destruct (AVFrame.extended_data fr !! Z.to_nat ch) as [plane|] eqn:Hp; [|done].
  assert (i * C + ch < F * C) by nia.
  assert (wrap32 (wrap32 (i * C) + ch) = i * C + ch) as Hex
    by (apply index32_exact; lia).
  eexists. split.
  - unfold interleave_body.
    erewrite bind_run by (apply get_frame_run; [done|]; by rewrite Hoth2).
    erewrite bind_run by (apply at_index_run; [lia|done]).
    erewrite bind_run by (apply at_index_run; [lia|done]).
    rewrite Hex. apply store_float_run; [done|done|nia].
  - unfold Q. cbn [objs oom]. split; [done|].
    split; [intros p Hp'; by rewrite lookup_insert_ne by done; apply Hoth2|].
    eexists. rewrite lookup_insert_eq. split; [done|]. by rewrite length_insert.
Qed.

(** The copy loop of the encoder runs to the end when the input has the
    samples and the planes have the room. *)
Lemma deinterleave_loop_runs fp inp n f0 w l :
  fp <> NULL -> inp <> NULL ->
  objs w !! fp = Some (OFrame f0) ->
  objs w !! inp = Some (OFloats l) ->
  n * AVFrame.nb_channels f0 <= Z.of_nat (length l) ->
  n * AVFrame.nb_channels f0 <= 2 ^ 31 ->
  planes_hold f0 n ->
  exists w3, deinterleave_loop fp inp n (AVFrame.nb_channels f0) w = Ok tt w3.
Proof.
  intros Hfp0 Hinp0 Hfp Hinp Hlen Hsmall Hpl.
  assert (fp <> inp) as Hne by (eapply addr_neq; eauto; done).
  set (C := AVFrame.nb_channels f0) in *.
  set (Q := fun w' : world =>
              objs w' !! inp = Some (OFloats l) /\
              exists planes,
                objs w' !! fp = Some (OFrame (AVFrame.set_extended_data planes f0)) /\
                forall ch, 0 <= ch < C ->
                  exists plane, planes !! Z.to_nat ch = Some plane /\
                                n <= Z.of_nat (length plane)).
  assert (Q w) as HQ.
  { split; [done|]. exists (AVFrame.extended_data f0). split; [|done].
    rewrite Hfp. by destruct f0. }
  unfold deinterleave_loop.
  destruct (for_lt_total Q
              (fun ch => for_lt n (fun i => deinterleave_body fp inp C ch i)) C w HQ)
    as (w3 & Hrun & _); [|by eauto].
  intros ch w1 Hch HQ1.
  apply (for_lt_total Q); [done|].
  intros i w2 Hi (Hl2 & planes & Hf2 & Hpl2).
  destruct (Hpl2 ch Hch) as (plane & Hp & Hroom).
  assert (i * C + ch < n * C) by nia.
  assert (wrap32 (wrap32 (i * C) + ch) = i * C + ch) as Hex
    by (apply index32_exact; lia).
  destruct (lookup_lt_is_Some_2 l (Z.to_nat (i * C + ch))) as [v Hv]; [nia|].
  eexists. split.
  - unfold deinterleave_body. rewrite Hex.
    erewrite bind_run by (eapply load_float_run; [done|done|nia|done]).
    eapply store_plane_run; [done|cbn [objs]; exact Hf2|lia|exact Hp|lia].
  - unfold Q, set_objs. cbn [objs].
    split; [by rewrite lookup_insert_ne|].
    eexists. rewrite lookup_insert_eq. split; [reflexivity|].
    intros ch' Hch'. cbn [AVFrame.extended_data AVFrame.set_extended_data].
    destruct (decide (ch' = ch)) as [->|Hne'].
    + eexists. rewrite list_lookup_insert_eq by (by eapply lookup_lt_Some).
      split; [done|]. by rewrite length_insert.
    + rewrite list_lookup_insert_ne by lia. by apply Hpl2.
Qed.

End Loops_total.

Section Decode_total.

Variable lib : codec_library.

(** A decode call on a ready session runs to the end and returns 0 when
    the codec accepts the packet and hands out a frame, and the output
    buffer has room for the [F * C] samples of that frame. *)
Lemma decode_packet_runs state input_buf input_size output_buf
    out_frames out_sample_rate out_channels w s c payload c1 r1 c2 r2 fr l x1 x2 x3 :
  decoder_ready w state s c ->
  payload_of w input_buf input_size = Some payload ->
  send_packet lib c payload = (c1, r1) -> 0 <= r1 ->
  receive_frame lib c1 = (c2, r2, fr) -> 0 <= r2 ->
  frame_holds fr (AVFrame.nb_samples fr) (reported_channels c2 fr) ->
  output_buf <> NULL -> objs w !! output_buf = Some (OFloats l) ->
  AVFrame.nb_samples fr * reported_channels c2 fr <= Z.of_nat (length l) ->
  AVFrame.nb_samples fr * reported_channels c2 fr <= 2 ^ 31 ->
  out_frames <> NULL -> objs w !! out_frames = Some (OInt x1) ->
  out_sample_rate <> NULL -> objs w !! out_sample_rate = Some (OInt x2) ->
  out_channels <> NULL -> objs w !! out_channels = Some (OInt x3) ->
  exists w', decode_packet lib state input_buf input_size output_buf
               out_frames out_sample_rate out_channels w = Ok 0 w'.
Proof.
  intros (Hs0 & Hs & Hc0 & Hc & Hf0 & (f0 & Hf) & Hk0 & (k0 & Hk))
         Hpay Hsend Hr1 Hrecv Hr2 Hfr Ho0 Ho Hlen Hsmall Ha0 Ha Hb0 Hb Hd0 Hd.
  assert (decoder_state.ctx s <> decoder_state.packet s)
    by (eapply (addr_neq (objs w)); [exact Hc|exact Hk|done]).
  assert (decoder_state.frame s <> decoder_state.packet s)
    by (eapply (addr_neq (objs w)); [exact Hf|exact Hk|done]).
  assert (decoder_state.frame s <> decoder_state.ctx s)
    by (eapply (addr_neq (objs w)); [exact Hf|exact Hc|done]).
  assert (forall p o, caller_owned o -> objs w !! p = Some o ->
            p <> decoder_state.ctx s /\ p <> decoder_state.packet s /\
            p <> decoder_state.frame s) as Hcaller.
  { intros p o Hown Hp. repeat split; intros ->; rewrite Hp in *; simplify_eq;
      by cbn in Hown. }
  destruct (Hcaller _ (OFloats l) I Ho) as (? & ? & ?).
  destruct (Hcaller _ (OInt x1) I Ha) as (? & ? & ?).
  destruct (Hcaller _ (OInt x2) I Hb) as (? & ? & ?).
  destruct (Hcaller _ (OInt x3) I Hd) as (? & ? & ?).
  erewrite decode_packet_submits by eassumption.
  destruct (Z.ltb_spec r1 0) as [Hlt|_]; [exfalso; clear -Hlt Hr1; lia|].
  erewrite bind_run; cycle 1.
  { eapply avcodec_receive_frame_run; [done| |done| |exact Hrecv];
      unfold sent_world; cbn [objs].
    - by rewrite lookup_insert_eq.
    - rewrite !lookup_insert_ne by done. exact Hf. }
  destruct (Z.ltb_spec r2 0) as [Hlt|_]; [exfalso; clear -Hlt Hr2; lia|].
  set (w2 := mkWorld _ _ _).
  assert (objs w2 !! decoder_state.frame s = Some (OFrame fr)) as Hf2
    by (unfold w2; cbn [objs]; by rewrite lookup_insert_eq).
  assert (objs w2 !! decoder_state.ctx s = Some (OContext c2)) as Hc2
    by (unfold w2; cbn [objs]; by rewrite lookup_insert_ne, lookup_insert_eq).
  assert (forall p, p <> decoder_state.ctx s -> p <> decoder_state.packet s ->
            p <> decoder_state.frame s -> objs w2 !! p = objs w !! p) as Hkeep.
  { intros p ? ? ?. unfold w2, sent_world. cbn [objs].
    by rewrite !lookup_insert_ne. }
  erewrite bind_run by (by apply get_frame_run).
  erewrite bind_run by (by apply get_ctx_run).
  destruct (interleave_loop_runs (decoder_state.frame s) output_buf
              (AVFrame.nb_samples fr) (reported_channels c2 fr) fr w2 l)
    as (w3 & Hloop & _ & Hoth & (l3 & Hl3)); try done.
  { by rewrite Hkeep. }
  erewrite bind_run by exact Hloop.
  assert (out_frames <> output_buf) by (eapply (addr_neq (objs w)); eauto; done).
  assert (out_sample_rate <> output_buf) by (eapply (addr_neq (objs w)); eauto; done).
  assert (out_channels <> output_buf) by (eapply (addr_neq (objs w)); eauto; done).
  erewrite bind_run by (eapply store_int_run; [done|]; rewrite Hoth, Hkeep by done; eauto).
  match goal with
  | |- context [bind (store_int out_sample_rate _) _ ?W] =>
      assert (exists y, objs W !! out_sample_rate = Some (OInt y)) as [y2 Hy2]
  end.
  { cbn [objs]. destruct (decide (out_sample_rate = out_frames)) as [->|].
    - rewrite lookup_insert_eq. eauto.
    - rewrite lookup_insert_ne, Hoth, Hkeep by done. eauto. }
  erewrite bind_run by (eapply store_int_run; [done|exact Hy2]).
  match goal with
  | |- context [bind (store_int out_channels _) _ ?W] =>
      assert (exists y, objs W !! out_channels = Some (OInt y)) as [y3 Hy3]
  end.
  { cbn [objs]. destruct (decide (out_channels = out_sample_rate)) as [->|].
    - rewrite lookup_insert_eq. eauto.
    - rewrite lookup_insert_ne by done.
      destruct (decide (out_channels = out_frames)) as [->|].
      + rewrite lookup_insert_eq. eauto.
      + rewrite lookup_insert_ne, Hoth, Hkeep by done. eauto. }
  erewrite bind_run by (eapply store_int_run; [done|exact Hy3]).
  unfold av_frame_unref.
  erewrite bind_run; cycle 1.
  { eapply upd_frame_run; [done|]. cbn [objs].
    rewrite !lookup_insert_ne, Hoth by done. exact Hf2. }
  by eexists.
Qed.

End Decode_total.

Section Encode_total.

Variable lib : codec_library.

Lemma avcodec_send_frame_run ctx frame w c f c1 r :
  ctx <> NULL -> objs w !! ctx = Some (OContext c) ->
  frame <> NULL -> objs w !! frame = Some (OFrame f) ->
  send_frame lib c f = (c1, r) ->
  avcodec_send_frame lib ctx frame w =
    Ok r (mkWorld (<[ctx:=OContext c1]> (objs w)) (oom w)
                  (trace w ++ [EvSendFrame f r])).
Proof.
  intros Hc0 Hc Hf0 Hf Hsend. unfold avcodec_send_frame.
  erewrite bind_run by (by apply get_ctx_run).
  erewrite bind_run by (by apply get_frame_run).
  cbv beta. rewrite Hsend.
  erewrite bind_run by (apply assign_run; eauto). reflexivity.
Qed.

Lemma avcodec_receive_packet_run ctx packet w c k c2 r bs :
  ctx <> NULL -> objs w !! ctx = Some (OContext c) ->
  packet <> NULL -> objs w !! packet = Some (OPacket k) ->
  receive_packet lib c = (c2, r, bs) ->
  avcodec_receive_packet lib ctx packet w =
    Ok r (mkWorld
            (<[packet:=OPacket (if r <? 0 then AVPacket.blank
                                else AVPacket.mk (PktOwned bs) (Z.of_nat (length bs)))]>
               (<[ctx:=OContext c2]> (objs w)))
            (oom w) (trace w ++ [EvReceivePacket r bs])).
Proof.
  intros Hc0 Hc Hk0 Hk Hrecv. unfold avcodec_receive_packet, av_packet_unref.
  assert (packet <> ctx) by (eapply addr_neq; eauto; done).
  erewrite bind_run by (by apply get_ctx_run).
  erewrite bind_run by (by eapply upd_packet_run).
  cbv beta. rewrite Hrecv.
  erewrite bind_run by (apply assign_run; [done|]; unfold set_objs; cbn [objs];
                         rewrite lookup_insert_ne by done; eauto).
  destruct (r <? 0) eqn:Er.
  - erewrite bind_run by reflexivity. cbv beta.
    erewrite bind_run by reflexivity. unfold pure. f_equal. world_eq.
  - erewrite bind_run by (apply assign_run; [done|]; unfold set_objs; cbn [objs];
                           rewrite lookup_insert_ne, lookup_insert_eq by done; eauto).
    erewrite bind_run by reflexivity. unfold pure. f_equal. world_eq.
Qed.

(** An encode call on a ready session runs to the end when the input has
    the [n * C] samples, the planes of the scratch frame have room for [n]
    samples each, and the output buffer is as long as the capacity passed. *)
Lemma encode_samples_runs state input_buf num_frames output_buf output_buf_size
    w s c f0 l lo :
  encoder_ready w state s c f0 ->
  planes_hold f0 num_frames ->
  input_buf <> NULL -> objs w !! input_buf = Some (OFloats l) ->
  num_frames * AVFrame.nb_channels f0 <= Z.of_nat (length l) ->
  num_frames * AVFrame.nb_channels f0 <= 2 ^ 31 ->
  output_buf <> NULL -> objs w !! output_buf = Some (OBytes lo) ->
  output_buf_size <= Z.of_nat (length lo) ->
  exists r w', encode_samples lib state input_buf num_frames output_buf
                 output_buf_size w = Ok r w'.
Proof.
  intros (Hs0 & Hs & Hc0 & Hc & Hf0 & Hf & Hk0 & (k0 & Hk))
         Hpl Hi0 Hi Hlen Hsmall Ho0 Ho Hcap.
  assert (encoder_state.ctx s <> encoder_state.packet s)
    by (eapply (addr_neq (objs w)); [exact Hc|exact Hk|done]).
  assert (encoder_state.frame s <> encoder_state.packet s)
    by (eapply (addr_neq (objs w)); [exact Hf|exact Hk|done]).
  assert (encoder_state.frame s <> encoder_state.ctx s)
    by (eapply (addr_neq (objs w)); [exact Hf|exact Hc|done]).
  assert (output_buf <> encoder_state.ctx s)
    by (eapply (addr_neq (objs w)); [exact Ho|exact Hc|done]).
  assert (output_buf <> encoder_state.packet s)
    by (eapply (addr_neq (objs w)); [exact Ho|exact Hk|done]).
  assert (output_buf <> encoder_state.frame s)
    by (eapply (addr_neq (objs w)); [exact Ho|exact Hf|done]).
  destruct (deinterleave_loop_runs (encoder_state.frame s) input_buf num_frames
              f0 w l) as (w3 & Hloop); try done.
  pose proof (deinterleave_loop_inv _ _ _ _ _ _ Hf _ Hloop)
    as (_ & Hoth & (planes & Hf3) & _).
  clear Hlen Hsmall Hpl.
  unfold encode_samples, memcpy.
  erewrite bind_run by (by apply get_encoder_run).
  erewrite bind_run by (by apply get_frame_run).
  change (for_lt (AVFrame.nb_channels f0) _)
    with (deinterleave_loop (encoder_state.frame s) input_buf num_frames
            (AVFrame.nb_channels f0)).
  erewrite bind_run by exact Hloop.
  erewrite bind_run by (by eapply upd_frame_run).
  destruct (send_frame lib c
              (AVFrame.set_nb_samples num_frames (AVFrame.set_extended_data planes f0)))
    as [c1 r1] eqn:Es.
  erewrite bind_run; cycle 1.
  { eapply avcodec_send_frame_run; [done| |done| |exact Es]; unfold set_objs; cbn [objs].
    - rewrite lookup_insert_ne, Hoth by done. exact Hc.
    - by rewrite lookup_insert_eq. }
  destruct (r1 <? 0); [by eexists _, _|].
  destruct (receive_packet lib c1) as [[c2 r2] bs] eqn:Er.
  erewrite bind_run; cycle 1.
  { eapply avcodec_receive_packet_run; [done| |done| |exact Er]; unfold set_objs; cbn [objs].
    - by rewrite lookup_insert_eq.
    - rewrite !lookup_insert_ne, Hoth by done. exact Hk. }
  destruct (r2 <? 0); [by eexists _, _|].
  erewrite bind_run by (apply get_packet_run; [done|]; cbn [objs];
                         by rewrite lookup_insert_eq).
  cbn [AVPacket.size AVPacket.data].
  destruct (Z.of_nat (length bs) >? output_buf_size) eqn:Ecap; [by eexists _, _|].
  assert (length bs <= length lo)%nat as Hroom by (clear -Ecap Hcap; lia).
  clear Ecap Hcap.
  assert (packet_bytes (AVPacket.mk (PktOwned bs) (Z.of_nat (length bs))) =
          pure bs) as ->.
  { unfold packet_bytes. cbn [AVPacket.size AVPacket.data].
    destruct (Z.leb_spec 0 (Z.of_nat (length bs))); [|lia].
    destruct (Z.leb_spec (Z.of_nat (length bs)) (Z.of_nat (length bs))); [|lia].
    cbn [andb]. by rewrite Nat2Z.id, firstn_all. }
  match goal with
  | |- context [bind (bind (pure bs) _) _ ?W] =>
      assert (exists w6, store_bytes output_buf bs W = Ok tt w6 /\
                objs w6 !! encoder_state.packet s =
                  Some (OPacket (AVPacket.mk (PktOwned bs) (Z.of_nat (length bs)))))
        as (w6 & Hcopy & Hk6)
  end.
  { unfold store_bytes. destruct bs as [|b bs'].
    - eexists. split; [reflexivity|]. cbn [objs]. by rewrite lookup_insert_eq.
    - erewrite bind_run by (apply deref_run; [done|]; unfold set_objs; cbn [objs];
                             rewrite !lookup_insert_ne, Hoth by done; exact Ho).
      cbv beta iota. apply Nat.leb_le in Hroom. rewrite Hroom.
      erewrite bind_run by (apply assign_run; [done|]; unfold set_objs; cbn [objs];
                             rewrite !lookup_insert_ne, Hoth by done; eauto).
      eexists. split; [reflexivity|]. unfold set_objs. cbn [objs].
      by rewrite lookup_insert_ne, lookup_insert_eq. }
  erewrite bind_run by (erewrite bind_run by apply pure_run; exact Hcopy).
  erewrite bind_run by (by apply get_packet_run).
  unfold av_packet_unref.
  erewrite bind_run by (by eapply upd_packet_run).
  by eexists _, _.
Qed.

End Encode_total.

(** C10.  When [decode_packet] returns 0 with frame count [F] and channel
    count [C], every store to a float goes to the caller's output buffer at
    an index in [0, F * C); the buffer keeps its length and its elements from
    index [F * C] on; every other buffer of the caller, apart from the three
    out-parameters, is as it was.  And a buffer of [F * C] floats is enough:
    on a ready session, when the codec accepts the packet and hands out a
    frame that has its [F * C] samples, with [F * C] in the range of the
    index arithmetic, the call runs to the end and returns 0. *)
Theorem decode_packet_write_bound lib :
  (forall state input_buf input_size output_buf out_frames out_sample_rate
          out_channels w w',
     decode_packet lib state input_buf input_size output_buf
       out_frames out_sample_rate out_channels w = Ok 0 w' ->
     exists payload r1 r2 fr stores F SR C,
       trace w' = trace w ++ [EvSendPacket payload r1; EvReceiveFrame r2 fr] ++ stores
                    ++ [EvStoreI out_frames F; EvStoreI out_sample_rate SR;
                        EvStoreI out_channels C] /\
       Forall (store_within output_buf (F * C)) stores /\
       (stores <> [] ->
        exists l, objs w !! output_buf = Some (OFloats l) /\
                  F * C <= Z.of_nat (length l)) /\
       (forall l, objs w !! output_buf = Some (OFloats l) ->
          exists l', objs w' !! output_buf = Some (OFloats l') /\
            length l' = length l /\
            forall j : nat, F * C <= Z.of_nat j -> l' !! j = l !! j) /\
       (forall p o, objs w !! p = Some o -> caller_owned o ->
          p <> output_buf -> p <> out_frames -> p <> out_sample_rate ->
          p <> out_channels -> objs w' !! p = Some o)) /\
  (forall state input_buf input_size output_buf out_frames out_sample_rate
          out_channels w s c payload c1 r1 c2 r2 fr l x1 x2 x3,
     decoder_ready w state s c ->
     payload_of w input_buf input_size = Some payload ->
     send_packet lib c payload = (c1, r1) -> 0 <= r1 ->
     receive_frame lib c1 = (c2, r2, fr) -> 0 <= r2 ->
     frame_holds fr (AVFrame.nb_samples fr) (reported_channels c2 fr) ->
     output_buf <> NULL -> objs w !! output_buf = Some (OFloats l) ->
     Z.of_nat (length l) = AVFrame.nb_samples fr * reported_channels c2 fr ->
     AVFrame.nb_samples fr * reported_channels c2 fr <= 2 ^ 31 ->
     out_frames <> NULL -> objs w !! out_frames = Some (OInt x1) ->
     out_sample_rate <> NULL -> objs w !! out_sample_rate = Some (OInt x2) ->
     out_channels <> NULL -> objs w !! out_channels = Some (OInt x3) ->
     exists w', decode_packet lib state input_buf input_size output_buf
                  out_frames out_sample_rate out_channels w = Ok 0 w').
Proof.
  split.
  - intros * H. by apply decode_packet_confined in H.
  - intros * Hready Hpay Hsend Hr1 Hrecv Hr2 Hfr Ho0 Ho Hlen Hsmall
           Ha0 Ha Hb0 Hb Hd0 Hd.
    eapply decode_packet_runs; try eassumption. rewrite Hlen. reflexivity.
Qed.

(** C8.  In a call with frame count [n] on a session whose scratch frame
    has [C] channels, every load from the input is the load of sample [i] of
    channel [ch] for some [0 <= i < n] and [0 <= ch < C], at an index in
    [0, n * C); all loads come before the submission, and the frame
    submitted to the encoder has its sample count set to [n].  And the [n * C]
    samples supplied are enough: on a ready session whose planes have room
    for [n] samples, whatever the nominal frame size, the call runs to the
    end. *)
Theorem encode_samples_read_bound lib :
  (forall state input_buf num_frames output_buf output_buf_size w r w',
     encode_samples lib state input_buf num_frames output_buf output_buf_size w
       = Ok r w' ->
     exists s f0 loads fr r1 rest,
       objs w !! state = Some (OEncoder s) /\
       objs w !! encoder_state.frame s = Some (OFrame f0) /\
       events_since w w' = loads ++ EvSendFrame fr r1 :: rest /\
       Forall (load_within input_buf num_frames (AVFrame.nb_channels f0)) loads /\
       Forall (fun e => forall p i, e <> EvLoadF p i) rest /\
       AVFrame.nb_samples fr = num_frames) /\
  (forall state input_buf num_frames output_buf output_buf_size w s c f0 l lo,
     encoder_ready w state s c f0 ->
     planes_hold f0 num_frames ->
     input_buf <> NULL -> objs w !! input_buf = Some (OFloats l) ->
     Z.of_nat (length l) = num_frames * AVFrame.nb_channels f0 ->
     num_frames * AVFrame.nb_channels f0 <= 2 ^ 31 ->
     output_buf <> NULL -> objs w !! output_buf = Some (OBytes lo) ->
     output_buf_size <= Z.of_nat (length lo) ->
     exists r w', encode_samples lib state input_buf num_frames output_buf
                    output_buf_size w = Ok r w').
Proof.
  split.
  - intros * H. by apply encode_samples_loads in H.
  - intros * Hready Hpl Hi0 Hi Hlen Hsmall Ho0 Ho Hcap.
    eapply encode_samples_runs; try eassumption. rewrite Hlen. reflexivity.
Qed.

(** ** Creation with an unknown codec *)

(** C5.  When the library has no decoder (resp. encoder) for [codec_id],
    [init_decoder] (resp. [init_encoder]) returns the null handle and leaves
    the world as it found it: no object is allocated, no request reaches
    the allocator, no event is recorded. *)
Theorem init_unknown_codec lib codec_id sample_rate channels bitrate w :
  (find_decoder lib codec_id = None ->
   init_decoder lib codec_id sample_rate channels w = Ok NULL w) /\
  (find_encoder lib codec_id = None ->
   init_encoder lib codec_id sample_rate channels bitrate w = Ok NULL w).
Proof.
  split; intros H.
  - unfold init_decoder, avcodec_find_decoder. by rewrite H.
  - unfold init_encoder, avcodec_find_encoder. by rewrite H.
Qed.

Lemma init_unknown_codec_witness :
  init_decoder demo_codec 8 48000 2 demo_world = Ok NULL demo_world /\
  init_encoder demo_codec 8 48000 2 192000 demo_world = Ok NULL demo_world.
Proof.
  split.
  - apply (init_unknown_codec demo_codec 8 48000 2 192000 demo_world). reflexivity.
  - apply (init_unknown_codec demo_codec 8 48000 2 192000 demo_world). reflexivity.
Defined.

Section Encode_answers.

Variable lib : codec_library.

Variables (state input_buf : ptr) (num_frames : Z) (output_buf : ptr) (output_buf_size : Z).

(** Every return of [encode_samples], told from the two answers of the
    codec: [send_frame] on the context and the frame of the session, then
    [receive_packet] on the context that submission left. *)
Lemma encode_samples_answers w r w' :
  encode_samples lib state input_buf num_frames output_buf output_buf_size w = Ok r w' ->
  exists s f0 c loads fr c1 r1 c2 r2 bs,
    objs w !! state = Some (OEncoder s) /\
    objs w !! encoder_state.frame s = Some (OFrame f0) /\
    objs w !! encoder_state.ctx s = Some (OContext c) /\
    Forall (load_within input_buf num_frames (AVFrame.nb_channels f0)) loads /\
    send_frame lib c fr = (c1, r1) /\
    receive_packet lib c1 = (c2, r2, bs) /\
    ((r1 < 0 /\ r = r1 /\
      events_since w w' = loads ++ [EvSendFrame fr r1]) \/
     (0 <= r1 /\ r2 < 0 /\ r = r2 /\
      events_since w w' = loads ++ [EvSendFrame fr r1; EvReceivePacket r2 bs]) \/
     (0 <= r1 /\ 0 <= r2 /\ output_buf_size < Z.of_nat (length bs) /\ r = -1 /\
      events_since w w' = loads ++ [EvSendFrame fr r1; EvReceivePacket r2 bs] /\
      (forall p o, objs w !! p = Some o -> caller_owned o -> objs w' !! p = Some o)) \/
     (0 <= r1 /\ 0 <= r2 /\ Z.of_nat (length bs) <= output_buf_size /\
      r = Z.of_nat (length bs) /\
      events_since w w' =
        loads ++ [EvSendFrame fr r1; EvReceivePacket r2 bs]
              ++ imap (fun k b => EvStoreB output_buf (Z.of_nat k) b) bs)).
Proof.
  intros H. apply encode_samples_inv in H.
  destruct H as [s f0 w3 f3 c c1 r1 Hs0 Hs Hf Hloop Hf3 Hc Hsend Hr1
                 |s f0 w3 f3 c c1 r1 k0 c2 r2 bs Hs0 Hs Hf Hloop Hf3 Hc Hsend Hr1 Hk Hrecv Hr2
                 |s f0 w3 f3 c c1 r1 k0 c2 r2 bs Hs0 Hs Hf Hloop Hf3 Hc Hsend Hr1 Hk Hrecv Hr2 Hbig
                 |s f0 w3 f3 c c1 r1 k0 c2 r2 bs Hs0 Hs Hf Hloop Hf3 Hc Hsend Hr1 Hk Hrecv Hr2 Hfit Hout].
  1: destruct (receive_packet lib c1) as [[c2 r2] bs] eqn:Hrecv.
  all: pose proof (deinterleave_loop_inv _ _ _ _ _ _ Hf _ Hloop) as Hinv.
  all: pose proof (encode_prefix_keeps _ _ _ _ _ _ Hf Hinv) as Hkeep.
  all: pose proof Hinv as (_ & Hoth & (planes & Hpl) & (loads & Htr & Hld)).
  all: assert (encoder_state.ctx s <> encoder_state.frame s) as Hcf
         by (eapply (addr_neq (objs w3)); eauto; done).
  all: pose proof Hc as Hc3; rewrite Hoth in Hc by done.
  all: rewrite Hpl in Hf3; injection Hf3 as <-.
  all: exists s, f0, c, loads, (AVFrame.set_nb_samples num_frames
                                  (AVFrame.set_extended_data planes f0)),
         c1, r1, c2, r2, bs.
  all: repeat (split; [done|]).
  all: assert (forall p o, objs w !! p = Some o -> caller_owned o ->
                 p <> encoder_state.ctx s /\ p <> encoder_state.frame s) as Hapart
         by (intros p o Hp Ho; destruct (Hkeep p o Hp Ho) as [Hp3 ?]; split; [|done];
             eapply (caller_owned_neq (objs w)); eauto; cbn; tauto).
  - left. repeat (split; [done|]).
    apply events_since_app. unfold submitted_world. cbn [trace].
    by rewrite Htr, <- app_assoc.
  - right. left. repeat (split; [done|]).
    apply events_since_app. unfold packed_world, submitted_world. cbn [trace].
    by rewrite Htr, <- !app_assoc.
  - right. right. left. repeat (split; [done|]). split.
    + apply events_since_app. unfold packed_world, submitted_world. cbn [trace].
      by rewrite Htr, <- !app_assoc.
    + intros p o Hp Ho. destruct (Hapart p o Hp Ho), (Hkeep p o Hp Ho) as [Hp3 ?].
      rewrite packed_world_other; [done|done|done|].
      eapply caller_owned_neq; eauto; cbn; tauto.
  - right. right. right. repeat (split; [done|]).
    apply events_since_app.
    destruct Hout as [->|(l & Ho0 & Hl & Hlen)].
    + unfold copied_world, packed_world, submitted_world. cbn [trace].
      by rewrite Htr, <- !app_assoc.
    + destruct (decide (bs = [])) as [->|Hne].
      * unfold copied_world, packed_world, submitted_world. cbn [trace].
        by rewrite Htr, <- !app_assoc.
      * assert (objs (packed_world
                  (submitted_world w3 s c1
                     (AVFrame.set_nb_samples num_frames
                        (AVFrame.set_extended_data planes f0)) r1) s c2 r2 bs)
                !! output_buf = Some (OBytes l)) as Hl5.
        { rewrite packed_world_other; [done| | |]; eapply addr_neq; eauto; done. }
        rewrite (copied_world_nonempty _ _ _ _ l) by done.
        unfold packed_world, submitted_world. cbn [trace].
        by rewrite Htr, <- !app_assoc.
Qed.

End Encode_answers.

(** C2, as the code has it.  A call on a ready session, with the input and
    the room the loop needs, returns.  Every call that returns has submitted
    the frame [fr] of the session to the codec, which answered [r1], and,
    when [r1] is not negative, has asked the codec for a packet, which
    answered [r2] with the bytes [bs].  When both answers are not negative
    and [bs] is longer than [output_buf_size], the call returns -1, the
    request for the packet is its last event (so it stores nothing), and
    every buffer of the caller is as it was.  A negative answer of the codec
    is returned as it is, and a packet that fits gives its length.  So the
    call returns -1 exactly when the packet is too long or when one of the
    two answers of the codec is itself -1. *)
Theorem encode_samples_capacity lib :
  (forall state input_buf num_frames output_buf output_buf_size w s c f0 l lo,
     encoder_ready w state s c f0 ->
     planes_hold f0 num_frames ->
     input_buf <> NULL -> objs w !! input_buf = Some (OFloats l) ->
     num_frames * AVFrame.nb_channels f0 <= Z.of_nat (length l) ->
     num_frames * AVFrame.nb_channels f0 <= 2 ^ 31 ->
     output_buf <> NULL -> objs w !! output_buf = Some (OBytes lo) ->
     output_buf_size <= Z.of_nat (length lo) ->
     exists r w', encode_samples lib state input_buf num_frames output_buf
                    output_buf_size w = Ok r w') /\
  (forall state input_buf num_frames output_buf output_buf_size w r w',
     encode_samples lib state input_buf num_frames output_buf output_buf_size w
       = Ok r w' ->
     exists s f0 c loads fr c1 r1 c2 r2 bs rest,
       objs w !! state = Some (OEncoder s) /\
       objs w !! encoder_state.frame s = Some (OFrame f0) /\
       objs w !! encoder_state.ctx s = Some (OContext c) /\
       Forall (load_within input_buf num_frames (AVFrame.nb_channels f0)) loads /\
       send_frame lib c fr = (c1, r1) /\
       receive_packet lib c1 = (c2, r2, bs) /\
       events_since w w' = loads ++ EvSendFrame fr r1 :: rest /\
       (0 <= r1 -> 0 <= r2 -> output_buf_size < Z.of_nat (length bs) ->
        r = -1 /\ rest = [EvReceivePacket r2 bs] /\
        forall p o, objs w !! p = Some o -> caller_owned o ->
                    objs w' !! p = Some o) /\
       (r1 < 0 -> r = r1 /\ rest = []) /\
       (0 <= r1 -> r2 < 0 -> r = r2 /\ rest = [EvReceivePacket r2 bs]) /\
       (0 <= r1 -> 0 <= r2 -> Z.of_nat (length bs) <= output_buf_size ->
        r = Z.of_nat (length bs) /\
        rest = EvReceivePacket r2 bs
                 :: imap (fun k b => EvStoreB output_buf (Z.of_nat k) b) bs) /\
       (r = -1 <->
        r1 = -1 \/ (0 <= r1 /\ r2 = -1) \/
        (0 <= r1 /\ 0 <= r2 /\ output_buf_size < Z.of_nat (length bs)))).
Proof.
  split.
  - intros *. apply encode_samples_runs.
  - intros * H. apply encode_samples_answers in H
      as (s & f0 & c & loads & fr & c1 & r1 & c2 & r2 & bs
          & Hs & Hf & Hc & Hld & Hsend & Hrecv & Hcases).
    destruct Hcases as [(Hr1 & -> & Hev)|[(Hr1 & Hr2 & -> & Hev)
                         |[(Hr1 & Hr2 & Hbig & -> & Hev & Hkeep)
                          |(Hr1 & Hr2 & Hfit & -> & Hev)]]].
    + exists s, f0, c, loads, fr, c1, r1, c2, r2, bs, [].
      repeat (split; [done|]). repeat split; try lia; try done.
    + exists s, f0, c, loads, fr, c1, r1, c2, r2, bs, [EvReceivePacket r2 bs].
      repeat (split; [done|]). repeat split; try lia; try done.
    + exists s, f0, c, loads, fr, c1, r1, c2, r2, bs, [EvReceivePacket r2 bs].
      repeat (split; [done|]). repeat split; try lia; try done.
    + exists s, f0, c, loads, fr, c1, r1, c2, r2, bs,
        (EvReceivePacket r2 bs
           :: imap (fun k b => EvStoreB output_buf (Z.of_nat k) b) bs).
      repeat (split; [done|]). repeat split; try lia; try done.
Qed.

(** * The properties on the examples *)

Lemma demo_decoder_ready :
  decoder_ready demo_decoder 105 demo_decoder_state demo_decoder_ctx.
Proof.
  unfold decoder_ready. repeat split; try discriminate.
  - exists AVFrame.blank. reflexivity.
  - exists AVPacket.blank. reflexivity.
Defined.

Lemma demo_encoder_ready :
  encoder_ready demo_encoder 105 demo_encoder_state demo_encoder_ctx demo_encoder_frame.
Proof.
  unfold encoder_ready. repeat split; try discriminate.
  exists AVPacket.blank. reflexivity.
Defined.

Lemma demo_frame_holds : frame_holds demo_frame 3 2.
Proof.
  intros i ch Hi Hch.
  assert (i = 0 \/ i = 1 \/ i = 2) as [->|[->| ->]] by lia;
    (assert (ch = 0 \/ ch = 1) as [->| ->] by lia); by eexists.
Defined.

Lemma demo_planes_hold : planes_hold demo_encoder_frame 3.
Proof.
  intros ch Hch. cbn in Hch.
  assert (ch = 0 \/ ch = 1) as [->| ->] by lia;
    (eexists; split; [reflexivity|cbn; lia]).
Defined.

Lemma demo_keeps_config : keeps_config demo_codec.
Proof.
  repeat split; intros; cbn in *; by simplify_eq.
Defined.

Lemma decode_packet_interleaves_witness :
  exists payload r1 r2 fr stores F SR C,
    trace demo_decoded =
      trace demo_decoder ++ [EvSendPacket payload r1; EvReceiveFrame r2 fr] ++ stores
        ++ [EvStoreI 102 F; EvStoreI 103 SR; EvStoreI 104 C] /\
    0 <= r2 /\
    forall i ch, 0 <= i < F -> 0 <= ch < C ->
      exists v, sample fr ch i = Some v /\
                float_at demo_decoded 101 (i * C + ch) = Some v.
Proof.
  apply (decode_packet_interleaves demo_codec 105 100 1 101 102 103 104
           demo_decoder demo_decoded).
  vm_compute. reflexivity.
Defined.

Lemma encode_samples_capacity_witness :
  (exists r w', encode_samples demo_codec 105 98 3 100 1 demo_encoder = Ok r w') /\
  (exists s f0 c loads fr c1 r1 c2 r2 bs rest,
     objs demo_encoder !! 105 = Some (OEncoder s) /\
     objs demo_encoder !! encoder_state.frame s = Some (OFrame f0) /\
     objs demo_encoder !! encoder_state.ctx s = Some (OContext c) /\
     Forall (load_within 98 3 (AVFrame.nb_channels f0)) loads /\
     send_frame demo_codec c fr = (c1, r1) /\
     receive_packet demo_codec c1 = (c2, r2, bs) /\
     events_since demo_encoder demo_oversize = loads ++ EvSendFrame fr r1 :: rest /\
     (0 <= r1 -> 0 <= r2 -> 1 < Z.of_nat (length bs) ->
      -1 = -1 /\ rest = [EvReceivePacket r2 bs] /\
      forall p o, objs demo_encoder !! p = Some o -> caller_owned o ->
                  objs demo_oversize !! p = Some o) /\
     (r1 < 0 -> -1 = r1 /\ rest = []) /\
     (0 <= r1 -> r2 < 0 -> -1 = r2 /\ rest = [EvReceivePacket r2 bs]) /\
     (0 <= r1 -> 0 <= r2 -> Z.of_nat (length bs) <= 1 ->
      -1 = Z.of_nat (length bs) /\
      rest = EvReceivePacket r2 bs
               :: imap (fun k b => EvStoreB 100 (Z.of_nat k) b) bs) /\
     (-1 = -1 <->
      r1 = -1 \/ (0 <= r1 /\ r2 = -1) \/
      (0 <= r1 /\ 0 <= r2 /\ 1 < Z.of_nat (length bs)))).
Proof.
  split.
  - apply (proj1 (encode_samples_capacity demo_codec) 105 98 3 100 1 demo_encoder
             demo_encoder_state demo_encoder_ctx demo_encoder_frame
             [1; 2; 3; 4; 5; 6] [Byte.x0b]).
    + exact demo_encoder_ready.
    + exact demo_planes_hold.
    + discriminate.
    + reflexivity.
    + vm_compute. discriminate.
    + vm_compute. discriminate.
    + discriminate.
    + reflexivity.
    + vm_compute. discriminate.
  - apply (proj2 (encode_samples_capacity demo_codec) 105 98 3 100 1 demo_encoder
             (-1) demo_oversize).
    vm_compute. reflexivity.
Defined.

Lemma decode_packet_fallback_witness :
  session_config demo_decoder 105 48000 2 /\
  exists payload r1 r2 fr stores,
    trace demo_decoded =
      trace demo_decoder ++ [EvSendPacket payload r1; EvReceiveFrame r2 fr] ++ stores
        ++ [EvStoreI 102 (AVFrame.nb_samples fr);
            EvStoreI 103 (if AVFrame.sample_rate fr =? 0 then 48000
                          else AVFrame.sample_rate fr);
            EvStoreI 104 (if AVFrame.nb_channels fr =? 0 then 2
                          else AVFrame.nb_channels fr)].
Proof.
  assert (session_config demo_decoder 105 48000 2) as Hcfg.
  { apply (proj1 (proj2 (decode_packet_fallback demo_codec) demo_keeps_config)
             7 48000 2 demo_world 105 demo_decoder).
    - vm_compute. reflexivity.
    - discriminate. }
  split; [exact Hcfg|].
  apply (proj2 (proj2 (proj2 (proj2 (decode_packet_fallback demo_codec)
                                demo_keeps_config)))
           105 100 1 101 102 103 104 48000 2 demo_decoder demo_decoded Hcfg).
  vm_compute. reflexivity.
Defined.

Lemma decode_packet_error_paths_witness :
  decode_packet demo_codec 105 100 0 101 102 103 104 demo_decoder =
    Ok (-5) (sent_world demo_decoder demo_decoder_state 100 0 demo_decoder_ctx [] (-5)).
Proof.
  apply (proj1 (decode_packet_error_paths demo_codec 105 100 0 101 102 103 104
                  demo_decoder demo_decoder_state demo_decoder_ctx []
                  demo_decoder_ctx (-5) demo_decoder_ctx 0 demo_frame
                  demo_decoder_ready eq_refl eq_refl eq_refl)).
  lia.
Defined.


Lemma session_references_witness :
  (exists s,
     objs demo_decoder !! 105 = Some (ODecoder s) /\
     objs demo_decoded !! decoder_state.packet s
       = Some (OPacket (AVPacket.mk (PktBorrowed 100) 1)) /\
     (0 = 0 -> objs demo_decoded !! decoder_state.frame s
                 = Some (OFrame AVFrame.blank))) /\
  (exists s,
     objs demo_encoder !! 105 = Some (OEncoder s) /\
     forall k, objs demo_encoded !! encoder_state.packet s = Some (OPacket k) ->
       objs demo_encoder !! encoder_state.packet s = Some (OPacket k) \/
       AVPacket.data k = PktNull \/ exists bs, AVPacket.data k = PktOwned bs).
Proof.
  split.
  - apply (proj1 (session_references demo_codec) 105 100 1 101 102 103 104
             demo_decoder 0 demo_decoded).
    vm_compute. reflexivity.
  - apply (proj2 (proj2 (session_references demo_codec)) 105 98 3 99 4
             demo_encoder 2 demo_encoded).
    vm_compute. reflexivity.
Defined.

Lemma encode_samples_read_bound_witness :
  (exists s f0 loads fr r1 rest,
     objs demo_encoder !! 105 = Some (OEncoder s) /\
     objs demo_encoder !! encoder_state.frame s = Some (OFrame f0) /\
     events_since demo_encoder demo_encoded = loads ++ EvSendFrame fr r1 :: rest /\
     Forall (load_within 98 3 (AVFrame.nb_channels f0)) loads /\
     Forall (fun e => forall p i, e <> EvLoadF p i) rest /\
     AVFrame.nb_samples fr = 3) /\
  (exists r w', encode_samples demo_codec 105 98 3 99 4 demo_encoder = Ok r w').
Proof.
  split.
  - apply (proj1 (encode_samples_read_bound demo_codec) 105 98 3 99 4
             demo_encoder 2 demo_encoded).
    vm_compute. reflexivity.
  - apply (proj2 (encode_samples_read_bound demo_codec) 105 98 3 99 4 demo_encoder
             demo_encoder_state demo_encoder_ctx demo_encoder_frame
             [1; 2; 3; 4; 5; 6]
             [Byte.x00; Byte.x00; Byte.x00; Byte.x00]).
    + exact demo_encoder_ready.
    + exact demo_planes_hold.
    + discriminate.
    + reflexivity.
    + reflexivity.
    + vm_compute. discriminate.
    + discriminate.
    + reflexivity.
    + vm_compute. discriminate.
Defined.

Lemma close_session_safe_witness :
  close_decoder 105 short_decoder =
    Ok tt (mkWorld
             (delete 105
                (drop_obj 106 (drop_obj 107 (drop_obj NULL (objs short_decoder)))))
             (oom short_decoder)
             (trace short_decoder ++ free_of NULL ++ free_of 107 ++ free_of 106
                ++ [EvFree 105])).
Proof.
  apply (proj1 (proj2 (proj2 close_session_safe)) short_decoder 105
           (decoder_state.mk 106 NULL 107)).
  - discriminate.
  - reflexivity.
  - left. reflexivity.
  - right. exists AVPacket.blank. reflexivity.
  - right. exists demo_decoder_ctx. reflexivity.
Defined.

Lemma decode_packet_write_bound_witness :
  (exists payload r1 r2 fr stores F SR C,
     trace demo_decoded =
       trace demo_decoder ++ [EvSendPacket payload r1; EvReceiveFrame r2 fr] ++ stores
         ++ [EvStoreI 102 F; EvStoreI 103 SR; EvStoreI 104 C] /\
     Forall (store_within 101 (F * C)) stores /\
     (stores <> [] ->
      exists l, objs demo_decoder !! 101 = Some (OFloats l) /\
                F * C <= Z.of_nat (length l)) /\
     (forall l, objs demo_decoder !! 101 = Some (OFloats l) ->
        exists l', objs demo_decoded !! 101 = Some (OFloats l') /\
          length l' = length l /\
          forall j : nat, F * C <= Z.of_nat j -> l' !! j = l !! j) /\
     (forall p o, objs demo_decoder !! p = Some o -> caller_owned o ->
        p <> 101 -> p <> 102 -> p <> 103 -> p <> 104 ->
        objs demo_decoded !! p = Some o)) /\
  (exists w', decode_packet demo_codec 105 100 1 98 102 103 104 demo_decoder = Ok 0 w').
Proof.
  split.
  - apply (proj1 (decode_packet_write_bound demo_codec) 105 100 1 101 102 103 104
             demo_decoder demo_decoded).
    vm_compute. reflexivity.
  - apply (proj2 (decode_packet_write_bound demo_codec) 105 100 1 98 102 103 104
             demo_decoder demo_decoder_state demo_decoder_ctx [Byte.x0b]
             demo_decoder_ctx 0 demo_decoder_ctx 0 demo_frame
             [1; 2; 3; 4; 5; 6] 0 0 0).
    + exact demo_decoder_ready.
    + reflexivity.
    + reflexivity.
    + lia.
    + reflexivity.
    + lia.
    + exact demo_frame_holds.
    + discriminate.
    + reflexivity.
    + reflexivity.
    + vm_compute. discriminate.
    + discriminate.
    + reflexivity.
    + discriminate.
    + reflexivity.
    + discriminate.
    + reflexivity.
Defined.

(** * Where the code departs from its description *)

(** The codec refuses the frame with its own code -1: [encode_samples]
    returns -1 although no packet was produced, with room for four bytes in
    the output buffer. *)
Lemma encode_samples_capacity_counterexample :
  result_of (encode_samples refusing_codec 105 98 3 99 4 refused_encoder) = Some (-1) /\
  events_since refused_encoder refused_encoded =
    [EvLoadF 98 0; EvLoadF 98 2; EvLoadF 98 4; EvLoadF 98 1; EvLoadF 98 3; EvLoadF 98 5;
     EvSendFrame (AVFrame.mk 3 AV_SAMPLE_FMT_FLTP 48000 2 [[1; 3; 5]; [2; 4; 6]]) (-1)] /\
  send_frame refusing_codec demo_encoder_ctx
    (AVFrame.mk 3 AV_SAMPLE_FMT_FLTP 48000 2 [[1; 3; 5]; [2; 4; 6]])
    = (demo_encoder_ctx, -1).
Proof. vm_compute. repeat split. Qed.

(** A session created for 48000 Hz stereo, on a codec that sets its context
    from the stream: the frame carries neither a sample rate nor a channel
    count, and the call reports 44100 Hz and one channel. *)
Lemma decode_packet_fallback_counterexample :
  result_of (init_decoder retuning_codec 7 48000 2 demo_world) = Some 105 /\
  result_of (decode_packet retuning_codec 105 100 1 101 102 103 104 retuned_decoder)
    = Some 0 /\
  events_since retuned_decoder retuned_decoded =
    [EvSendPacket [Byte.x0b] 0; EvReceiveFrame 0 retuning_frame;
     EvStoreF 101 0 10; EvStoreF 101 1 11; EvStoreF 101 2 12;
     EvStoreI 102 3; EvStoreI 103 44100; EvStoreI 104 1] /\
  AVFrame.sample_rate retuning_frame = 0 /\
  AVFrame.nb_channels retuning_frame = 0 /\
  objs retuned_decoded !! 103 = Some (OInt 44100) /\
  objs retuned_decoded !! 104 = Some (OInt 1).
Proof. vm_compute. repeat split. Qed.


(** After a successful decode the scratch packet of the session still holds
    the address and the size of the caller's input buffer. *)
Lemma session_references_counterexample :
  result_of (decode_packet demo_codec 105 100 1 101 102 103 104 demo_decoder) = Some 0 /\
  objs demo_decoder !! 105 = Some (ODecoder demo_decoder_state) /\
  objs demo_decoded !! decoder_state.packet demo_decoder_state =
    Some (OPacket (AVPacket.mk (PktBorrowed 100) 1)).
Proof. vm_compute. repeat split. Qed.

(** * Beyond the session contract: the other paths of the bridge *)

(** ** Flushing *)

(** X1.  [flush_decoder(NULL)] does nothing, and so does [flush_decoder] on
    a session whose context pointer is null.  On a session with a live
    context the codec's buffers are flushed once: the context becomes what
    the codec's flush leaves, one flush event is recorded, and nothing else
    changes; the scratch frame and the scratch packet are not reset. *)
Theorem flush_decoder_effect lib :
  (forall w, flush_decoder lib NULL w = Ok tt w) /\
  (forall w state s,
     state <> NULL -> objs w !! state = Some (ODecoder s) ->
     decoder_state.ctx s = NULL ->
     flush_decoder lib state w = Ok tt w) /\
  (forall w state s c,
     state <> NULL -> objs w !! state = Some (ODecoder s) ->
     decoder_state.ctx s <> NULL ->
     objs w !! decoder_state.ctx s = Some (OContext c) ->
     flush_decoder lib state w =
       Ok tt (mkWorld (<[decoder_state.ctx s:=OContext (flush_buffers lib c)]> (objs w))
                      (oom w) (trace w ++ [EvFlush]))).
Proof.
  split; [reflexivity|]. split.
  - intros w state s Hs0 Hs Hc. unfold flush_decoder.
    destruct (Z.eqb_spec state NULL); [done|].
    erewrite bind_run by fwd. cbv beta. by rewrite Hc.
  - intros w state s c Hs0 Hs Hc0 Hc. unfold flush_decoder.
    destruct (Z.eqb_spec state NULL); [done|].
    erewrite bind_run by fwd. cbv beta.
    destruct (Z.eqb_spec (decoder_state.ctx s) NULL); [done|].
    unfold avcodec_flush_buffers.
    erewrite bind_run by (by eapply upd_ctx_run). reflexivity.
Qed.

Lemma flush_decoder_effect_witness :
  flush_decoder demo_codec 105 short_decoder =
    Ok tt (mkWorld (<[106:=OContext (flush_buffers demo_codec demo_decoder_ctx)]>
                      (objs short_decoder))
                   (oom short_decoder) (trace short_decoder ++ [EvFlush])).
Proof.
  apply (proj2 (proj2 (flush_decoder_effect demo_codec)) short_decoder 105
           (decoder_state.mk 106 NULL 107) demo_decoder_ctx).
  - discriminate.
  - reflexivity.
  - discriminate.
  - reflexivity.
Defined.

(** ** Calls keep the layout of the store *)

Section Layout.

Lemma same_shape_refl m : same_shape m m.
Proof. by intros q. Qed.

Lemma same_shape_trans m1 m2 m3 :
  same_shape m1 m2 -> same_shape m2 m3 -> same_shape m1 m3.
Proof. intros H12 H23 q. by rewrite H23, H12. Qed.

Lemma same_shape_step m m' (p : ptr) o' :
  same_shape m m' ->
  obj_shape <$> m !! p = Some (obj_shape o') ->
  same_shape m (<[p:=o']> m').
Proof.
  intros Hs Hp q. destruct (decide (q = p)) as [->|Hne].
  - by rewrite lookup_insert_eq, Hp.
  - rewrite lookup_insert_ne by done. apply Hs.
Qed.

Lemma same_shape_step_r m m' (p : ptr) o' :
  same_shape m m' ->
  obj_shape <$> m' !! p = Some (obj_shape o') ->
  same_shape m (<[p:=o']> m').
Proof. intros Hs Hp. apply same_shape_step; [done|]. by rewrite <- Hs. Qed.

Lemma same_shape_others m m' (p : ptr) o o' :
  (forall q : ptr, q <> p -> m' !! q = m !! q) ->
  m !! p = Some o -> m' !! p = Some o' -> obj_shape o' = obj_shape o ->
  same_shape m m'.
Proof.
  intros Hoth Hp Hp' Ho q. destruct (decide (q = p)) as [->|Hne].
  - rewrite Hp, Hp'. cbn. by rewrite Ho.
  - by rewrite Hoth.
Qed.

Lemma same_layout_refl w : same_layout w w.
Proof.
  split; [done|]. split; [apply same_shape_refl|].
  exists []. by rewrite app_nil_r.
Qed.

Lemma same_layout_trans w1 w2 w3 :
  same_layout w1 w2 -> same_layout w2 w3 -> same_layout w1 w3.
Proof.
  intros (Ho1 & Hs1 & e1 & Ht1 & Hf1) (Ho2 & Hs2 & e2 & Ht2 & Hf2).
  split; [congruence|]. split; [by eapply same_shape_trans|].
  exists (e1 ++ e2). split; [by rewrite Ht2, Ht1, app_assoc|].
  by apply Forall_app.
Qed.

(** A session on which a call can work stays one under a change that keeps
    the layout. *)
Lemma decoder_ready_layout w w' state s c :
  decoder_ready w state s c -> same_layout w w' ->
  exists c', decoder_ready w' state s c'.
Proof.
  intros (Hs0 & Hs & Hc0 & Hc & Hf0 & (f & Hf) & Hk0 & (k & Hk)) (_ & Hsh & _).
  pose proof (Hsh state) as Es. rewrite Hs in Es.
  pose proof (Hsh (decoder_state.ctx s)) as Ec. rewrite Hc in Ec.
  pose proof (Hsh (decoder_state.frame s)) as Ef. rewrite Hf in Ef.
  pose proof (Hsh (decoder_state.packet s)) as Ek. rewrite Hk in Ek.
  destruct (objs w' !! state) as [[]|] eqn:Es'; try discriminate.
  destruct (objs w' !! decoder_state.ctx s) as [[| |c'| | | | |]|] eqn:Ec';
    try discriminate.
  destruct (objs w' !! decoder_state.frame s) as [[]|] eqn:Ef'; try discriminate.
  destruct (objs w' !! decoder_state.packet s) as [[]|] eqn:Ek'; try discriminate.
  injection Es as ->.
  exists c'. unfold decoder_ready. rewrite Es', Ec', Ef', Ek'.
  repeat split; try done; by eexists.
Qed.

End Layout.

Section Decode_layout.

Variable lib : codec_library.

Lemma interleave_loop_layout fp out F C fr w w3 :
  objs w !! fp = Some (OFrame fr) ->
  interleave_loop fp out F C w = Ok tt w3 ->
  oom w3 = oom w /\ same_shape (objs w) (objs w3) /\
  exists stores, trace w3 = trace w ++ stores /\
                 Forall (store_within out (F * C)) stores.
Proof.
  intros Hfp H.
  destruct (interleave_loop_summary _ _ _ _ _ _ _ Hfp H)
    as [[_ ->]|(_ & _ & l0 & Hout & _ & _ & Hinv)].
  - split; [done|]. split; [apply same_shape_refl|].
    exists []. by rewrite app_nil_r.
  - destruct Hinv as (Ho & _ & Hoth & Hst & (l' & Hl' & Hlen & _)).
    split; [done|]. split; [|done].
    eapply same_shape_others; [exact Hoth|exact Hout|exact Hl'|].
    cbn. by rewrite Hlen.
Qed.

Lemma decode_packet_same_layout state input_buf input_size output_buf
    out_frames out_sample_rate out_channels w r w' :
  decode_packet lib state input_buf input_size output_buf
    out_frames out_sample_rate out_channels w = Ok r w' ->
  same_layout w w'.
Proof.
  intros H. apply decode_packet_inv in H.
  destruct H as [s c k0 payload c1 r1 Hs0 Hs Hc Hk Hpay Hsend Hr1
                |s c k0 payload c1 r1 f0 c2 r2 fr Hs0 Hs Hc Hk Hf Hpay Hsend Hr1 Hrecv Hr2
                |s c k0 payload c1 r1 f0 c2 r2 fr w3 x1 x2 x3
                   Hs0 Hs Hc Hk Hf Hpay Hsend Hr1 Hrecv Hr2 Hloop Ha0 Hb0 Hd0 Hx1 Hx2 Hx3].
  - split; [done|]. split.
    + cbn [sent_world objs]. apply same_shape_step; [|by rewrite Hc].
      apply same_shape_step; [apply same_shape_refl|by rewrite Hk].
    + eexists. split; [reflexivity|]. repeat constructor; cbn; tauto.
  - split; [done|]. split.
    + cbn [received_world sent_world objs].
      apply same_shape_step; [|by rewrite Hf].
      apply same_shape_step; [|by rewrite Hc].
      apply same_shape_step; [|by rewrite Hc].
      apply same_shape_step; [apply same_shape_refl|by rewrite Hk].
    + cbn [received_world sent_world trace]. rewrite <- app_assoc.
      eexists. split; [reflexivity|]. repeat constructor; cbn; tauto.
  - set (w2 := received_world (sent_world w s input_buf input_size c1 payload r1)
                 s c2 r2 fr) in *.
    assert (same_shape (objs w) (objs w2)) as H2.
    { unfold w2. cbn [received_world sent_world objs].
      apply same_shape_step; [|by rewrite Hf].
      apply same_shape_step; [|by rewrite Hc].
      apply same_shape_step; [|by rewrite Hc].
      apply same_shape_step; [apply same_shape_refl|by rewrite Hk]. }
    assert (objs w2 !! decoder_state.frame s = Some (OFrame fr)) as Hf2.
    { unfold w2. cbn [received_world objs]. rewrite lookup_insert_eq.
      by destruct (Z.ltb_spec r2 0); [lia|]. }
    destruct (interleave_loop_layout _ _ _ _ _ _ _ Hf2 Hloop)
      as (Ho3 & H3 & stores & Ht3 & Hst).
    pose proof (same_shape_trans _ _ _ H2 H3) as H13.
    split; [cbn [returned_world oom]; by rewrite Ho3|]. split.
    + cbn [returned_world objs].
      apply same_shape_step; [|by rewrite Hf].
      apply same_shape_step_r; [|by rewrite Hx3].
      apply same_shape_step_r; [|by rewrite Hx2].
      apply same_shape_step_r; [done|by rewrite Hx1].
    + cbn [returned_world trace]. rewrite Ht3. unfold w2.
      cbn [received_world sent_world trace]. rewrite <- !app_assoc.
      eexists. split; [reflexivity|].
      repeat (apply Forall_cons; split; [cbn; tauto|]).
      apply Forall_app. split; [|repeat constructor; cbn; tauto].
      eapply Forall_impl; [exact Hst|].
      intros e (j & v & -> & _). cbn. tauto.
Qed.

Lemma flush_decoder_same_layout state w u w' :
  flush_decoder lib state w = Ok u w' -> same_layout w w'.
Proof.
  unfold flush_decoder. destruct (Z.eqb_spec state NULL).
  { intros [= _ <-]. apply same_layout_refl. }
  intros H. inv_bind H as ctx w1 Hrd.
  cbn [dec_ctx rd] in Hrd. inv_bind Hrd as s w0 Hs.
  apply get_decoder_Ok in Hs as (-> & _ & Hs). injection Hrd as <- <-.
  destruct (Z.eqb_spec (decoder_state.ctx s) NULL).
  { injection H as _ <-. apply same_layout_refl. }
  unfold avcodec_flush_buffers in H. inv_bind H as u1 w2 Hu.
  apply upd_ctx_Ok in Hu as (c & _ & Hc & ->).
  injection H as _ <-. split; [done|]. split.
  - unfold log_event, set_objs. cbn [objs].
    apply same_shape_step; [apply same_shape_refl|by rewrite Hc].
  - exists [EvFlush]. split; [done|]. repeat constructor; cbn; tauto.
Qed.

End Decode_layout.

(** ** The copy loop of the encoder, in full *)

Section Deinterleave_full.

Lemma sample_update planes f0 ch i v plane ch' i' :
  0 <= ch -> 0 <= i < Z.of_nat (length plane) ->
  planes !! Z.to_nat ch = Some plane ->
  sample (AVFrame.set_extended_data
            (<[Z.to_nat ch:=<[Z.to_nat i:=v]> plane]> planes) f0) ch' i' =
  if decide (ch' = ch /\ i' = i) then Some v
  else sample (AVFrame.set_extended_data planes f0) ch' i'.
Proof.
  intros Hch Hi Hp. unfold sample. cbn [AVFrame.extended_data AVFrame.set_extended_data].
  assert (Z.to_nat ch < length planes)%nat by (by eapply lookup_lt_Some).
  case_decide as Hd.
  - destruct Hd as [-> ->].
    destruct (Z.ltb_spec ch 0); [lia|]. destruct (Z.ltb_spec i 0); [lia|]. cbn [orb].
    rewrite list_lookup_insert_eq by done.
    apply list_lookup_insert_eq. lia.
  - destruct (Z.ltb_spec ch' 0); [done|]. destruct (Z.ltb_spec i' 0); [done|]. cbn [orb].
    destruct (decide (ch' = ch)) as [->|Hne].
    + rewrite list_lookup_insert_eq by done. rewrite Hp.
      apply list_lookup_insert_ne. lia.
    + by rewrite list_lookup_insert_ne by lia.
Qed.

Variables (fp inp : ptr) (n C : Z) (f0 : AVFrame.t) (l : list f32) (w : world).

Hypothesis Hfp : objs w !! fp = Some (OFrame f0).
Hypothesis Hinp : objs w !! inp = Some (OFloats l).

Lemma deinterleave_state_start : deinterleave_state fp inp n C f0 l w 0 0 w.
Proof.
  unfold deinterleave_state, copied. repeat split; try done.
  exists (AVFrame.extended_data f0).
  assert (AVFrame.set_extended_data (AVFrame.extended_data f0) f0 = f0) as ->
    by (by destruct f0).
  repeat split; try done; intros; lia.
Qed.

Lemma deinterleave_state_step ch i w1 w2 :
  0 <= ch < C -> 0 <= i < n ->
  deinterleave_state fp inp n C f0 l w ch i w1 ->
  deinterleave_body fp inp C ch i w1 = Ok tt w2 ->
  deinterleave_state fp inp n C f0 l w ch (i + 1) w2.
Proof.
  intros Hch Hi (Hoom & Hoth & planes & Hpl & Hlen & Hidx & Hval & Hold) H.
  unfold deinterleave_body in H.
  inv_bind H as v wa Hv.
  apply load_float_Ok in Hv as (Hi0 & l' & Hl & Hj & Hlv & ->).
  apply store_plane_Ok in H as (f & plane & Hf0 & Hf & _ & Hp & Hip & ->).
  cbn [objs oom trace] in *. rewrite Hpl in Hf. injection Hf as <-.
  cbn [AVFrame.extended_data AVFrame.set_extended_data] in Hp.
  assert (inp <> fp) as Hne by (eapply (addr_neq (objs w)); eauto; done).
  rewrite Hoth, Hinp in Hl by done. injection Hl as <-.
  fold (index32 i C ch) in *.
  assert (index32 i C ch < Z.of_nat (length l)) as Hin
    by (apply lookup_lt_Some in Hlv; lia).
  unfold deinterleave_state, set_objs; cbn [objs oom trace].
  split; [done|].
  split; [intros p Hp'; by rewrite lookup_insert_ne by done; apply Hoth|].
  exists (<[Z.to_nat ch:=<[Z.to_nat i:=v]> plane]> planes).
  cbn [AVFrame.extended_data AVFrame.set_extended_data].
  split; [by rewrite lookup_insert_eq|].
  split.
  { rewrite <- Hlen. rewrite list_fmap_insert, length_insert.
    apply list_insert_id. by rewrite list_lookup_fmap, Hp. }
  split.
  { intros ch' i' (Hch' & Hi' & Hord).
    destruct (decide (ch' = ch /\ i' = i)) as [[-> ->]|Hnew]; [lia|].
    apply Hidx. unfold copied. repeat split; try lia. }
  split.
  { intros Hsmall ch' i' (Hch' & Hi' & Hord).
    rewrite (sample_update planes f0 ch i v plane) by (done || lia).
    case_decide as Hd.
    - destruct Hd as [-> ->]. exists v. split; [|done].
      assert (index32 i C ch = i * C + ch) as <- by (apply index32_exact; nia).
      done.
    - apply Hval; [done|]. unfold copied. repeat split; try lia. }
  intros ch' i' Hnot.
  rewrite (sample_update planes f0 ch i v plane) by (done || lia).
  case_decide as Hd.
  - destruct Hd as [-> ->]. exfalso. apply Hnot. unfold copied. lia.
  - apply Hold. intros (Hch' & Hi' & Hord). apply Hnot. unfold copied. lia.
Qed.

Lemma deinterleave_state_row ch w1 w2 :
  0 <= ch < C ->
  deinterleave_state fp inp n C f0 l w ch 0 w1 ->
  for_lt n (deinterleave_body fp inp C ch) w1 = Ok tt w2 ->
  deinterleave_state fp inp n C f0 l w (ch + 1) 0 w2.
Proof.
  intros Hch Hinv H.
  pose proof (for_lt_ind (fun i w' => deinterleave_state fp inp n C f0 l w ch i w')
                _ _ _ _ H Hinv) as Hend.
  cbv beta in Hend.
  assert (deinterleave_state fp inp n C f0 l w ch (Z.max 0 n) w2) as Hrow.
  { apply Hend. intros i wa wb Hi. by apply deinterleave_state_step. }
  clear Hend H.
  destruct Hrow as (Hoom & Hoth & planes & Hpl & Hlen & Hidx & Hval & Hold).
  unfold deinterleave_state. repeat (split; [done|]).
  exists planes. repeat (split; [done|]).
  assert (forall ch' i', copied n (ch + 1) 0 ch' i' <-> copied n ch (Z.max 0 n) ch' i')
    as Hpr by (unfold copied; intros; lia).
  split; [intros ? ? ?; apply Hidx; by apply Hpr|].
  split; [intros Hs ? ? ?; apply Hval; [done|by apply Hpr]|].
  intros ch' i' Hnot. apply Hold. intros Hc. apply Hnot. by apply Hpr.
Qed.

Lemma deinterleave_state_end w3 :
  deinterleave_loop fp inp n C w = Ok tt w3 ->
  deinterleave_state fp inp n C f0 l w (Z.max 0 C) 0 w3.
Proof.
  intros H. unfold deinterleave_loop in H.
  apply (for_lt_ind (fun ch w' => deinterleave_state fp inp n C f0 l w ch 0 w')
           _ _ _ _ H).
  - apply deinterleave_state_start.
  - intros ch w1 w2 Hch Hinv Hb. by eapply deinterleave_state_row.
Qed.

End Deinterleave_full.

(** What the loop nest of [encode_samples] leaves: nothing is done when
    there is no sample or no channel; otherwise the input holds at least
    [n * C] elements, the index arithmetic has not wrapped, and every pair
    has been copied. *)
Lemma deinterleave_loop_summary fp inp n C f0 w w3 :
  objs w !! fp = Some (OFrame f0) ->
  deinterleave_loop fp inp n C w = Ok tt w3 ->
  ((n <= 0 \/ C <= 0) /\ w3 = w) \/
  (0 < n /\ 0 < C /\
   exists l, objs w !! inp = Some (OFloats l) /\
     n * C <= Z.of_nat (length l) /\ n * C <= 2 ^ 31 /\
     deinterleave_state fp inp n C f0 l w C 0 w3).
Proof.
  intros Hfp H.
  destruct (Z_le_gt_dec C 0) as [HC|HC].
  { left. split; [auto|]. unfold deinterleave_loop in H.
    rewrite for_lt_nothing in H by done. by injection H as <-. }
  destruct (Z_le_gt_dec n 0) as [Hn|Hn].
  { left. split; [auto|]. unfold deinterleave_loop in H.
    pose proof (for_lt_ind (fun _ w' => w' = w) _ _ _ _ H eq_refl) as Hend.
    apply Hend. intros j w1 w2 _ -> Hb.
    rewrite for_lt_nothing in Hb by done. by injection Hb as <-. }
  right. split; [lia|]. split; [lia|].
  assert (exists l, objs w !! inp = Some (OFloats l)) as [l Hinp].
  { pose proof H as H'. unfold deinterleave_loop, for_lt in H'.
    destruct (Z.to_nat C) as [|m] eqn:Em; [lia|]. cbn [iter_from] in H'.
    inv_bind H' as u w1 Hrow. clear H'. unfold for_lt in Hrow.
    destruct (Z.to_nat n) as [|k] eqn:En; [lia|]. cbn [iter_from] in Hrow.
    inv_bind Hrow as u' w2 Hb. clear Hrow. unfold deinterleave_body in Hb.
    inv_bind Hb as v wa Hv.
    apply load_float_Ok in Hv as (_ & l & Hl & _). eauto. }
  exists l. split; [done|].
  pose proof (deinterleave_state_end fp inp n C f0 l w Hfp Hinp w3 H) as Hinv.
  replace (Z.max 0 C) with C in Hinv by lia.
  pose proof Hinv as (_ & _ & planes & _ & _ & Hidx & _).
  assert (forall i ch, 0 <= i < n -> 0 <= ch < C ->
            0 <= index32 i C ch < Z.of_nat (length l)) as Hall.
  { intros i ch Hi Hch. apply Hidx. unfold copied. lia. }
  assert (n * C <= 2 ^ 31) as Hsmall.
  { apply index32_covering; [lia|lia|]. intros i ch Hi Hch. by apply Hall. }
  split; [|done].
  specialize (Hall (n - 1) (C - 1) ltac:(lia) ltac:(lia)).
  rewrite index32_exact in Hall by nia. nia.
Qed.

Section Encode_layout.

Variable lib : codec_library.

(** The frame an encode call submits, and leaves in the session. *)
Lemma encode_samples_frame state input_buf num_frames output_buf output_buf_size
    w r w' :
  encode_samples lib state input_buf num_frames output_buf output_buf_size w
    = Ok r w' ->
  exists s f0 c fr c1 r1 loads rest,
    state <> NULL /\
    objs w !! state = Some (OEncoder s) /\
    objs w !! encoder_state.frame s = Some (OFrame f0) /\
    objs w !! encoder_state.ctx s = Some (OContext c) /\
    deinterleaved w input_buf num_frames f0 fr /\
    send_frame lib c fr = (c1, r1) /\
    events_since w w' = loads ++ EvSendFrame fr r1 :: rest /\
    Forall (load_within input_buf num_frames (AVFrame.nb_channels f0)) loads /\
    Forall (fun e => forall f r', e <> EvSendFrame f r') rest /\
    objs w' !! encoder_state.frame s = Some (OFrame fr).
Proof.
  intros H. apply encode_samples_inv in H.
  assert (exists s f0 w3 f3 c c1 r1 rest,
            state <> NULL /\ objs w !! state = Some (OEncoder s) /\
            objs w !! encoder_state.frame s = Some (OFrame f0) /\
            deinterleave_loop (encoder_state.frame s) input_buf num_frames
              (AVFrame.nb_channels f0) w = Ok tt w3 /\
            objs w3 !! encoder_state.frame s = Some (OFrame f3) /\
            objs w3 !! encoder_state.ctx s = Some (OContext c) /\
            send_frame lib c (AVFrame.set_nb_samples num_frames f3) = (c1, r1) /\
            trace w' = trace w3 ++ EvSendFrame (AVFrame.set_nb_samples num_frames f3) r1
                          :: rest /\
            objs w' !! encoder_state.frame s =
              Some (OFrame (AVFrame.set_nb_samples num_frames f3)) /\
            Forall (fun e => forall f r', e <> EvSendFrame f r') rest)
    as (s & f0 & w3 & f3 & c & c1 & r1 & rest & Hs0 & Hs & Hf & Hloop & Hf3 & Hc
        & Hsend & Htr & Hfw & Hrest).
  { destruct H as [s f0 w3 f3 c c1 r1 Hs0 Hs Hf Hloop Hf3 Hc Hsend Hr1
                  |s f0 w3 f3 c c1 r1 k0 c2 r2 bs Hs0 Hs Hf Hloop Hf3 Hc Hsend Hr1 Hk Hrecv Hr2
                  |s f0 w3 f3 c c1 r1 k0 c2 r2 bs Hs0 Hs Hf Hloop Hf3 Hc Hsend Hr1 Hk Hrecv Hr2 Hbig
                  |s f0 w3 f3 c c1 r1 k0 c2 r2 bs Hs0 Hs Hf Hloop Hf3 Hc Hsend Hr1 Hk Hrecv Hr2 Hfit Hout].
    all: assert (encoder_state.frame s <> encoder_state.ctx s) as Hfc
      by (eapply (addr_neq (objs w3)); eauto; done).
    all: try assert (encoder_state.frame s <> encoder_state.packet s) as Hfk
      by (eapply (addr_neq (objs w3)); eauto; done).
    1: exists s, f0, w3, f3, c, c1, r1, [].
    2, 3: exists s, f0, w3, f3, c, c1, r1, [EvReceivePacket r2 bs].
    4: exists s, f0, w3, f3, c, c1, r1,
         (EvReceivePacket r2 bs
            :: imap (fun k b => EvStoreB output_buf (Z.of_nat k) b) bs).
    all: repeat (split; [done|]).
    all: cbv [packed_world submitted_world]; cbn [objs trace].
    1, 2, 3: repeat split;
      first [ by rewrite <- ?app_assoc
            | by rewrite ?lookup_insert_ne, ?lookup_insert_eq by done
            | repeat constructor; intros ? ?; discriminate ].
    assert (Forall (fun e => forall f r', e <> EvSendFrame f r')
              (EvReceivePacket r2 bs
                 :: imap (fun k b => EvStoreB output_buf (Z.of_nat k) b) bs)) as Hno.
    { constructor; [intros ? ?; discriminate|].
      apply Forall_forall. intros e He.
      apply elem_of_lookup_imap in He as (k & b & -> & _). intros ? ?; discriminate. }
    destruct (decide (bs = [])) as [->|Hne].
    - cbn [copied_world objs trace].
      repeat split;
        first [ by rewrite <- ?app_assoc
              | by rewrite ?lookup_insert_ne, ?lookup_insert_eq by done
              | done ].
    - destruct Hout as [->|(lo & _ & Hlo & _)]; [done|].
      assert (output_buf <> encoder_state.frame s) as Hof
        by (eapply (addr_neq (objs w3)); eauto; done).
      assert (output_buf <> encoder_state.ctx s) as Hoc
        by (eapply (addr_neq (objs w3)); eauto; done).
      assert (output_buf <> encoder_state.packet s) as Hok
        by (eapply (addr_neq (objs w3)); eauto; done).
      erewrite copied_world_nonempty;
        [|done|cbn [objs]; rewrite !lookup_insert_ne by done; exact Hlo].
      cbn [objs trace].
      repeat split;
        first [ by rewrite <- ?app_assoc
              | by rewrite ?lookup_insert_ne, ?lookup_insert_eq by done
              | done ]. }
  clear H.
  pose proof (deinterleave_loop_inv _ _ _ _ _ _ Hf _ Hloop)
    as (_ & Hoth & _ & (loads & Htr3 & Hld)).
  assert (encoder_state.ctx s <> encoder_state.frame s) as Hcf
    by (eapply (addr_neq (objs w3)); eauto; done).
  exists s, f0, c, (AVFrame.set_nb_samples num_frames f3), c1, r1, loads, rest.
  repeat (split; [done|]).
  split; [by rewrite <- Hoth|].
  split.
  { destruct (deinterleave_loop_summary _ _ _ _ _ _ _ Hf Hloop)
      as [[Hnone ->]|(Hn & HC & l & Hl & Hlen & Hsmall & Hst)].
    - rewrite Hf in Hf3. injection Hf3 as <-.
      unfold deinterleaved. cbn [AVFrame.nb_samples AVFrame.format AVFrame.sample_rate
        AVFrame.nb_channels AVFrame.extended_data AVFrame.set_nb_samples].
      repeat (split; [done|]). split; [intros; lia|done].
    - destruct Hst as (_ & _ & planes & Hpl & Hlens & _ & Hval & Hold).
      rewrite Hpl in Hf3. injection Hf3 as <-.
      unfold deinterleaved. cbn [AVFrame.nb_samples AVFrame.format AVFrame.sample_rate
        AVFrame.nb_channels AVFrame.extended_data AVFrame.set_nb_samples
        AVFrame.set_extended_data].
      repeat (split; [done|]). split.
      + intros i ch Hi Hch.
        destruct (Hval Hsmall ch i) as (v & Hv & Hs'); [unfold copied; lia|].
        exists v. split; [|exact Hs'].
        unfold float_at. rewrite Hl.
        destruct (Z.ltb_spec (i * AVFrame.nb_channels f0 + ch) 0); [nia|done].
      + intros i ch Hnot. apply (Hold ch i). unfold copied. lia. }
  split; [done|].
  split; [|split; [done|split; [done|done]]].
  apply events_since_app. by rewrite Htr, Htr3, <- app_assoc.
Qed.

End Encode_layout.

Section Encode_layout_kept.

Variable lib : codec_library.

Lemma deinterleave_loop_layout fp inp n C f0 w w3 :
  objs w !! fp = Some (OFrame f0) ->
  deinterleave_loop fp inp n C w = Ok tt w3 ->
  same_layout w w3.
Proof.
  intros Hfp H.
  destruct (deinterleave_loop_inv _ _ _ _ _ _ Hfp _ H)
    as (Ho & Hoth & (planes & Hpl) & (loads & Htr & Hld)).
  split; [done|]. split.
  - by eapply same_shape_others.
  - exists loads. split; [done|].
    eapply Forall_impl; [exact Hld|].
    intros e (i & ch & _ & _ & -> & _). cbn. tauto.
Qed.

Lemma encode_samples_same_layout state input_buf num_frames output_buf
    output_buf_size w r w' :
  encode_samples lib state input_buf num_frames output_buf output_buf_size w
    = Ok r w' ->
  same_layout w w'.
Proof.
  intros H. apply encode_samples_inv in H.
  destruct H as [s f0 w3 f3 c c1 r1 Hs0 Hs Hf Hloop Hf3 Hc Hsend Hr1
                |s f0 w3 f3 c c1 r1 k0 c2 r2 bs Hs0 Hs Hf Hloop Hf3 Hc Hsend Hr1 Hk Hrecv Hr2
                |s f0 w3 f3 c c1 r1 k0 c2 r2 bs Hs0 Hs Hf Hloop Hf3 Hc Hsend Hr1 Hk Hrecv Hr2 Hbig
                |s f0 w3 f3 c c1 r1 k0 c2 r2 bs Hs0 Hs Hf Hloop Hf3 Hc Hsend Hr1 Hk Hrecv Hr2 Hfit Hout].
  all: eapply same_layout_trans; [by eapply deinterleave_loop_layout|].
  all: split; [try done|split].
  all: cbv [packed_world submitted_world]; cbn [objs oom trace].
  all: try (eexists; split; [rewrite <- ?app_assoc; reflexivity|];
            repeat constructor; cbn; tauto).
  all: try (repeat (apply same_shape_step;
                    [|first [by rewrite Hf3 | by rewrite Hc | by rewrite Hk]]);
            apply same_shape_refl).
  all: destruct (decide (bs = [])) as [->|Hne]; cbn [copied_world objs oom trace].
  all: try done.
  all: try (repeat (apply same_shape_step;
                    [|first [by rewrite Hf3 | by rewrite Hc | by rewrite Hk]]);
            apply same_shape_refl).
  all: try (eexists; split; [rewrite <- ?app_assoc; reflexivity|];
            repeat constructor; cbn; tauto).
  all: destruct Hout as [->|(lo & Ho0 & Hlo & Hroom)]; [done|].
  all: assert (output_buf <> encoder_state.frame s) as Hof
         by (eapply (addr_neq (objs w3)); eauto; done).
  all: assert (output_buf <> encoder_state.ctx s) as Hoc
         by (eapply (addr_neq (objs w3)); eauto; done).
  all: assert (output_buf <> encoder_state.packet s) as Hok
         by (eapply (addr_neq (objs w3)); eauto; done).
  all: erewrite copied_world_nonempty;
         [|done|cbn [objs]; rewrite !lookup_insert_ne by done; exact Hlo].
  all: cbn [objs oom trace].
  - done.
  - apply same_shape_step; [|by rewrite Hk].
    apply same_shape_step.
    2: { rewrite Hlo. cbn. do 3 f_equal.
         rewrite length_app, length_drop. lia. }
    repeat (apply same_shape_step;
            [|first [by rewrite Hf3 | by rewrite Hc | by rewrite Hk]]).
    apply same_shape_refl.
  - eexists. split; [rewrite <- ?app_assoc; reflexivity|].
    repeat (apply Forall_cons; split; [cbn; tauto|]).
    apply Forall_forall. intros e He.
    apply elem_of_lookup_imap in He as (k & b & -> & _). cbn. tauto.
Qed.

End Encode_layout_kept.

Section Layout_encoder.

Lemma encoder_ready_layout w w' state s c f :
  encoder_ready w state s c f -> same_layout w w' ->
  exists c' f', encoder_ready w' state s c' f'.
Proof.
  intros (Hs0 & Hs & Hc0 & Hc & Hf0 & Hf & Hk0 & (k & Hk)) (_ & Hsh & _).
  pose proof (Hsh state) as Es. rewrite Hs in Es.
  pose proof (Hsh (encoder_state.ctx s)) as Ec. rewrite Hc in Ec.
  pose proof (Hsh (encoder_state.frame s)) as Ef. rewrite Hf in Ef.
  pose proof (Hsh (encoder_state.packet s)) as Ek. rewrite Hk in Ek.
  destruct (objs w' !! state) as [[]|] eqn:Es'; try discriminate.
  destruct (objs w' !! encoder_state.ctx s) as [[| |c'| | | | |]|] eqn:Ec';
    try discriminate.
  destruct (objs w' !! encoder_state.frame s) as [[| | |f'| | | |]|] eqn:Ef';
    try discriminate.
  destruct (objs w' !! encoder_state.packet s) as [[]|] eqn:Ek'; try discriminate.
  injection Es as ->.
  exists c', f'. unfold encoder_ready. rewrite Es', Ec', Ef', Ek'.
  repeat split; try done; by eexists.
Qed.

Lemma planes_hold_lengths f f' m :
  AVFrame.nb_channels f' = AVFrame.nb_channels f ->
  length <$> AVFrame.extended_data f' = length <$> AVFrame.extended_data f ->
  planes_hold f m -> planes_hold f' m.
Proof.
  intros Hch Hlen Hpl ch Hc. rewrite Hch in Hc.
  destruct (Hpl ch Hc) as (plane & Hp & Hroom).
  assert ((length <$> AVFrame.extended_data f') !! Z.to_nat ch = Some (length plane))
    as Hl by (by rewrite Hlen, list_lookup_fmap, Hp).
  rewrite list_lookup_fmap in Hl.
  destruct (AVFrame.extended_data f' !! Z.to_nat ch) as [plane'|]; [|done].
  injection Hl as Hl. exists plane'. split; [done|]. lia.
Qed.

End Layout_encoder.

(** ** The session between two calls *)

(** X2.  Whenever [decode_packet] or [flush_decoder] returns, whatever the
    code returned: no request reached the allocator and nothing was
    released, every address that was live is live and holds an object of the
    same kind, every buffer of the caller has its length, and the session
    struct holds the same three pointers.  A session that was fit for a call
    is fit for the next one. *)
Theorem decoder_calls_keep_layout lib :
  (forall state input_buf input_size output_buf out_frames out_sample_rate
          out_channels w r w',
     decode_packet lib state input_buf input_size output_buf
       out_frames out_sample_rate out_channels w = Ok r w' ->
     same_layout w w') /\
  (forall state w u w',
     flush_decoder lib state w = Ok u w' -> same_layout w w') /\
  (forall state input_buf input_size output_buf out_frames out_sample_rate
          out_channels w r w' s c,
     decoder_ready w state s c ->
     decode_packet lib state input_buf input_size output_buf
       out_frames out_sample_rate out_channels w = Ok r w' ->
     exists c', decoder_ready w' state s c') /\
  (forall state w u w' s c,
     decoder_ready w state s c ->
     flush_decoder lib state w = Ok u w' ->
     exists c', decoder_ready w' state s c').
Proof.
  split; [intros; by eapply decode_packet_same_layout|].
  split; [intros; by eapply flush_decoder_same_layout|].
  split.
  - intros * Hr H. eapply decoder_ready_layout; [exact Hr|].
    by eapply decode_packet_same_layout.
  - intros * Hr H. eapply decoder_ready_layout; [exact Hr|].
    by eapply flush_decoder_same_layout.
Qed.

Lemma decoder_calls_keep_layout_witness :
  same_layout demo_decoder demo_decoded /\
  exists c', decoder_ready demo_decoded 105 demo_decoder_state c'.
Proof.
  split.
  - apply (proj1 (decoder_calls_keep_layout demo_codec) 105 100 1 101 102 103 104
             demo_decoder 0 demo_decoded).
    vm_compute. reflexivity.
  - apply (proj1 (proj2 (proj2 (decoder_calls_keep_layout demo_codec)))
             105 100 1 101 102 103 104 demo_decoder 0 demo_decoded
             demo_decoder_state demo_decoder_ctx demo_decoder_ready).
    vm_compute. reflexivity.
Defined.



(** X4.  The frame [encode_samples] submits to the encoder, and leaves in
    the session, is the scratch frame with sample [i] of channel [ch] set to
    [input_buf[i * channels + ch]] for every [i] below [num_frames] and every
    channel; its sample count is [num_frames]; its format, sample rate,
    channel count, the lengths of its planes and every sample from
    [num_frames] on are those the scratch frame had. *)
Theorem encode_samples_deinterleaves lib state input_buf num_frames output_buf
    output_buf_size w r w' :
  encode_samples lib state input_buf num_frames output_buf output_buf_size w
    = Ok r w' ->
  exists s f0 fr r1 loads rest,
    objs w !! state = Some (OEncoder s) /\
    objs w !! encoder_state.frame s = Some (OFrame f0) /\
    events_since w w' = loads ++ EvSendFrame fr r1 :: rest /\
    deinterleaved w input_buf num_frames f0 fr /\
    objs w' !! encoder_state.frame s = Some (OFrame fr).
Proof.
  intros H. apply encode_samples_frame in H
    as (s & f0 & c & fr & c1 & r1 & loads & rest
        & _ & Hs & Hf & _ & Hde & _ & Hev & _ & _ & Hfw).
  by exists s, f0, fr, r1, loads, rest.
Qed.

Lemma encode_samples_deinterleaves_witness :
  exists s f0 fr r1 loads rest,
    objs demo_encoder !! 105 = Some (OEncoder s) /\
    objs demo_encoder !! encoder_state.frame s = Some (OFrame f0) /\
    events_since demo_encoder demo_encoded = loads ++ EvSendFrame fr r1 :: rest /\
    deinterleaved demo_encoder 98 3 f0 fr /\
    objs demo_encoded !! encoder_state.frame s = Some (OFrame fr).
Proof.
  apply (encode_samples_deinterleaves demo_codec 105 98 3 99 4 demo_encoder 2
           demo_encoded).
  vm_compute. reflexivity.
Defined.

(** ** Handing the packet to the caller *)

(** X5.  A return value of [encode_samples] that is not negative is the size
    of the packet the encoder produced, and is at most [output_buf_size].
    The bytes of the packet are then the first bytes of the output buffer,
    the rest of the buffer and its length are as they were, one byte store
    per byte of the packet is the only store of the call, every other buffer
    of the caller is unchanged, and the scratch packet is empty again. *)
Theorem encode_samples_copies_packet lib state input_buf num_frames output_buf
    output_buf_size w r w' :
  encode_samples lib state input_buf num_frames output_buf output_buf_size w
    = Ok r w' ->
  0 <= r ->
  exists s fr r1 r2 bs loads,
    objs w !! state = Some (OEncoder s) /\
    r = Z.of_nat (length bs) /\ r <= output_buf_size /\ 0 <= r1 /\ 0 <= r2 /\
    events_since w w' =
      loads ++ [EvSendFrame fr r1; EvReceivePacket r2 bs]
            ++ imap (fun k b => EvStoreB output_buf (Z.of_nat k) b) bs /\
    Forall (load_within input_buf num_frames (AVFrame.nb_channels fr)) loads /\
    objs w' !! encoder_state.packet s = Some (OPacket AVPacket.blank) /\
    (bs <> [] ->
     exists lo, objs w !! output_buf = Some (OBytes lo) /\
                (length bs <= length lo)%nat) /\
    (forall lo, objs w !! output_buf = Some (OBytes lo) ->
       objs w' !! output_buf = Some (OBytes (bs ++ drop (length bs) lo))) /\
    (forall p o, objs w !! p = Some o -> caller_owned o -> p <> output_buf ->
       objs w' !! p = Some o).
Proof.
  intros H Hr. apply encode_samples_inv in H.
  destruct H as [s f0 w3 f3 c c1 r1 Hs0 Hs Hf Hloop Hf3 Hc Hsend Hr1
                |s f0 w3 f3 c c1 r1 k0 c2 r2 bs Hs0 Hs Hf Hloop Hf3 Hc Hsend Hr1 Hk Hrecv Hr2
                |s f0 w3 f3 c c1 r1 k0 c2 r2 bs Hs0 Hs Hf Hloop Hf3 Hc Hsend Hr1 Hk Hrecv Hr2 Hbig
                |s f0 w3 f3 c c1 r1 k0 c2 r2 bs Hs0 Hs Hf Hloop Hf3 Hc Hsend Hr1 Hk Hrecv Hr2 Hfit Hout];
    try lia.
  pose proof (deinterleave_loop_inv _ _ _ _ _ _ Hf _ Hloop)
    as (_ & Hoth & _ & (loads & Htr3 & Hld)).
  assert (encoder_state.ctx s <> encoder_state.frame s) as Hcf
    by (eapply (addr_neq (objs w3)); eauto; done).
  assert (encoder_state.packet s <> encoder_state.frame s) as Hkf
    by (eapply (addr_neq (objs w3)); eauto; done).
  assert (encoder_state.packet s <> encoder_state.ctx s) as Hkc
    by (eapply (addr_neq (objs w3)); eauto; done).
  assert (forall p o, objs w !! p = Some o -> caller_owned o ->
            objs w3 !! p = Some o /\ p <> encoder_state.frame s /\
            p <> encoder_state.ctx s /\ p <> encoder_state.packet s) as Hown.
  { intros p o Hp Ho.
    assert (p <> encoder_state.frame s) as Hpf
      by (intros ->; rewrite Hf in Hp; injection Hp as <-; exact Ho).
    assert (objs w3 !! p = Some o) as Hp3 by (by rewrite Hoth).
    repeat split; try done.
    - intros ->. rewrite Hc in Hp3. injection Hp3 as <-. exact Ho.
    - intros ->. rewrite Hk in Hp3. injection Hp3 as <-. exact Ho. }
  assert (AVFrame.nb_channels f3 = AVFrame.nb_channels f0) as Hch.
  { destruct (deinterleave_loop_inv _ _ _ _ _ _ Hf _ Hloop)
      as (_ & _ & (planes & Hpl) & _).
    rewrite Hpl in Hf3. by injection Hf3 as <-. }
  exists s, (AVFrame.set_nb_samples num_frames f3), r1, r2, bs, loads.
  cbn [AVFrame.nb_channels AVFrame.set_nb_samples]. rewrite Hch.
  repeat (split; [done|]).
  destruct (decide (bs = [])) as [->|Hne].
  - cbv [copied_world packed_world submitted_world]. cbn [objs trace imap].
    split.
    { apply events_since_app. by rewrite Htr3, <- !app_assoc. }
    split; [done|]. split; [by rewrite lookup_insert_eq|].
    split; [done|]. split.
    + intros lo Hlo. destruct (Hown _ _ Hlo I) as (Hlo3 & ? & ? & ?).
      by rewrite !lookup_insert_ne by done.
    + intros p o Hp Ho _. destruct (Hown _ _ Hp Ho) as (Hp3 & ? & ? & ?).
      by rewrite !lookup_insert_ne by done.
  - destruct Hout as [->|(lo & Ho0 & Hlo & Hroom)]; [done|].
    assert (objs w !! output_buf = Some (OBytes lo)) as Hlow.
    { assert (output_buf <> encoder_state.frame s)
        by (eapply (addr_neq (objs w3)); eauto; done).
      by rewrite <- Hoth. }
    destruct (Hown _ _ Hlow I) as (_ & ? & ? & ?).
    erewrite copied_world_nonempty;
      [|done|cbv [packed_world submitted_world]; cbn [objs];
             rewrite !lookup_insert_ne by done; exact Hlo].
    cbv [packed_world submitted_world]. cbn [objs trace].
    split.
    { apply events_since_app. by rewrite Htr3, <- !app_assoc. }
    split; [done|]. split; [by rewrite lookup_insert_eq|].
    split; [intros _; by exists lo|]. split.
    + intros lo' Hlo'. rewrite Hlow in Hlo'. injection Hlo' as <-.
      by rewrite lookup_insert_ne, lookup_insert_eq by done.
    + intros p o Hp Ho Hpo. destruct (Hown _ _ Hp Ho) as (Hp3 & ? & ? & ?).
      by rewrite !lookup_insert_ne by done.
Qed.

Lemma encode_samples_copies_packet_witness :
  exists s fr r1 r2 bs loads,
    objs demo_encoder !! 105 = Some (OEncoder s) /\
    2 = Z.of_nat (length bs) /\ 2 <= 4 /\ 0 <= r1 /\ 0 <= r2 /\
    events_since demo_encoder demo_encoded =
      loads ++ [EvSendFrame fr r1; EvReceivePacket r2 bs]
            ++ imap (fun k b => EvStoreB 99 (Z.of_nat k) b) bs /\
    Forall (load_within 98 3 (AVFrame.nb_channels fr)) loads /\
    objs demo_encoded !! encoder_state.packet s = Some (OPacket AVPacket.blank) /\
    (bs <> [] ->
     exists lo, objs demo_encoder !! 99 = Some (OBytes lo) /\
                (length bs <= length lo)%nat) /\
    (forall lo, objs demo_encoder !! 99 = Some (OBytes lo) ->
       objs demo_encoded !! 99 = Some (OBytes (bs ++ drop (length bs) lo))) /\
    (forall p o, objs demo_encoder !! p = Some o -> caller_owned o -> p <> 99 ->
       objs demo_encoded !! p = Some o).
Proof.
  apply (encode_samples_copies_packet demo_codec 105 98 3 99 4 demo_encoder 2
           demo_encoded).
  - vm_compute. reflexivity.
  - lia.
Defined.

(** ** Creation when memory is available *)

Ltac grant H Hg :=
  match type of H with
  | bind (alloc ?o) _ ?W = _ =>
      rewrite (bind_run _ _ _ _ _ (alloc_granted o W Hg)) in H; cbv beta in H;
      cbn [objs oom trace] in H
  end.

Section Creation_granted.

Variable lib : codec_library.

Lemma all_granted_4 l :
  all_granted 4 l = true ->
  hd true l = true /\ hd true (tl l) = true /\ hd true (tl (tl l)) = true /\
  hd true (tl (tl (tl l))) = true.
Proof.
  cbn [all_granted]. intros H.
  repeat (apply andb_prop in H as [? H]). done.
Qed.

Lemma all_granted_5 l :
  all_granted 5 l = true ->
  hd true l = true /\ hd true (tl l) = true /\ hd true (tl (tl l)) = true /\
  hd true (tl (tl (tl l))) = true /\ hd true (tl (tl (tl (tl l)))) = true.
Proof.
  cbn [all_granted]. intros H.
  repeat (apply andb_prop in H as [? H]). done.
Qed.

(** With memory for its four objects, a known codec and a successful open,
    [init_decoder] returns a session that is fit for a call. *)
Lemma init_decoder_granted codec_id sample_rate channels w codec c r :
  all_granted 4 (oom w) = true ->
  find_decoder lib codec_id = Some codec ->
  open2 lib codec (decoder_config sample_rate channels) = (c, r) -> 0 <= r ->
  exists p w' s,
    init_decoder lib codec_id sample_rate channels w = Ok p w' /\
    p <> NULL /\ decoder_ready w' p s c /\
    objs w' !! decoder_state.frame s = Some (OFrame AVFrame.blank) /\
    objs w' !! decoder_state.packet s = Some (OPacket AVPacket.blank) /\
    (forall q o, objs w !! q = Some o -> objs w' !! q = Some o) /\
    events_since w w' =
      [EvAlloc p; EvAlloc (decoder_state.ctx s); EvOpen r;
       EvAlloc (decoder_state.frame s); EvAlloc (decoder_state.packet s)].
Proof.
  intros G Ef Eo Hr. apply all_granted_4 in G as (G1 & G2 & G3 & G4).
  remember (init_decoder lib codec_id sample_rate channels w) as out eqn:H.
  symmetry in H. revert H. unfold init_decoder, avcodec_find_decoder. rewrite Ef.
  unfold malloc_decoder_state, avcodec_alloc_context3, av_frame_alloc,
    av_packet_alloc, av_channel_layout_default.
  intros H.
  grant H G1. note_fresh p1 (objs w).
  grant H G2.
  match type of H with context [fresh_addr ?M] => note_fresh p2 M end.
  assert ((p1 =? NULL) = false) as Ep1 by (by apply Z.eqb_neq).
  assert ((p2 =? NULL) = false) as Ep2 by (by apply Z.eqb_neq).
  repeat hfwd H.
  rewrite !insert_insert_eq in H.
  fold (decoder_config sample_rate channels) in H.
  erewrite bind_run in H
    by (eapply avcodec_open2_run; [done| |exact Eo]; cbn [objs];
        by rewrite lookup_insert_eq).
  cbv beta in H; cbn [objs oom trace] in H. rewrite !insert_insert_eq in H.
  destruct (Z.ltb_spec r 0) as [Hneg|_]; [lia|].
  unfold decoder_state.set_ctx in H;
    cbn [decoder_state.frame decoder_state.packet] in H.
  grant H G3.
  match type of H with context [fresh_addr ?M] => note_fresh p3 M end.
  hfwd H.
  unfold decoder_state.set_frame in H;
    cbn [decoder_state.ctx decoder_state.frame decoder_state.packet] in H.
  grant H G4.
  match type of H with context [fresh_addr ?M] => note_fresh p4 M end.
  hfwd H.
  unfold decoder_state.set_packet in H;
    cbn [decoder_state.ctx decoder_state.frame decoder_state.packet] in H.
  subst out. unfold pure.
  eexists p1, _, (decoder_state.mk p2 p3 p4). split; [reflexivity|].
  split; [done|]. unfold decoder_ready.
  cbn [objs decoder_state.ctx decoder_state.frame decoder_state.packet].
  split; [repeat split; first [done | lookup | (eexists; lookup)]|].
  repeat (split; [first [done | lookup]|]).
  split.
  - intros q o Hq. by rewrite !lookup_insert_ne by (intros <-; congruence).
  - unfold events_since. cbn [trace]. rewrite <- !app_assoc.
    by rewrite drop_app_length.
Qed.

End Creation_granted.

Section Creation_granted_encoder.

Variable lib : codec_library.

(** With memory for its objects and for the planes, a known codec and a
    successful open, [init_encoder] returns a session that is fit for a
    call; its scratch frame carries the planes when the request for them is
    valid. *)
Lemma init_encoder_granted codec_id sample_rate channels bitrate w codec c r :
  all_granted 5 (oom w) = true ->
  find_encoder lib codec_id = Some codec ->
  open2 lib codec (encoder_config sample_rate channels bitrate) = (c, r) -> 0 <= r ->
  exists p w' s f,
    init_encoder lib codec_id sample_rate channels bitrate w = Ok p w' /\
    p <> NULL /\ encoder_ready w' p s c f /\
    f = (if buffer_request_valid (encoder_frame c sample_rate)
         then AVFrame.set_extended_data (fresh_planes (encoder_frame c sample_rate))
                (encoder_frame c sample_rate)
         else encoder_frame c sample_rate) /\
    objs w' !! encoder_state.packet s = Some (OPacket AVPacket.blank) /\
    (forall q o, objs w !! q = Some o -> objs w' !! q = Some o).
Proof.
  intros G Ef Eo Hr. apply all_granted_5 in G as (G1 & G2 & G3 & G4 & G5).
  remember (init_encoder lib codec_id sample_rate channels bitrate w) as out eqn:H.
  symmetry in H. revert H. unfold init_encoder, avcodec_find_encoder. rewrite Ef.
  unfold malloc_encoder_state, avcodec_alloc_context3, av_frame_alloc,
    av_packet_alloc.
  intros H.
  grant H G1. note_fresh p1 (objs w).
  grant H G2.
  match type of H with context [fresh_addr ?M] => note_fresh p2 M end.
  assert ((p1 =? NULL) = false) as Ep1 by (by apply Z.eqb_neq).
  assert ((p2 =? NULL) = false) as Ep2 by (by apply Z.eqb_neq).
  repeat hfwd H.
  rewrite !insert_insert_eq in H.
  fold (encoder_config sample_rate channels bitrate) in H.
  erewrite bind_run in H
    by (eapply avcodec_open2_run; [done| |exact Eo]; cbn [objs];
        by rewrite lookup_insert_eq).
  cbv beta in H; cbn [objs oom trace] in H. rewrite !insert_insert_eq in H.
  destruct (Z.ltb_spec r 0) as [Hneg|_]; [lia|].
  unfold encoder_state.set_ctx in H;
    cbn [encoder_state.frame encoder_state.packet] in H.
  grant H G3.
  match type of H with context [fresh_addr ?M] => note_fresh p3 M end.
  repeat hfwd H.
  unfold encoder_state.set_frame in H;
    cbn [encoder_state.ctx encoder_state.frame encoder_state.packet] in H.
  match type of H with
  | bind (av_frame_get_buffer ?fp) _ ?W = _ =>
      destruct (av_frame_get_buffer_cases fp W (encoder_frame c sample_rate))
        as [[Hv Hg]|[(Hv & Hh & Hg)|(Hv & Hh & Hg)]];
        [done | cbn [objs]; by rewrite lookup_insert_eq | | |];
        rewrite (bind_run _ _ _ _ _ Hg) in H; cbv beta in H; clear Hg;
        cbn [objs oom trace] in H; try cbn [oom] in Hh
  end.
  2: congruence.
  1: grant H G4.
  2: grant H G5.
  all: match type of H with context [fresh_addr ?M] => note_fresh p4 M end.
  all: hfwd H.
  all: unfold encoder_state.set_packet in H;
    cbn [encoder_state.ctx encoder_state.frame encoder_state.packet] in H.
  all: subst out; unfold pure.
  all: eexists p1, _, (encoder_state.mk p2 p3 p4), _.
  all: split; [reflexivity|].
  all: split; [done|]. 
  all: unfold encoder_ready.
  all: cbn [objs encoder_state.ctx encoder_state.frame encoder_state.packet].
  all: split; [repeat split; first [done | lookup | (eexists; lookup)]|].
  all: rewrite Hv.
  all: split; [reflexivity|].
  all: split; [lookup|].
  all: intros q o Hq; by rewrite !lookup_insert_ne by (intros <-; congruence).
Qed.

End Creation_granted_encoder.

(** X6.  When the allocator grants its four requests, [init_decoder]
    returns, and returns a session exactly when the library knows the codec
    and [avcodec_open2] does not fail on the context configured with the
    sample rate and the channel count asked for.  The session is then fit for
    a first call: its struct points to three distinct live objects, the
    context as [avcodec_open2] left it, an empty frame and an empty packet;
    the caller's memory is as it was. *)
Theorem init_decoder_ready lib codec_id sample_rate channels w :
  all_granted 4 (oom w) = true ->
  exists p w',
    init_decoder lib codec_id sample_rate channels w = Ok p w' /\
    (p <> NULL <->
     exists codec, find_decoder lib codec_id = Some codec /\
       0 <= snd (open2 lib codec (decoder_config sample_rate channels))) /\
    (p <> NULL ->
     exists codec s,
       find_decoder lib codec_id = Some codec /\
       decoder_ready w' p s
         (fst (open2 lib codec (decoder_config sample_rate channels))) /\
       objs w' !! decoder_state.frame s = Some (OFrame AVFrame.blank) /\
       objs w' !! decoder_state.packet s = Some (OPacket AVPacket.blank) /\
       (forall q o, objs w !! q = Some o -> objs w' !! q = Some o)).
Proof.
  intros G.
  destruct (find_decoder lib codec_id) as [codec|] eqn:Ef.
  2: { exists NULL, w. split.
       - unfold init_decoder, avcodec_find_decoder. by rewrite Ef.
       - split; [|done]. split; [done|]. by intros (codec & ? & _). }
  destruct (open2 lib codec (decoder_config sample_rate channels)) as [c r] eqn:Eo.
  destruct (Z_lt_ge_dec r 0) as [Hneg|Hpos].
  - pose proof G as G'. apply all_granted_4 in G' as (G1 & G2 & _).
    destruct (init_decoder_returns lib codec_id sample_rate channels w G1 G2)
      as (p & w' & H).
    exists p, w'. split; [done|].
    assert (p = NULL) as ->.
    { destruct (init_decoder_spec _ _ _ _ _ _ _ H)
        as [[-> _]|(s & codec' & c' & r' & Ef' & Eo' & Hr' & _)]; [done|].
      rewrite Ef in Ef'. injection Ef' as <-. rewrite Eo in Eo'.
      injection Eo' as <- <-. lia. }
    split; [|done]. split; [done|].
    intros (codec' & Ef' & Hr'). injection Ef' as <-. rewrite Eo in Hr'.
    cbn in Hr'. lia.
  - destruct (init_decoder_granted lib codec_id sample_rate channels w codec c r
                G Ef Eo ltac:(lia))
      as (p & w' & s & H & Hp & Hready & Hf & Hk & Hkeep & _).
    exists p, w'. split; [done|]. split.
    + split; [|done]. intros _. exists codec. rewrite Eo. cbn. split; [done|lia].
    + intros _. exists codec, s. by rewrite Eo.
Qed.

Lemma init_decoder_ready_witness :
  exists p w',
    init_decoder demo_codec 7 48000 2 demo_world = Ok p w' /\
    (p <> NULL <->
     exists codec, find_decoder demo_codec 7 = Some codec /\
       0 <= snd (open2 demo_codec codec (decoder_config 48000 2))) /\
    (p <> NULL ->
     exists codec s,
       find_decoder demo_codec 7 = Some codec /\
       decoder_ready w' p s (fst (open2 demo_codec codec (decoder_config 48000 2))) /\
       objs w' !! decoder_state.frame s = Some (OFrame AVFrame.blank) /\
       objs w' !! decoder_state.packet s = Some (OPacket AVPacket.blank) /\
       (forall q o, objs demo_world !! q = Some o -> objs w' !! q = Some o)).
Proof.
  apply (init_decoder_ready demo_codec 7 48000 2 demo_world). reflexivity.
Defined.

Section Capacity.

Lemma planes_hold_le f m m' : m' <= m -> planes_hold f m -> planes_hold f m'.
Proof.
  intros Hle Hpl ch Hch. destruct (Hpl ch Hch) as (plane & Hp & Hroom).
  exists plane. split; [done|]. lia.
Qed.

Lemma fresh_planes_hold f :
  is_planar (AVFrame.format f) = true ->
  planes_hold (AVFrame.set_extended_data (fresh_planes f) f) (AVFrame.nb_samples f).
Proof.
  intros Hp ch Hch. unfold fresh_planes. rewrite Hp.
  cbn [AVFrame.nb_channels AVFrame.extended_data AVFrame.set_extended_data] in *.
  eexists. split.
  - apply lookup_replicate_2. lia.
  - rewrite length_replicate. lia.
Qed.

End Capacity.

(** X7.  When the allocator grants its five requests, [init_encoder]
    returns, and returns a session exactly when the library knows the codec
    and [avcodec_open2] does not fail.  The scratch frame of the session has
    the frame size and the sample format of the opened context, the sample
    rate asked for and the channel count of the context.  When the opened
    context has a planar format, a positive frame size and a positive channel
    count, the frame has one plane per channel with room for a full frame
    period. *)
Theorem init_encoder_ready lib codec_id sample_rate channels bitrate w :
  all_granted 5 (oom w) = true ->
  exists p w',
    init_encoder lib codec_id sample_rate channels bitrate w = Ok p w' /\
    (p <> NULL <->
     exists codec, find_encoder lib codec_id = Some codec /\
       0 <= snd (open2 lib codec (encoder_config sample_rate channels bitrate))) /\
    (p <> NULL ->
     exists codec s f,
       find_encoder lib codec_id = Some codec /\
       encoder_ready w' p s
         (fst (open2 lib codec (encoder_config sample_rate channels bitrate))) f /\
       AVFrame.nb_samples f = AVCodecContext.frame_size
         (fst (open2 lib codec (encoder_config sample_rate channels bitrate))) /\
       AVFrame.format f = AVCodecContext.sample_fmt
         (fst (open2 lib codec (encoder_config sample_rate channels bitrate))) /\
       AVFrame.sample_rate f = sample_rate /\
       AVFrame.nb_channels f = AVCodecContext.nb_channels
         (fst (open2 lib codec (encoder_config sample_rate channels bitrate))) /\
       objs w' !! encoder_state.packet s = Some (OPacket AVPacket.blank) /\
       (forall q o, objs w !! q = Some o -> objs w' !! q = Some o) /\
       (is_planar (AVFrame.format f) = true -> 0 < AVFrame.nb_samples f ->
        0 < AVFrame.nb_channels f ->
        encoder_capacity w' p (AVFrame.nb_channels f) (AVFrame.nb_samples f))).
Proof.
  intros G.
  destruct (find_encoder lib codec_id) as [codec|] eqn:Ef.
  2: { exists NULL, w. split.
       - unfold init_encoder, avcodec_find_encoder. by rewrite Ef.
       - split; [|done]. split; [done|]. by intros (codec & ? & _). }
  destruct (open2 lib codec (encoder_config sample_rate channels bitrate))
    as [c r] eqn:Eo.
  destruct (Z_lt_ge_dec r 0) as [Hneg|Hpos].
  - pose proof G as G'. apply all_granted_5 in G' as (G1 & G2 & G3 & _).
    destruct (init_encoder_returns lib codec_id sample_rate channels bitrate w
                G1 G2 G3) as (p & w' & H).
    exists p, w'. split; [done|].
    assert (p = NULL) as ->.
    { destruct (init_encoder_spec _ _ _ _ _ _ _ _ H)
        as [[-> _]|(s & codec' & c' & r' & f' & Ef' & Eo' & Hr' & _)]; [done|].
      rewrite Ef in Ef'. injection Ef' as <-. rewrite Eo in Eo'.
      injection Eo' as <- <-. lia. }
    split; [|done]. split; [done|].
    intros (codec' & Ef' & Hr'). injection Ef' as <-. rewrite Eo in Hr'.
    cbn in Hr'. lia.
  - destruct (init_encoder_granted lib codec_id sample_rate channels bitrate w
                codec c r G Ef Eo ltac:(lia))
      as (p & w' & s & f & H & Hp & Hready & Hf & Hk & Hkeep).
    exists p, w'. split; [done|]. split.
    + split; [|done]. intros _. exists codec. rewrite Eo. cbn. split; [done|lia].
    + intros _. exists codec, s, f. rewrite Eo. cbn [fst].
      assert (AVFrame.nb_samples f = AVCodecContext.frame_size c /\
              AVFrame.format f = AVCodecContext.sample_fmt c /\
              AVFrame.sample_rate f = sample_rate /\
              AVFrame.nb_channels f = AVCodecContext.nb_channels c)
        as (E1 & E2 & E3 & E4)
        by (rewrite Hf; by destruct (buffer_request_valid _)).
      repeat (split; [done|]).
      intros Hpl Hn Hc. exists s, c, f. split; [done|]. split; [done|].
      assert (buffer_request_valid (encoder_frame c sample_rate) = true) as Hv.
      { unfold buffer_request_valid, encoder_frame.
        cbn [AVFrame.format AVFrame.nb_samples AVFrame.nb_channels].
        rewrite <- E1, <- E2, <- E4.
        destruct (AVFrame.format f); try discriminate;
          cbn; destruct (Z.leb_spec (AVFrame.nb_samples f) 0); try lia;
          destruct (Z.leb_spec (AVFrame.nb_channels f) 0); try lia; done. }
      rewrite Hv in Hf.
      assert (is_planar (AVFrame.format (encoder_frame c sample_rate)) = true) as Hpl'
        by (unfold encoder_frame; cbn [AVFrame.format]; by rewrite <- E2).
      rewrite Hf. exact (fresh_planes_hold (encoder_frame c sample_rate) Hpl').
Qed.

Lemma init_encoder_ready_witness :
  exists p w',
    init_encoder demo_codec 7 48000 2 192000 demo_world = Ok p w' /\
    (p <> NULL <->
     exists codec, find_encoder demo_codec 7 = Some codec /\
       0 <= snd (open2 demo_codec codec (encoder_config 48000 2 192000))) /\
    (p <> NULL ->
     exists codec s f,
       find_encoder demo_codec 7 = Some codec /\
       encoder_ready w' p s
         (fst (open2 demo_codec codec (encoder_config 48000 2 192000))) f /\
       AVFrame.nb_samples f = AVCodecContext.frame_size
         (fst (open2 demo_codec codec (encoder_config 48000 2 192000))) /\
       AVFrame.format f = AVCodecContext.sample_fmt
         (fst (open2 demo_codec codec (encoder_config 48000 2 192000))) /\
       AVFrame.sample_rate f = 48000 /\
       AVFrame.nb_channels f = AVCodecContext.nb_channels
         (fst (open2 demo_codec codec (encoder_config 48000 2 192000))) /\
       objs w' !! encoder_state.packet s = Some (OPacket AVPacket.blank) /\
       (forall q o, objs demo_world !! q = Some o -> objs w' !! q = Some o) /\
       (is_planar (AVFrame.format f) = true -> 0 < AVFrame.nb_samples f ->
        0 < AVFrame.nb_channels f ->
        encoder_capacity w' p (AVFrame.nb_channels f) (AVFrame.nb_samples f))).
Proof.
  apply (init_encoder_ready demo_codec 7 48000 2 192000 demo_world). reflexivity.
Defined.

(** ** Short frames, call after call *)

Section Capacity_kept.

Variable lib : codec_library.

Lemma encode_samples_keeps_capacity state input_buf num_frames output_buf
    output_buf_size w r w' C fs :
  encoder_capacity w state C fs ->
  encode_samples lib state input_buf num_frames output_buf output_buf_size w
    = Ok r w' ->
  encoder_capacity w' state C fs.
Proof.
  intros (s & c & f & Hr & HC & Hpl) H.
  destruct (encoder_ready_layout _ _ _ _ _ _ Hr
              (encode_samples_same_layout _ _ _ _ _ _ _ _ _ H))
    as (c' & f' & Hr').
  apply encode_samples_frame in H
    as (s0 & f0 & c0 & fr & c1 & r1 & loads & rest
        & _ & Hs & Hf & _ & Hde & _ & _ & _ & _ & Hfw).
  destruct Hr as (_ & Hs' & _ & _ & _ & Hf' & _).
  rewrite Hs' in Hs. injection Hs as <-. rewrite Hf' in Hf. injection Hf as <-.
  pose proof Hr' as (_ & _ & _ & _ & _ & Hf2 & _).
  rewrite Hfw in Hf2. injection Hf2 as <-.
  destruct Hde as (_ & _ & _ & Hch & Hlen & _).
  exists s, c', fr. split; [done|]. split; [congruence|].
  by eapply planes_hold_lengths.
Qed.

End Capacity_kept.

(** X8.  An encoder session whose scratch frame has [C] channels with room
    for [fs] samples each keeps that room through every [encode_samples]
    call that returns, whatever its frame count and whatever it returned; and
    on such a session a call with a frame count of at most [fs], an input of
    [num_frames * C] floats and an output buffer as long as the capacity
    passed runs to the end.  So a session can be given frames shorter than
    the frame period again and again. *)
Theorem encoder_capacity_kept lib :
  (forall state input_buf num_frames output_buf output_buf_size w r w' C fs,
     encoder_capacity w state C fs ->
     encode_samples lib state input_buf num_frames output_buf output_buf_size w
       = Ok r w' ->
     encoder_capacity w' state C fs) /\
  (forall state input_buf num_frames output_buf output_buf_size w C fs l lo,
     encoder_capacity w state C fs ->
     num_frames <= fs ->
     input_buf <> NULL -> objs w !! input_buf = Some (OFloats l) ->
     num_frames * C <= Z.of_nat (length l) -> num_frames * C <= 2 ^ 31 ->
     output_buf <> NULL -> objs w !! output_buf = Some (OBytes lo) ->
     output_buf_size <= Z.of_nat (length lo) ->
     exists r w',
       encode_samples lib state input_buf num_frames output_buf output_buf_size w
         = Ok r w' /\
       encoder_capacity w' state C fs).
Proof.
  split; [intros; by eapply encode_samples_keeps_capacity|].
  intros * Hcap Hn Hi0 Hi Hlen Hsmall Ho0 Ho Hroom.
  pose proof Hcap as (s & c & f & Hr & HC & Hpl).
  destruct (encode_samples_runs lib state input_buf num_frames output_buf
              output_buf_size w s c f l lo) as (r & w' & H); try done.
  - by eapply planes_hold_le.
  - by rewrite HC.
  - by rewrite HC.
  - exists r, w'. split; [done|]. by eapply encode_samples_keeps_capacity.
Qed.

Lemma demo_encoder_capacity : encoder_capacity demo_encoder 105 2 3.
Proof.
  exists demo_encoder_state, demo_encoder_ctx, demo_encoder_frame.
  split; [exact demo_encoder_ready|]. split; [reflexivity|exact demo_planes_hold].
Defined.

Lemma encoder_capacity_kept_witness :
  encoder_capacity demo_encoded 105 2 3 /\
  exists r w',
    encode_samples demo_codec 105 98 2 99 4 demo_encoded = Ok r w' /\
    encoder_capacity w' 105 2 3.
Proof.
  assert (encoder_capacity demo_encoded 105 2 3) as Hcap.
  { apply (proj1 (encoder_capacity_kept demo_codec) 105 98 3 99 4 demo_encoder 2
             demo_encoded 2 3 demo_encoder_capacity).
    vm_compute. reflexivity. }
  split; [exact Hcap|].
  apply (proj2 (encoder_capacity_kept demo_codec) 105 98 2 99 4 demo_encoded 2 3
           [1; 2; 3; 4; 5; 6] [Byte.x0b; Byte.x77; Byte.x00; Byte.x00] Hcap).
  - lia.
  - discriminate.
  - reflexivity.
  - vm_compute. discriminate.
  - vm_compute. discriminate.
  - discriminate.
  - reflexivity.
  - vm_compute. discriminate.
Defined.

(** ** From creation to destruction *)

Section Footprint.

Variable lib : codec_library.

(** What [init_decoder] adds to the store is what the struct it returns
    points to, and the struct. *)
Lemma init_decoder_footprint codec_id sample_rate channels w p w' :
  init_decoder lib codec_id sample_rate channels w = Ok p w' -> p <> NULL ->
  exists s,
    objs w' !! p = Some (ODecoder s) /\
    forall q : ptr, q <> p -> q <> decoder_state.ctx s ->
      q <> decoder_state.frame s \/ decoder_state.frame s = NULL ->
      q <> decoder_state.packet s \/ decoder_state.packet s = NULL ->
      objs w' !! q = objs w !! q.
Proof.
  unfold init_decoder, avcodec_find_decoder.
  destruct (find_decoder lib codec_id) as [codec|] eqn:Ef;
    [|intros [= <- <-]; done].
  unfold malloc_decoder_state, avcodec_alloc_context3, av_frame_alloc,
    av_packet_alloc, av_channel_layout_default.
  intros H Hp.
  halloc H Ha; [halloc H Hb; hfault H|].
  note_fresh p1 (objs w).
  halloc H Hb; [hfwd H; hfwd H; hfault H|].
  match type of H with context [fresh_addr ?M] => note_fresh p2 M end.
  assert ((p1 =? NULL) = false) as Ep1 by (by apply Z.eqb_neq).
  assert ((p2 =? NULL) = false) as Ep2 by (by apply Z.eqb_neq).
  repeat hfwd H.
  rewrite !insert_insert_eq in H.
  destruct (open2 lib codec (decoder_config sample_rate channels)) as [c r] eqn:Eo.
  erewrite bind_run in H
    by (eapply avcodec_open2_run; [done| |exact Eo]; cbn [objs];
        by rewrite lookup_insert_eq).
  cbv beta in H; cbn [objs oom trace] in H. rewrite !insert_insert_eq in H.
  destruct (Z.ltb_spec r 0) as [Hneg|Hpos].
  { repeat hfwd H. by injection H as <- <-. }
  unfold decoder_state.set_ctx in H;
    cbn [decoder_state.frame decoder_state.packet] in H.
  halloc H Hc.
  all: try (match type of H with context [fresh_addr ?M] => note_fresh p3 M end).
  all: hfwd H.
  all: unfold decoder_state.set_frame in H;
    cbn [decoder_state.ctx decoder_state.frame decoder_state.packet] in H.
  all: halloc H Hd.
  all: try (match type of H with context [fresh_addr ?M] => note_fresh p4 M end).
  all: hfwd H.
  all: unfold decoder_state.set_packet in H;
    cbn [decoder_state.ctx decoder_state.frame decoder_state.packet] in H.
  all: injection H as <- <-.
  all: cbn [objs].
  all: eexists; split; [lookup|].
  all: cbn [decoder_state.ctx decoder_state.frame decoder_state.packet].
  all: intros q ? ? [?|?] [?|?]; try done.
  all: rewrite !lookup_insert_ne by congruence; done.
Qed.

Lemma init_encoder_footprint codec_id sample_rate channels bitrate w p w' :
  init_encoder lib codec_id sample_rate channels bitrate w = Ok p w' -> p <> NULL ->
  exists s,
    objs w' !! p = Some (OEncoder s) /\
    forall q : ptr, q <> p -> q <> encoder_state.ctx s ->
      q <> encoder_state.frame s \/ encoder_state.frame s = NULL ->
      q <> encoder_state.packet s \/ encoder_state.packet s = NULL ->
      objs w' !! q = objs w !! q.
Proof.
  unfold init_encoder, avcodec_find_encoder.
  destruct (find_encoder lib codec_id) as [codec|] eqn:Ef;
    [|intros [= <- <-]; done].
  unfold malloc_encoder_state, avcodec_alloc_context3, av_frame_alloc,
    av_packet_alloc.
  intros H Hp.
  halloc H Ha; [halloc H Hb; hfault H|].
  note_fresh p1 (objs w).
  halloc H Hb; [hfwd H; hfwd H; hfault H|].
  match type of H with context [fresh_addr ?M] => note_fresh p2 M end.
  assert ((p1 =? NULL) = false) as Ep1 by (by apply Z.eqb_neq).
  assert ((p2 =? NULL) = false) as Ep2 by (by apply Z.eqb_neq).
  repeat hfwd H.
  rewrite !insert_insert_eq in H.
  destruct (open2 lib codec (encoder_config sample_rate channels bitrate))
    as [c r] eqn:Eo.
  erewrite bind_run in H
    by (eapply avcodec_open2_run; [done| |exact Eo]; cbn [objs];
        by rewrite lookup_insert_eq).
  cbv beta in H; cbn [objs oom trace] in H. rewrite !insert_insert_eq in H.
  destruct (Z.ltb_spec r 0) as [Hneg|Hpos].
  { repeat hfwd H. by injection H as <- <-. }
  unfold encoder_state.set_ctx in H;
    cbn [encoder_state.frame encoder_state.packet] in H.
  halloc H Hc; [repeat hfwd H; hfault H|].
  match type of H with context [fresh_addr ?M] => note_fresh p3 M end.
  repeat hfwd H.
  unfold encoder_state.set_frame in H;
    cbn [encoder_state.ctx encoder_state.frame encoder_state.packet] in H.
  match type of H with
  | bind (av_frame_get_buffer ?fp) _ ?W = _ =>
      destruct (av_frame_get_buffer_cases fp W (encoder_frame c sample_rate))
        as [[Hv Hg]|[(Hv & Hh & Hg)|(Hv & Hh & Hg)]];
        [done | cbn [objs]; by rewrite lookup_insert_eq | | |];
        rewrite (bind_run _ _ _ _ _ Hg) in H; cbv beta in H; clear Hg;
        cbn [objs oom trace] in H; try cbn [oom] in Hh
  end.
  all: halloc H Hd.
  all: try (match type of H with context [fresh_addr ?M] => note_fresh p4 M end).
  all: hfwd H.
  all: unfold encoder_state.set_packet in H;
    cbn [encoder_state.ctx encoder_state.frame encoder_state.packet] in H.
  all: injection H as <- <-.
  all: cbn [objs].
  all: eexists; split; [lookup|].
  all: cbn [encoder_state.ctx encoder_state.frame encoder_state.packet].
  all: intros q ? ? [?|?] [?|?]; try done.
  all: rewrite !lookup_insert_ne by congruence; done.
Qed.

Lemma lookup_drop_obj (p q : ptr) (m : gmap Z obj) :
  drop_obj p m !! q = if decide (p <> NULL /\ q = p) then None else m !! q.
Proof.
  unfold drop_obj. destruct (Z.eqb_spec p NULL) as [->|Hp].
  - case_decide as Hd; [by destruct Hd|done].
  - case_decide as Hd.
    + destruct Hd as [_ ->]. apply lookup_delete_eq.
    + apply lookup_delete_ne. intros <-. by apply Hd.
Qed.

Lemma not_dropped (p q : ptr) : ~ (p <> NULL /\ q = p) -> q <> p \/ p = NULL.
Proof.
  intros H. destruct (decide (p = NULL)); [by right|left].
  intros ->. by apply H.
Qed.

Lemma new_or_null_frame w w' p :
  new_or_null w w' p (OFrame AVFrame.blank) -> frame_or_null w' p.
Proof. intros [->|(_ & _ & H)]; [by left|right; eauto]. Qed.

Lemma new_or_null_packet w w' p :
  new_or_null w w' p (OPacket AVPacket.blank) -> packet_or_null w' p.
Proof. intros [->|(_ & _ & H)]; [by left|right; eauto]. Qed.

Lemma new_or_null_free w w' (p : ptr) o :
  new_or_null w w' p o -> p <> NULL -> objs w !! p = None.
Proof. by intros [->|(_ & H & _)]. Qed.

End Footprint.

(** X9.  A session returned by [init_decoder] or [init_encoder], with all
    of its holders or with a holder left null by a failed allocation, is
    accepted by [close_decoder] or [close_encoder], and after the close the
    store is what it was before the session was created: everything the
    creation allocated has been released, and nothing else. *)
Theorem create_then_close lib :
  (forall codec_id sample_rate channels w p w',
     init_decoder lib codec_id sample_rate channels w = Ok p w' -> p <> NULL ->
     exists w'', close_decoder p w' = Ok tt w'' /\ objs w'' = objs w) /\
  (forall codec_id sample_rate channels bitrate w p w',
     init_encoder lib codec_id sample_rate channels bitrate w = Ok p w' ->
     p <> NULL ->
     exists w'', close_encoder p w' = Ok tt w'' /\ objs w'' = objs w).
Proof.
  split.
  - intros * H Hp.
    destruct (init_decoder_footprint _ _ _ _ _ _ _ H Hp) as (s & Hs & Hfoot).
    destruct (init_decoder_spec _ _ _ _ _ _ _ H)
      as [[-> _]|(s' & codec & c & r & _ & _ & _ & _ & Hfresh & Hs' & Hc0 & Hcf & Hc
                  & Hfr & Hpk & _)]; [done|].
    rewrite Hs in Hs'. injection Hs' as <-.
    eexists. split.
    + apply close_decoder_live; [done|done| | |].
      * by eapply new_or_null_frame.
      * by eapply new_or_null_packet.
      * right. eauto.
    + cbn [objs]. apply map_eq. intros q.
      destruct (decide (q = p)) as [->|Hqp]; [by rewrite lookup_delete_eq|].
      rewrite lookup_delete_ne by done. rewrite !lookup_drop_obj.
      repeat case_decide; try (destruct_and?; subst);
        try (symmetry; first [exact Hcf | by eapply new_or_null_free]).
      apply Hfoot; try done; try (by apply not_dropped).
      by destruct (not_dropped (decoder_state.ctx s) q).
  - intros * H Hp.
    destruct (init_encoder_footprint _ _ _ _ _ _ _ _ H Hp) as (s & Hs & Hfoot).
    destruct (init_encoder_spec _ _ _ _ _ _ _ _ H)
      as [[-> _]|(s' & codec & c & r & f & _ & _ & _ & _ & Hfresh & Hs' & Hc0 & Hcf & Hc
                  & Hf0 & Hff & Hf & _ & Hpk & _)]; [done|].
    rewrite Hs in Hs'. injection Hs' as <-.
    eexists. split.
    + apply close_encoder_live; [done|done| | |].
      * right. eauto.
      * by eapply new_or_null_packet.
      * right. eauto.
    + cbn [objs]. apply map_eq. intros q.
      destruct (decide (q = p)) as [->|Hqp]; [by rewrite lookup_delete_eq|].
      rewrite lookup_delete_ne by done. rewrite !lookup_drop_obj.
      repeat case_decide; try (destruct_and?; subst);
        try (symmetry; first [exact Hcf | exact Hff | by eapply new_or_null_free]).
      apply Hfoot; try done; try (by apply not_dropped).
      by destruct (not_dropped (encoder_state.ctx s) q).
Qed.

Lemma create_then_close_witness :
  (exists w'', close_decoder 105 short_decoder = Ok tt w'' /\
               objs w'' = objs short_world) /\
  (exists w'', close_encoder 105 demo_encoder = Ok tt w'' /\
               objs w'' = objs demo_world).
Proof.
  split.
  - apply (proj1 (create_then_close demo_codec) 7 48000 2 short_world 105
             short_decoder).
    + vm_compute. reflexivity.
    + discriminate.
  - apply (proj2 (create_then_close demo_codec) 7 48000 2 192000 demo_world 105
             demo_encoder).
    + vm_compute. reflexivity.
    + discriminate.
Defined.

(** ** After destruction *)

Section Dead_session.

Variable lib : codec_library.

Lemma get_decoder_dead (p : ptr) w : objs w !! p = None -> get_decoder p w = Fault.
Proof.
  intros H. unfold get_decoder, bind, deref. destruct (p =? NULL); [done|].
  by rewrite H.
Qed.

Lemma get_encoder_dead (p : ptr) w : objs w !! p = None -> get_encoder p w = Fault.
Proof.
  intros H. unfold get_encoder, bind, deref. destruct (p =? NULL); [done|].
  by rewrite H.
Qed.

Lemma dead_decoder state w :
  state <> NULL -> objs w !! state = None ->
  (forall input_buf input_size output_buf out_frames out_sample_rate out_channels,
     decode_packet lib state input_buf input_size output_buf
       out_frames out_sample_rate out_channels w = Fault) /\
  flush_decoder lib state w = Fault /\
  close_decoder state w = Fault.
Proof.
  intros H0 Hd. pose proof (get_decoder_dead _ _ Hd) as Hg.
  assert ((state =? NULL) = false) as E by (by apply Z.eqb_neq).
  split; [|split].
  - intros. unfold decode_packet. by apply bind_fault.
  - unfold flush_decoder. rewrite E. apply bind_fault.
    cbn [dec_ctx rd]. by apply bind_fault.
  - unfold close_decoder. rewrite E. apply bind_fault.
    cbn [dec_frame rd]. by apply bind_fault.
Qed.

Lemma dead_encoder state w :
  state <> NULL -> objs w !! state = None ->
  (forall input_buf num_frames output_buf output_buf_size,
     encode_samples lib state input_buf num_frames output_buf output_buf_size w
       = Fault) /\
  close_encoder state w = Fault.
Proof.
  intros H0 Hd. pose proof (get_encoder_dead _ _ Hd) as Hg.
  assert ((state =? NULL) = false) as E by (by apply Z.eqb_neq).
  split.
  - intros. unfold encode_samples. by apply bind_fault.
  - unfold close_encoder. rewrite E. apply bind_fault.
    cbn [enc_frame rd]. by apply bind_fault.
Qed.

End Dead_session.

(** X10.  [close_decoder] and [close_encoder] leave the handle dangling:
    after the close of a live session the struct is no longer in the store,
    and any further call through the same handle, a second close included,
    has undefined behaviour. *)
Theorem closed_session_dead lib :
  (forall w state s,
     state <> NULL -> objs w !! state = Some (ODecoder s) ->
     frame_or_null w (decoder_state.frame s) ->
     packet_or_null w (decoder_state.packet s) ->
     ctx_or_null w (decoder_state.ctx s) ->
     exists w',
       close_decoder state w = Ok tt w' /\ objs w' !! state = None /\
       (forall input_buf input_size output_buf out_frames out_sample_rate
               out_channels,
          decode_packet lib state input_buf input_size output_buf
            out_frames out_sample_rate out_channels w' = Fault) /\
       flush_decoder lib state w' = Fault /\
       close_decoder state w' = Fault) /\
  (forall w state s,
     state <> NULL -> objs w !! state = Some (OEncoder s) ->
     frame_or_null w (encoder_state.frame s) ->
     packet_or_null w (encoder_state.packet s) ->
     ctx_or_null w (encoder_state.ctx s) ->
     exists w',
       close_encoder state w = Ok tt w' /\ objs w' !! state = None /\
       (forall input_buf num_frames output_buf output_buf_size,
          encode_samples lib state input_buf num_frames output_buf
            output_buf_size w' = Fault) /\
       close_encoder state w' = Fault).
Proof.
  split.
  - intros w state s H0 Hs Hf Hk Hc.
    eexists. split; [by apply close_decoder_live|].
    assert (forall m : gmap Z obj, delete state m !! state = None) as Hdel
      by (intros; apply lookup_delete_eq).
    split; [apply Hdel|]. apply dead_decoder; [done|apply Hdel].
  - intros w state s H0 Hs Hf Hk Hc.
    eexists. split; [by apply close_encoder_live|].
    assert (forall m : gmap Z obj, delete state m !! state = None) as Hdel
      by (intros; apply lookup_delete_eq).
    split; [apply Hdel|]. apply dead_encoder; [done|apply Hdel].
Qed.

Lemma closed_session_dead_witness :
  exists w',
    close_decoder 105 demo_decoder = Ok tt w' /\ objs w' !! 105 = None /\
    (forall input_buf input_size output_buf out_frames out_sample_rate out_channels,
       decode_packet demo_codec 105 input_buf input_size output_buf
         out_frames out_sample_rate out_channels w' = Fault) /\
    flush_decoder demo_codec 105 w' = Fault /\
    close_decoder 105 w' = Fault.
Proof.
  apply (proj1 (closed_session_dead demo_codec) demo_decoder 105 demo_decoder_state).
  - discriminate.
  - reflexivity.
  - right. exists AVFrame.blank. reflexivity.
  - right. exists AVPacket.blank. reflexivity.
  - right. exists demo_decoder_ctx. reflexivity.
Defined.

(** ** What the caller finds in its out-parameters *)

(** X11.  After [decode_packet] has returned 0, the cell [out_channels]
    holds the channel count of the frame received, or that of the context
    when the frame has none; [out_sample_rate], unless it is the same cell,
    holds the sample rate of the frame, or that of the context when the frame
    has none; [out_frames], unless it is one of the other two cells, holds
    the sample count of the frame.  The three are written in that order, so
    among cells that coincide the last one written wins. *)
Theorem decode_packet_out_params lib state input_buf input_size output_buf
    out_frames out_sample_rate out_channels w w' :
  decode_packet lib state input_buf input_size output_buf
    out_frames out_sample_rate out_channels w = Ok 0 w' ->
  exists s c2 r2 fr,
    objs w !! state = Some (ODecoder s) /\
    In (EvReceiveFrame r2 fr) (events_since w w') /\
    objs w' !! decoder_state.ctx s = Some (OContext c2) /\
    objs w' !! out_channels =
      Some (OInt (if AVFrame.nb_channels fr =? 0 then AVCodecContext.nb_channels c2
                  else AVFrame.nb_channels fr)) /\
    (out_sample_rate <> out_channels ->
     objs w' !! out_sample_rate =
       Some (OInt (if AVFrame.sample_rate fr =? 0 then AVCodecContext.sample_rate c2
                   else AVFrame.sample_rate fr))) /\
    (out_frames <> out_sample_rate -> out_frames <> out_channels ->
     objs w' !! out_frames = Some (OInt (AVFrame.nb_samples fr))).
Proof.
  intros H.
  pose proof (decode_packet_reports _ _ _ _ _ _ _ _ _ _ H)
    as (s0 & c0 & payload0 & c10 & r10 & c20 & r20 & fr0 & stores
        & Hs0' & Hc0' & Hpay0 & Es0 & Er0 & Hc2 & Htr).
  apply decode_success in H
    as (s & c & k0 & f0 & payload & c1 & r1 & c2 & r2 & fr & w3 & x1 & x2 & x3
        & Hs0 & Hs & Hc & Hk & Hf & Hpay & Hsend & Hr1 & Hrecv & Hr2 & Hloop
        & Hx1 & Hx2 & Hx3 & ->).
  rewrite Hs in Hs0'. injection Hs0' as <-.
  assert (objs w3 !! decoder_state.frame s = Some (OFrame fr)) as Hf3.
  { assert (objs (received_world
                      (sent_world w s input_buf input_size c1 payload r1) s c2 r2 fr)
              !! decoder_state.frame s = Some (OFrame fr)) as Hfr.
    { unfold received_world. cbn [objs]. rewrite lookup_insert_eq.
      by destruct (Z.ltb_spec r2 0); [lia|]. }
    destruct (interleave_loop_summary _ _ _ _ _ _ _ Hfr Hloop)
      as [[_ ->]|(_ & _ & l0 & _ & _ & _ & (_ & Hf3 & _))]; done. }
  destruct (out_params_apart out_frames out_sample_rate out_channels (objs w3)
              _ _ _ _ _ _ _ Hf3 ltac:(done) Hx1 Hx2 Hx3) as (Hn1 & Hn2 & Hn3).
  exists s, c20, r20, fr0.
  split; [done|]. split.
  { rewrite (events_since_app _ _ _ Htr). cbn. tauto. }
  split; [done|].
  assert (EvReceiveFrame r20 fr0 = EvReceiveFrame r2 fr /\ c20 = c2)
    as [[= -> ->] ->].
  { assert (c0 = c) as -> by congruence.
    assert (payload0 = payload) as -> by congruence.
    rewrite Hsend in Es0. injection Es0 as <- <-.
    rewrite Hrecv in Er0. by injection Er0 as <- <- <-. }
  unfold returned_world, reported_channels, reported_rate. cbn [objs].
  split; [by rewrite lookup_insert_ne, lookup_insert_eq by done|].
  split.
  - intros Hne. by rewrite !lookup_insert_ne, lookup_insert_eq by done.
  - intros Hne1 Hne2. by rewrite !lookup_insert_ne, lookup_insert_eq by done.
Qed.

Lemma decode_packet_out_params_witness :
  exists s c2 r2 fr,
    objs demo_decoder !! 105 = Some (ODecoder s) /\
    In (EvReceiveFrame r2 fr) (events_since demo_decoder demo_decoded) /\
    objs demo_decoded !! decoder_state.ctx s = Some (OContext c2) /\
    objs demo_decoded !! 104 =
      Some (OInt (if AVFrame.nb_channels fr =? 0 then AVCodecContext.nb_channels c2
                  else AVFrame.nb_channels fr)) /\
    (103 <> 104 ->
     objs demo_decoded !! 103 =
       Some (OInt (if AVFrame.sample_rate fr =? 0 then AVCodecContext.sample_rate c2
                   else AVFrame.sample_rate fr))) /\
    (102 <> 103 -> 102 <> 104 ->
     objs demo_decoded !! 102 = Some (OInt (AVFrame.nb_samples fr))).
Proof.
  apply (decode_packet_out_params demo_codec 105 100 1 101 102 103 104
           demo_decoder demo_decoded).
  vm_compute. reflexivity.
Defined.

(** ** Frames without samples *)

Section Empty_frames.

Variable lib : codec_library.

Lemma interleave_loop_nothing fp out F C w :
  F <= 0 \/ C <= 0 -> interleave_loop fp out F C w = Ok tt w.
Proof.
  intros [HF|HC]; unfold interleave_loop.
  - by apply for_lt_nothing.
  - destruct (for_lt_total (fun w' => w' = w)
                (fun i => for_lt C (fun ch =>
                   f <- get_frame fp ;;
                   channel_data <- at_index (AVFrame.extended_data f) ch ;;
                   v <- at_index channel_data i ;;
                   store_float out (wrap32 (wrap32 (i * C) + ch)) v)) F w eq_refl)
      as (w' & H & ->); [|done].
    intros j w1 _ ->. exists w. split; [|done]. by apply for_lt_nothing.
Qed.

Lemma deinterleave_loop_nothing fp inp n C w :
  n <= 0 \/ C <= 0 -> deinterleave_loop fp inp n C w = Ok tt w.
Proof.
  intros [Hn|HC]; unfold deinterleave_loop.
  - destruct (for_lt_total (fun w' => w' = w)
                (fun ch => for_lt n (fun i => deinterleave_body fp inp C ch i))
                C w eq_refl) as (w' & H & ->); [|done].
    intros j w1 _ ->. exists w. split; [|done]. by apply for_lt_nothing.
  - by apply for_lt_nothing.
Qed.

(** The part of [decode_packet] after the copy loop, when the loop has
    nothing to do. *)
Lemma decode_packet_empty state input_buf input_size output_buf
    out_frames out_sample_rate out_channels w s c payload c1 r1 c2 r2 fr x1 x2 x3 :
  decoder_ready w state s c ->
  payload_of w input_buf input_size = Some payload ->
  send_packet lib c payload = (c1, r1) -> 0 <= r1 ->
  receive_frame lib c1 = (c2, r2, fr) -> 0 <= r2 ->
  AVFrame.nb_samples fr <= 0 \/ reported_channels c2 fr <= 0 ->
  out_frames <> NULL -> objs w !! out_frames = Some (OInt x1) ->
  out_sample_rate <> NULL -> objs w !! out_sample_rate = Some (OInt x2) ->
  out_channels <> NULL -> objs w !! out_channels = Some (OInt x3) ->
  decode_packet lib state input_buf input_size output_buf
    out_frames out_sample_rate out_channels w =
  Ok 0 (returned_world
          (received_world (sent_world w s input_buf input_size c1 payload r1)
             s c2 r2 fr)
          s out_frames out_sample_rate out_channels
          (AVFrame.nb_samples fr) (reported_rate c2 fr) (reported_channels c2 fr)).
Proof.
  intros (Hs0 & Hs & Hc0 & Hc & Hf0 & (f0 & Hf) & Hk0 & (k0 & Hk))
         Hpay Hsend Hr1 Hrecv Hr2 Hempty Ha0 Ha Hb0 Hb Hd0 Hd.
  assert (decoder_state.ctx s <> decoder_state.packet s)
    by (eapply (addr_neq (objs w)); [exact Hc|exact Hk|done]).
  assert (decoder_state.frame s <> decoder_state.packet s)
    by (eapply (addr_neq (objs w)); [exact Hf|exact Hk|done]).
  assert (decoder_state.frame s <> decoder_state.ctx s)
    by (eapply (addr_neq (objs w)); [exact Hf|exact Hc|done]).
  assert (forall p o, caller_owned o -> objs w !! p = Some o ->
            p <> decoder_state.ctx s /\ p <> decoder_state.packet s /\
            p <> decoder_state.frame s) as Hcaller.
  { intros p o Hown Hp. repeat split; intros ->; rewrite Hp in *; simplify_eq;
      by cbn in Hown. }
  destruct (Hcaller _ (OInt x1) I Ha) as (? & ? & ?).
  destruct (Hcaller _ (OInt x2) I Hb) as (? & ? & ?).
  destruct (Hcaller _ (OInt x3) I Hd) as (? & ? & ?).
  erewrite decode_packet_submits by eassumption.
  destruct (Z.ltb_spec r1 0) as [Hlt|_]; [exfalso; clear -Hlt Hr1; lia|].
  erewrite bind_run; cycle 1.
  { eapply avcodec_receive_frame_run; [done| |done| |exact Hrecv];
      unfold sent_world; cbn [objs].
    - by rewrite lookup_insert_eq.
    - rewrite !lookup_insert_ne by done. exact Hf. }
  destruct (Z.ltb_spec r2 0) as [Hlt|_]; [exfalso; clear -Hlt Hr2; lia|].
  fold (received_world (sent_world w s input_buf input_size c1 payload r1) s c2 0 fr).
  set (w2 := mkWorld _ _ _).
  assert (w2 = received_world (sent_world w s input_buf input_size c1 payload r1)
                 s c2 r2 fr) as Hw2.
  { unfold w2, received_world, sent_world. cbn [objs oom trace].
    by destruct (Z.ltb_spec r2 0) as [Hlt|_]; [exfalso; clear -Hlt Hr2; lia|]. }
  rewrite <- Hw2.
  assert (objs w2 !! decoder_state.frame s = Some (OFrame fr)) as Hf2
    by (unfold w2; cbn [objs]; by rewrite lookup_insert_eq).
  assert (objs w2 !! decoder_state.ctx s = Some (OContext c2)) as Hc2
    by (unfold w2; cbn [objs]; by rewrite lookup_insert_ne, lookup_insert_eq).
  assert (forall p, p <> decoder_state.ctx s -> p <> decoder_state.packet s ->
            p <> decoder_state.frame s -> objs w2 !! p = objs w !! p) as Hkeep.
  { intros p ? ? ?. unfold w2, sent_world. cbn [objs].
    by rewrite !lookup_insert_ne. }
  erewrite bind_run by (by apply get_frame_run).
  erewrite bind_run by (by apply get_ctx_run).
  fold (reported_channels c2 fr). fold (reported_rate c2 fr).
  change (for_lt (AVFrame.nb_samples fr) _)
    with (interleave_loop (decoder_state.frame s) output_buf (AVFrame.nb_samples fr)
            (reported_channels c2 fr)).
  erewrite bind_run by (by apply interleave_loop_nothing).
  erewrite bind_run by (eapply store_int_run; [done|]; rewrite Hkeep by done; eauto).
  match goal with
  | |- context [bind (store_int out_sample_rate _) _ ?W] =>
      assert (exists y, objs W !! out_sample_rate = Some (OInt y)) as [y2 Hy2]
  end.
  { cbn [objs]. destruct (decide (out_sample_rate = out_frames)) as [->|].
    - rewrite lookup_insert_eq. eauto.
    - rewrite lookup_insert_ne, Hkeep by done. eauto. }
  erewrite bind_run by (eapply store_int_run; [done|exact Hy2]).
  match goal with
  | |- context [bind (store_int out_channels _) _ ?W] =>
      assert (exists y, objs W !! out_channels = Some (OInt y)) as [y3 Hy3]
  end.
  { cbn [objs]. destruct (decide (out_channels = out_sample_rate)) as [->|].
    - rewrite lookup_insert_eq. eauto.
    - rewrite lookup_insert_ne by done.
      destruct (decide (out_channels = out_frames)) as [->|].
      + rewrite lookup_insert_eq. eauto.
      + rewrite lookup_insert_ne, Hkeep by done. eauto. }
  erewrite bind_run by (eapply store_int_run; [done|exact Hy3]).
  unfold av_frame_unref.
  erewrite bind_run; cycle 1.
  { eapply upd_frame_run; [done|]. cbn [objs].
    rewrite !lookup_insert_ne by done. exact Hf2. }
  unfold pure. f_equal. unfold returned_world. cbn [objs oom trace].
  f_equal. by rewrite <- !app_assoc.
Qed.

End Empty_frames.

Section Empty_frames_encoder.

Variable lib : codec_library.

(** An encode call with no sample to copy: the scratch frame goes to the
    encoder as it is, with its sample count set. *)
Lemma encode_samples_empty state input_buf num_frames output_buf output_buf_size
    w s c f0 lo c1 r1 :
  encoder_ready w state s c f0 ->
  num_frames <= 0 \/ AVFrame.nb_channels f0 <= 0 ->
  send_frame lib c (AVFrame.set_nb_samples num_frames f0) = (c1, r1) ->
  output_buf <> NULL -> objs w !! output_buf = Some (OBytes lo) ->
  output_buf_size <= Z.of_nat (length lo) ->
  exists r w' rest,
    encode_samples lib state input_buf num_frames output_buf output_buf_size w
      = Ok r w' /\
    trace w' = trace w ++ EvSendFrame (AVFrame.set_nb_samples num_frames f0) r1 :: rest /\
    (r1 < 0 -> r = r1 /\ rest = []).
Proof.
  intros (Hs0 & Hs & Hc0 & Hc & Hf0 & Hf & Hk0 & (k0 & Hk))
         Hempty Es Ho0 Ho Hcap.
  assert (encoder_state.ctx s <> encoder_state.packet s)
    by (eapply (addr_neq (objs w)); [exact Hc|exact Hk|done]).
  assert (encoder_state.frame s <> encoder_state.packet s)
    by (eapply (addr_neq (objs w)); [exact Hf|exact Hk|done]).
  assert (encoder_state.frame s <> encoder_state.ctx s)
    by (eapply (addr_neq (objs w)); [exact Hf|exact Hc|done]).
  assert (output_buf <> encoder_state.ctx s)
    by (eapply (addr_neq (objs w)); [exact Ho|exact Hc|done]).
  assert (output_buf <> encoder_state.packet s)
    by (eapply (addr_neq (objs w)); [exact Ho|exact Hk|done]).
  assert (output_buf <> encoder_state.frame s)
    by (eapply (addr_neq (objs w)); [exact Ho|exact Hf|done]).
  unfold encode_samples, memcpy.
  erewrite bind_run by (by apply get_encoder_run).
  erewrite bind_run by (by apply get_frame_run).
  change (for_lt (AVFrame.nb_channels f0) _)
    with (deinterleave_loop (encoder_state.frame s) input_buf num_frames
            (AVFrame.nb_channels f0)).
  erewrite bind_run by (by apply deinterleave_loop_nothing).
  erewrite bind_run by (by eapply upd_frame_run).
  erewrite bind_run; cycle 1.
  { eapply avcodec_send_frame_run; [done| |done| |exact Es]; unfold set_objs; cbn [objs].
    - by rewrite lookup_insert_ne.
    - by rewrite lookup_insert_eq. }
  unfold set_objs. cbn [objs oom trace].
  destruct (Z.ltb_spec r1 0) as [Hneg|Hpos].
  { eexists _, _, []. split; [reflexivity|]. by split. }
  destruct (receive_packet lib c1) as [[c2 r2] bs] eqn:Er.
  erewrite bind_run; cycle 1.
  { eapply avcodec_receive_packet_run; [done| |done| |exact Er]; cbn [objs].
    - by rewrite lookup_insert_eq.
    - rewrite !lookup_insert_ne by done. exact Hk. }
  cbn [objs oom trace].
  destruct (r2 <? 0).
  { eexists _, _, _. split; [reflexivity|]. split; [|intros; lia].
    cbn [trace]. by rewrite <- app_assoc. }
  erewrite bind_run by (apply get_packet_run; [done|]; cbn [objs];
                         by rewrite lookup_insert_eq).
  cbn [AVPacket.size AVPacket.data].
  destruct (Z.of_nat (length bs) >? output_buf_size) eqn:Ecap.
  { eexists _, _, _. split; [reflexivity|]. split; [|intros; lia].
    cbn [trace]. by rewrite <- app_assoc. }
  assert (length bs <= length lo)%nat as Hroom by (clear -Ecap Hcap; lia).
  clear Ecap Hcap.
  assert (packet_bytes (AVPacket.mk (PktOwned bs) (Z.of_nat (length bs))) =
          pure bs) as ->.
  { unfold packet_bytes. cbn [AVPacket.size AVPacket.data].
    destruct (Z.leb_spec 0 (Z.of_nat (length bs))); [|lia].
    destruct (Z.leb_spec (Z.of_nat (length bs)) (Z.of_nat (length bs))); [|lia].
    cbn [andb]. by rewrite Nat2Z.id, firstn_all. }
  match goal with
  | |- context [bind (bind (pure bs) _) _ ?W] =>
      assert (exists w6 stores, store_bytes output_buf bs W = Ok tt w6 /\
                trace w6 = trace W ++ stores /\
                objs w6 !! encoder_state.packet s =
                  Some (OPacket (AVPacket.mk (PktOwned bs) (Z.of_nat (length bs)))))
        as (w6 & stores & Hcopy & Htr6 & Hk6)
  end.
  { unfold store_bytes. destruct bs as [|b bs'].
    - eexists _, []. split; [reflexivity|]. split; [by rewrite app_nil_r|].
      cbn [objs]. by rewrite lookup_insert_eq.
    - erewrite bind_run by (apply deref_run; [done|]; unfold set_objs; cbn [objs];
                             rewrite !lookup_insert_ne by done; exact Ho).
      cbv beta iota. apply Nat.leb_le in Hroom. rewrite Hroom.
      erewrite bind_run by (apply assign_run; [done|]; unfold set_objs; cbn [objs];
                             rewrite !lookup_insert_ne by done; eauto).
      eexists _, _. split; [reflexivity|]. unfold set_objs. cbn [objs trace].
      split; [reflexivity|]. by rewrite lookup_insert_ne, lookup_insert_eq. }
  erewrite bind_run by (erewrite bind_run by apply pure_run; exact Hcopy).
  erewrite bind_run by (by apply get_packet_run).
  unfold av_packet_unref.
  erewrite bind_run by (by eapply upd_packet_run).
  eexists _, _, _. split; [reflexivity|]. split; [|intros; lia].
  unfold set_objs. cbn [trace]. rewrite Htr6. cbn [trace].
  by rewrite <- !app_assoc.
Qed.

End Empty_frames_encoder.

(** X12.  A frame without samples is no reason to touch the caller's
    sample buffers.  When the frame the decoder hands out has no sample, or
    no channel even after the channel count of the context has been taken
    for a frame without one, [decode_packet] returns 0 after storing the
    three out-parameters and nothing else, whatever [output_buf] is, a null
    pointer included.  When [num_frames] is zero or negative, or the scratch frame
    has no channel, [encode_samples] reads nothing from [input_buf],
    whatever it is, and submits the scratch frame as it stands with its
    sample count set to [num_frames]. *)
Theorem empty_frame_calls lib :
  (forall state input_buf input_size output_buf out_frames out_sample_rate
          out_channels w s c payload c1 r1 c2 r2 fr x1 x2 x3,
     decoder_ready w state s c ->
     payload_of w input_buf input_size = Some payload ->
     send_packet lib c payload = (c1, r1) -> 0 <= r1 ->
     receive_frame lib c1 = (c2, r2, fr) -> 0 <= r2 ->
     AVFrame.nb_samples fr <= 0 \/ reported_channels c2 fr <= 0 ->
     out_frames <> NULL -> objs w !! out_frames = Some (OInt x1) ->
     out_sample_rate <> NULL -> objs w !! out_sample_rate = Some (OInt x2) ->
     out_channels <> NULL -> objs w !! out_channels = Some (OInt x3) ->
     exists w',
       decode_packet lib state input_buf input_size output_buf
         out_frames out_sample_rate out_channels w = Ok 0 w' /\
       events_since w w' =
         [EvSendPacket payload r1; EvReceiveFrame r2 fr;
          EvStoreI out_frames (AVFrame.nb_samples fr);
          EvStoreI out_sample_rate (reported_rate c2 fr);
          EvStoreI out_channels (reported_channels c2 fr)]) /\
  (forall state input_buf num_frames output_buf output_buf_size w s c f0 lo c1 r1,
     encoder_ready w state s c f0 ->
     num_frames <= 0 \/ AVFrame.nb_channels f0 <= 0 ->
     send_frame lib c (AVFrame.set_nb_samples num_frames f0) = (c1, r1) ->
     output_buf <> NULL -> objs w !! output_buf = Some (OBytes lo) ->
     output_buf_size <= Z.of_nat (length lo) ->
     exists r w' rest,
       encode_samples lib state input_buf num_frames output_buf output_buf_size w
         = Ok r w' /\
       events_since w w' =
         EvSendFrame (AVFrame.set_nb_samples num_frames f0) r1 :: rest /\
       (r1 < 0 -> r = r1 /\ rest = [])).
Proof.
  split.
  - intros * Hr Hpay Hsend Hr1 Hrecv Hr2 Hempty Ha0 Ha Hb0 Hb Hd0 Hd.
    eexists. split; [by eapply decode_packet_empty|].
    apply events_since_app. unfold returned_world, received_world, sent_world.
    cbn [trace]. by rewrite <- !app_assoc.
  - intros * Hr Hempty Es Ho0 Ho Hcap.
    destruct (encode_samples_empty lib state input_buf num_frames output_buf
                output_buf_size w s c f0 lo c1 r1 Hr Hempty Es Ho0 Ho Hcap)
      as (r & w' & rest & H & Htr & Hneg).
    exists r, w', rest. split; [done|]. split; [|done].
    by apply events_since_app.
Qed.

Lemma silent_decoder_ready :
  decoder_ready silent_decoder 105 demo_decoder_state demo_decoder_ctx.
Proof.
  unfold decoder_ready. repeat split; try discriminate.
  - exists AVFrame.blank. reflexivity.
  - exists AVPacket.blank. reflexivity.
Defined.

Lemma empty_frame_calls_witness :
  (exists w',
     decode_packet silent_codec 105 100 1 NULL 102 103 104 silent_decoder = Ok 0 w' /\
     events_since silent_decoder w' =
       [EvSendPacket [Byte.x0b] 0;
        EvReceiveFrame 0 (AVFrame.mk 0 AV_SAMPLE_FMT_FLTP 48000 2 []);
        EvStoreI 102 (AVFrame.nb_samples (AVFrame.mk 0 AV_SAMPLE_FMT_FLTP 48000 2 []));
        EvStoreI 103 (reported_rate demo_decoder_ctx
                        (AVFrame.mk 0 AV_SAMPLE_FMT_FLTP 48000 2 []));
        EvStoreI 104 (reported_channels demo_decoder_ctx
                        (AVFrame.mk 0 AV_SAMPLE_FMT_FLTP 48000 2 []))]) /\
  (exists r w' rest,
     encode_samples demo_codec 105 NULL 0 99 4 demo_encoder = Ok r w' /\
     events_since demo_encoder w' =
       EvSendFrame (AVFrame.set_nb_samples 0 demo_encoder_frame) 0 :: rest /\
     (0 < 0 -> r = 0 /\ rest = [])).
Proof.
  split.
  - apply (proj1 (empty_frame_calls silent_codec) 105 100 1 NULL 102 103 104
             silent_decoder demo_decoder_state demo_decoder_ctx [Byte.x0b]
             demo_decoder_ctx 0 demo_decoder_ctx 0
             (AVFrame.mk 0 AV_SAMPLE_FMT_FLTP 48000 2 []) 0 0 0
             silent_decoder_ready).
    + reflexivity.
    + reflexivity.
    + lia.
    + reflexivity.
    + lia.
    + left. cbn. lia.
    + discriminate.
    + reflexivity.
    + discriminate.
    + reflexivity.
    + discriminate.
    + reflexivity.
  - apply (proj2 (empty_frame_calls demo_codec) 105 NULL 0 99 4 demo_encoder
             demo_encoder_state demo_encoder_ctx demo_encoder_frame
             [Byte.x00; Byte.x00; Byte.x00; Byte.x00] demo_encoder_ctx 0
             demo_encoder_ready).
    + left. lia.
    + reflexivity.
    + discriminate.
    + reflexivity.
    + vm_compute. discriminate.
Defined.

(** ** More samples than the scratch frame holds *)

Section Overrun.

Lemma iter_from_faults (P : world -> Prop) (body : Z -> M unit) n i k w :
  P w -> i <= k < i + Z.of_nat n ->
  (forall j w1 w2, i <= j < k -> P w1 -> body j w1 = Ok tt w2 -> P w2) ->
  (forall w1, P w1 -> body k w1 = Fault) ->
  iter_from i n body w = Fault.
Proof.
  revert i w. induction n as [|n IH]; intros i w HP Hk Hstep Hbad; [lia|].
  cbn [iter_from]. destruct (decide (i = k)) as [->|Hne].
  - apply bind_fault. by apply Hbad.
  - destruct (body i w) as [|[] w2] eqn:Hb; [by apply bind_fault|].
    rewrite (bind_run _ _ _ _ _ Hb).
    apply IH; [|lia| |done].
    + apply (Hstep i w w2); [lia|done|done].
    + intros j w1 w3 Hj. apply Hstep. lia.
Qed.

Lemma for_lt_faults (P : world -> Prop) (body : Z -> M unit) hi k w :
  P w -> 0 <= k < hi ->
  (forall j w1 w2, 0 <= j < k -> P w1 -> body j w1 = Ok tt w2 -> P w2) ->
  (forall w1, P w1 -> body k w1 = Fault) ->
  for_lt hi body w = Fault.
Proof.
  intros HP Hk Hstep Hbad. unfold for_lt.
  apply (iter_from_faults P body (Z.to_nat hi) 0 k); [done|lia|done|done].
Qed.

Lemma at_index_fault {A} (l : list A) i w :
  Z.of_nat (length l) <= i -> at_index l i w = Fault.
Proof.
  intros H. unfold at_index. destruct (Z.ltb_spec i 0); [done|].
  by rewrite lookup_ge_None_2 by lia.
Qed.

Variables (fp inp : ptr) (n C : Z) (f0 : AVFrame.t).

Lemma deinterleave_body_shaped ch i w1 w2 :
  shaped fp f0 w1 -> deinterleave_body fp inp C ch i w1 = Ok tt w2 -> shaped fp f0 w2.
Proof.
  intros (Hfp0 & planes & Hpl & Hlen) H. unfold deinterleave_body in H.
  inv_bind H as v wa Hv.
  apply load_float_Ok in Hv as (_ & l' & _ & _ & _ & ->).
  apply store_plane_Ok in H as (f & plane & _ & Hf & _ & Hp & Hip & ->).
  cbn [objs] in *. rewrite Hpl in Hf. injection Hf as <-.
  cbn [AVFrame.extended_data AVFrame.set_extended_data] in Hp.
  split; [done|].
  exists (<[Z.to_nat ch:=<[Z.to_nat i:=v]> plane]> planes).
  unfold set_objs. cbn [objs AVFrame.extended_data AVFrame.set_extended_data].
  split; [by rewrite lookup_insert_eq|].
  rewrite <- Hlen. rewrite list_fmap_insert, length_insert.
  apply list_insert_id. by rewrite list_lookup_fmap, Hp.
Qed.

Lemma deinterleave_body_overrun ch w1 :
  shaped fp f0 w1 -> 0 <= ch ->
  deinterleave_body fp inp C ch (plane_room f0 ch) w1 = Fault.
Proof.
  intros (Hfp0 & planes & Hpl & Hlen) Hch. unfold deinterleave_body.
  match goal with
  | |- bind ?m _ ?W = Fault => destruct (m W) as [|v wa] eqn:Hv
  end; [by apply bind_fault|].
  rewrite (bind_run _ _ _ _ _ Hv).
  apply load_float_Ok in Hv as (_ & l' & _ & _ & _ & ->).
  unfold store_plane.
  erewrite bind_run by (apply get_frame_run; [done|exact Hpl]).
  cbn [AVFrame.extended_data AVFrame.set_extended_data].
  unfold plane_room.
  assert ((length <$> planes) !! Z.to_nat ch
          = (length <$> AVFrame.extended_data f0) !! Z.to_nat ch) as Hl
    by (by rewrite Hlen).
  rewrite !list_lookup_fmap in Hl.
  destruct (AVFrame.extended_data f0 !! Z.to_nat ch) as [plane0|] eqn:E0;
    destruct (planes !! Z.to_nat ch) as [plane|] eqn:E; try discriminate.
  - injection Hl as Hl.
    erewrite bind_run by (apply at_index_run; [done|exact E]).
    apply bind_fault. apply at_index_fault. lia.
  - apply bind_fault. unfold at_index. destruct (Z.ltb_spec ch 0); [done|].
    by rewrite E.
Qed.

Lemma deinterleave_loop_overrun ch w :
  shaped fp f0 w -> 0 <= ch < C -> plane_room f0 ch < n ->
  deinterleave_loop fp inp n C w = Fault.
Proof.
  intros Hsh Hch Hroom. unfold deinterleave_loop.
  assert (0 <= plane_room f0 ch) as Hpos
    by (unfold plane_room; destruct (_ !! _); lia).
  apply (for_lt_faults (shaped fp f0) _ C ch); [done|done| |].
  - intros j w1 w2 _ Hs1 Hrow.
    apply (for_lt_ind (fun _ w' => shaped fp f0 w') _ _ _ _ Hrow Hs1).
    intros i wa wb _. apply deinterleave_body_shaped.
  - intros w1 Hs1.
    apply (for_lt_faults (shaped fp f0) _ n (plane_room f0 ch)); [done|lia| |].
    + intros i wa wb _. apply deinterleave_body_shaped.
    + intros wa Hsa. apply deinterleave_body_overrun; [done|lia].
Qed.

End Overrun.

(** X13.  [encode_samples] does not compare [num_frames] with the room of
    the scratch frame.  When some channel of the frame has a plane with room
    for fewer than [num_frames] samples, or no plane at all, the call writes
    past the plane: its behaviour is undefined, whatever the input and the
    output buffers are. *)
Theorem encode_samples_overrun lib state input_buf num_frames output_buf
    output_buf_size w s f0 ch :
  state <> NULL -> objs w !! state = Some (OEncoder s) ->
  encoder_state.frame s <> NULL ->
  objs w !! encoder_state.frame s = Some (OFrame f0) ->
  0 <= ch < AVFrame.nb_channels f0 ->
  plane_room f0 ch < num_frames ->
  encode_samples lib state input_buf num_frames output_buf output_buf_size w = Fault.
Proof.
  intros Hs0 Hs Hf0 Hf Hch Hroom. unfold encode_samples.
  erewrite bind_run by (by apply get_encoder_run).
  erewrite bind_run by (by apply get_frame_run).
  change (for_lt (AVFrame.nb_channels f0) _)
    with (deinterleave_loop (encoder_state.frame s) input_buf num_frames
            (AVFrame.nb_channels f0)).
  apply bind_fault.
  apply (deinterleave_loop_overrun _ _ _ _ f0 ch); [|done|done].
  split; [done|]. exists (AVFrame.extended_data f0). split; [|done].
  rewrite Hf. by destruct f0.
Qed.

Lemma encode_samples_overrun_witness :
  encode_samples demo_codec 105 98 4 99 4 demo_encoder = Fault /\
  encode_samples demo_codec 105 98 3 99 4 bare_encoder = Fault.
Proof.
  split.
  - apply (encode_samples_overrun demo_codec 105 98 4 99 4 demo_encoder
             demo_encoder_state demo_encoder_frame 0).
    + discriminate.
    + reflexivity.
    + discriminate.
    + reflexivity.
    + cbn. lia.
    + vm_compute. reflexivity.
  - apply (encode_samples_overrun demo_codec 105 98 3 99 4 bare_encoder
             demo_encoder_state
             (AVFrame.mk 3 AV_SAMPLE_FMT_FLTP 48000 2 []) 0).
    + discriminate.
    + reflexivity.
    + discriminate.
    + reflexivity.
    + cbn. lia.
    + vm_compute. reflexivity.
Defined.

(** ** Through a codec that keeps the samples *)

Section Round_trip.

(** The frame an encode call submits is the de-interleaved input. *)
Lemma encode_samples_submitted lib state input_buf num_frames output_buf
    output_buf_size w r w' fr r1 :
  encode_samples lib state input_buf num_frames output_buf output_buf_size w
    = Ok r w' ->
  In (EvSendFrame fr r1) (events_since w w') ->
  exists s f0,
    objs w !! state = Some (OEncoder s) /\
    objs w !! encoder_state.frame s = Some (OFrame f0) /\
    deinterleaved w input_buf num_frames f0 fr.
Proof.
  intros H Hin. apply encode_samples_frame in H
    as (s & f0 & c & fr0 & c1 & r10 & loads & rest
        & _ & Hs & Hf & _ & Hde & _ & Hev & Hld & Hrest & _).
  exists s, f0. repeat (split; [done|]).
  rewrite Hev in Hin. apply in_app_or in Hin as [Hin|[Hin|Hin]].
  - apply list_elem_of_In in Hin.
    rewrite Forall_forall in Hld. destruct (Hld _ Hin) as (i & ch & _ & _ & E & _).
    discriminate.
  - by injection Hin as <- <-.
  - apply list_elem_of_In in Hin.
    rewrite Forall_forall in Hrest. by destruct (Hrest _ Hin fr r1).
Qed.

(** The frame a successful decode call received is in the output buffer,
    interleaved. *)
Lemma decode_packet_samples lib state input_buf input_size output_buf
    out_frames out_sample_rate out_channels w w' r2 fr :
  decode_packet lib state input_buf input_size output_buf
    out_frames out_sample_rate out_channels w = Ok 0 w' ->
  In (EvReceiveFrame r2 fr) (events_since w w') ->
  exists c2,
    forall i ch, 0 <= i < AVFrame.nb_samples fr ->
      0 <= ch < reported_channels c2 fr ->
      exists v, sample fr ch i = Some v /\
        float_at w' output_buf (i * reported_channels c2 fr + ch) = Some v.
Proof.
  intros H Hin. apply decode_success in H
    as (s & c & k0 & f0 & payload & c1 & r1 & c2 & r20 & fr0 & w3 & x1 & x2 & x3
        & Hs0 & Hs & Hc & Hk & Hf & Hpay & Hsend & Hr1 & Hrecv & Hr2 & Hloop
        & Hx1 & Hx2 & Hx3 & ->).
  set (w2 := received_world (sent_world w s input_buf input_size c1 payload r1)
               s c2 r20 fr0) in *.
  assert (objs w2 !! decoder_state.frame s = Some (OFrame fr0)) as Hfr.
  { unfold w2, received_world. cbn [objs]. rewrite lookup_insert_eq.
    by destruct (Z.ltb_spec r20 0); [lia|]. }
  pose proof (interleave_loop_summary _ _ _ _ _ _ _ Hfr Hloop) as Hsum.
  assert (trace w2 = trace w ++ [EvSendPacket payload r1; EvReceiveFrame r20 fr0])
    as Htr2.
  { unfold w2, received_world, sent_world. cbn [trace]. by rewrite <- app_assoc. }
  assert (exists stores,
            trace w3 = trace w2 ++ stores /\
            Forall (store_within output_buf
                      (AVFrame.nb_samples fr0 * reported_channels c2 fr0)) stores)
    as (stores & Htr3 & Hst).
  { destruct Hsum as [[_ ->]|(_ & _ & l0 & _ & _ & _ & (_ & _ & _ & Hst & _))];
      [|done].
    exists []. by rewrite app_nil_r. }
  assert (fr = fr0) as ->.
  { unfold events_since, returned_world in Hin. cbn [trace] in Hin.
    rewrite Htr3, Htr2, <- !app_assoc, drop_app_length in Hin.
    cbn [app] in Hin. destruct Hin as [Hin|[Hin|Hin]]; [discriminate| |].
    - by injection Hin as _ <-.
    - apply in_app_or in Hin as [Hin|Hin].
      + apply list_elem_of_In in Hin. rewrite Forall_forall in Hst.
        destruct (Hst _ Hin) as (j & v & E & _). discriminate.
      + cbn in Hin. intuition discriminate. }
  exists c2.
  set (F := AVFrame.nb_samples fr0) in *. set (C := reported_channels c2 fr0) in *.
  destruct Hsum as [[Hdeg ->]|(HF & HC & l0 & Hout & Hlen & Hsmall & Hinv)];
    [intros; lia|].
  destruct Hinv as (_ & Hfr3 & _ & _ & (l' & Hl' & _ & _ & _ & Hval)).
  intros i ch Hi Hch.
  destruct (Hval Hsmall i ch) as (v & Hv & Hlv); [unfold processed; lia|].
  exists v. split; [done|].
  assert (output_buf <> out_frames) by (eapply (addr_neq (objs w3)); eauto; done).
  assert (output_buf <> out_sample_rate).
  { intros <-. rewrite lookup_insert_ne in Hx2 by done. congruence. }
  assert (output_buf <> out_channels).
  { intros <-. rewrite !lookup_insert_ne in Hx3 by done. congruence. }
  assert (output_buf <> decoder_state.frame s)
    by (eapply (addr_neq (objs w3)); eauto; done).
  unfold float_at, returned_world. cbn [objs].
  rewrite !lookup_insert_ne by done. rewrite Hl'.
  destruct (Z.ltb_spec (i * C + ch) 0); [nia|done].
Qed.

End Round_trip.

(** X14.  De-interleaving and interleaving are inverse to each other.
    Take an [encode_samples] call that returns and submitted the frame [fr],
    and a [decode_packet] call that returns 0 and received the frame [fr'].
    If [fr'] has the channel count of [fr] and carries its samples, the
    decoder leaves in its output buffer, at every index below
    [num_frames * channels], the float the encoder found at that index of its
    input. *)
Theorem interleave_round_trip lib_e lib_d
    state_e input_buf num_frames packet_buf packet_buf_size we r we' fr r1
    state_d packet_in packet_size output_buf out_frames out_sample_rate out_channels
    wd wd' fr' r2 :
  encode_samples lib_e state_e input_buf num_frames packet_buf packet_buf_size we
    = Ok r we' ->
  In (EvSendFrame fr r1) (events_since we we') ->
  decode_packet lib_d state_d packet_in packet_size output_buf
    out_frames out_sample_rate out_channels wd = Ok 0 wd' ->
  In (EvReceiveFrame r2 fr') (events_since wd wd') ->
  AVFrame.nb_samples fr' = AVFrame.nb_samples fr ->
  AVFrame.nb_channels fr' = AVFrame.nb_channels fr ->
  0 < AVFrame.nb_channels fr ->
  (forall i ch, 0 <= i < AVFrame.nb_samples fr -> 0 <= ch < AVFrame.nb_channels fr ->
     sample fr' ch i = sample fr ch i) ->
  forall j, 0 <= j < num_frames * AVFrame.nb_channels fr ->
    exists v, float_at we input_buf j = Some v /\
              float_at wd' output_buf j = Some v.
Proof.
  intros He Hsent Hd Hrecv Hn Hch HC Hsame j Hj.
  destruct (encode_samples_submitted _ _ _ _ _ _ _ _ _ _ _ He Hsent)
    as (s & f0 & _ & _ & Hde).
  destruct (decode_packet_samples _ _ _ _ _ _ _ _ _ _ _ _ Hd Hrecv) as (c2 & Hout).
  destruct Hde as (Hns & _ & _ & Hchs & _ & Hval & _).
  rewrite Hchs in *. rewrite Hns in *.
  set (C := AVFrame.nb_channels f0) in *.
  assert (reported_channels c2 fr' = C) as HC'.
  { unfold reported_channels. rewrite Hch.
    destruct (Z.eqb_spec C 0); [lia|done]. }
  rewrite HC' in Hout.
  assert (j = j / C * C + j mod C) as Ej
    by (pose proof (Z.div_mod j C ltac:(lia)); lia).
  assert (0 <= j mod C < C) as Hm by (apply Z.mod_pos_bound; lia).
  assert (0 <= j / C < num_frames) as Hq.
  { split; [apply Z.div_pos; lia|]. apply Z.div_lt_upper_bound; lia. }
  destruct (Hval (j / C) (j mod C) Hq Hm) as (v & Hin_v & Hs_v).
  destruct (Hout (j / C) (j mod C)) as (v' & Hs_v' & Hout_v); [lia|done|].
  rewrite Hsame, Hs_v in Hs_v' by done. injection Hs_v' as <-.
  exists v. rewrite Ej. done.
Qed.

Lemma interleave_round_trip_witness :
  Forall (fun j => exists v, float_at demo_encoder 98 j = Some v /\
                             float_at echo_decoded 101 j = Some v)
    [0; 1; 2; 3; 4; 5].
Proof.
  assert (forall j, 0 <= j < 3 * 2 ->
            exists v, float_at demo_encoder 98 j = Some v /\
                      float_at echo_decoded 101 j = Some v) as H;
    [|repeat constructor; apply H; lia].
  apply (interleave_round_trip demo_codec echo_codec
           105 98 3 99 4 demo_encoder 2 demo_encoded
           (AVFrame.mk 3 AV_SAMPLE_FMT_FLTP 48000 2 [[1; 3; 5]; [2; 4; 6]]) 0
           105 99 2 101 102 103 104 echo_decoder echo_decoded
           (AVFrame.mk 3 AV_SAMPLE_FMT_FLTP 48000 2 [[1; 3; 5]; [2; 4; 6]]) 0).
  - vm_compute. reflexivity.
  - vm_compute. tauto.
  - vm_compute. reflexivity.
  - vm_compute. tauto.
  - reflexivity.
  - reflexivity.
  - cbn. lia.
  - reflexivity.
Defined.
